(** * Pebble: the day-keyed expense ledger of [App.tsx]

    A shallow embedding of the ledger logic of the single-file Expo
    application (date helpers, ledger mutations, derived aggregates and
    the CSV export) together with the properties its specification
    states about them.

    Conventions of the embedding.
    - A JavaScript [number] is the type [Num.number]: the IEEE special
      values [NaN], [Infinity], [-Infinity] and the finite values, a
      finite value being the exact rational it denotes.  Rounding and
      overflow of binary64 arithmetic and the sign of zero are not
      represented.  What is stated of a sum is therefore what the
      [reduce] of the code computes, the amounts added one after the
      other from the left, and how totals compare; no statement moves
      an amount from one place of a sum to another.
    - A timestamp / [Date] time value is an integer number of
      milliseconds since the epoch ([Z]).
    - A JavaScript object used as a dictionary ([DayBook]) is an
      association list in property order, updated in place.
    - The host environment (time zone, locale formatting, random ids,
      the clock) enters as explicit arguments, one argument for every
      reading of the clock.  Local time is UTC plus a constant offset
      [tz] in milliseconds. *)

From Stdlib Require Import ZArith QArith Qround Qabs Lia Lqa Bool List.
From Stdlib Require Import Ascii String DecimalString DecimalZ.
From Stdlib Require Import Sorted Permutation.
Import ListNotations.

Local Open Scope string_scope.
Local Open Scope Z_scope.

(* ================================================================== *)
(** ** JavaScript numbers *)
(* ================================================================== *)

Module Num.

Inductive number : Type :=
| NaN
| NegInfinity
| Finite (q : Q)
| Infinity.

Definition zero : number := Finite 0.
Definition one : number := Finite 1.
Definition ofZ (z : Z) : number := Finite (inject_Z z).
Definition ofNat (n : nat) : number := ofZ (Z.of_nat n).

(** [Qltb a b] decides [a < b] on rationals. *)
Definition Qltb (a b : Q) : bool := negb (Qle_bool b a).

(** [x < y]; any comparison with [NaN] is [false]. *)
Definition ltb (x y : number) : bool :=
  match x, y with
  | NaN, _ | _, NaN => false
  | NegInfinity, NegInfinity => false
  | NegInfinity, _ => true
  | _, NegInfinity => false
  | Infinity, _ => false
  | Finite _, Infinity => true
  | Finite a, Finite b => Qltb a b
  end.

(** [x > y] *)
Definition gtb (x y : number) : bool := ltb y x.

(** [x <= y]; [false] when either side is [NaN]. *)
Definition leb (x y : number) : bool :=
  match x, y with
  | NaN, _ | _, NaN => false
  | NegInfinity, _ => true
  | _, Infinity => true
  | Infinity, _ => false
  | _, NegInfinity => false
  | Finite a, Finite b => Qle_bool a b
  end.

Definition neg (x : number) : number :=
  match x with
  | NaN => NaN
  | NegInfinity => Infinity
  | Infinity => NegInfinity
  | Finite a => Finite (- a)
  end.

(** [x + y] *)
Definition add (x y : number) : number :=
  match x, y with
  | NaN, _ | _, NaN => NaN
  | Infinity, NegInfinity | NegInfinity, Infinity => NaN
  | Infinity, _ | _, Infinity => Infinity
  | NegInfinity, _ | _, NegInfinity => NegInfinity
  | Finite a, Finite b => Finite (a + b)
  end.

(** [x - y] *)
Definition sub (x y : number) : number := add x (neg y).

(** [x / y] *)
Definition div (x y : number) : number :=
  match x, y with
  | NaN, _ | _, NaN => NaN
  | Finite _, Infinity | Finite _, NegInfinity => zero
  | Finite a, Finite b =>
      if Qeq_bool b 0 then
        if Qeq_bool a 0 then NaN
        else if Qltb a 0 then NegInfinity else Infinity
      else Finite (a / b)
  | Infinity, Finite b => if Qltb b 0 then NegInfinity else Infinity
  | NegInfinity, Finite b => if Qltb b 0 then Infinity else NegInfinity
  | _, _ => NaN
  end.

(** [Math.max(x, y)]: [NaN] as soon as one argument is [NaN]. *)
Definition Math_max (x y : number) : number :=
  match x, y with
  | NaN, _ | _, NaN => NaN
  | _, _ => if ltb x y then y else x
  end.

(** [Math.min(x, y)] *)
Definition Math_min (x y : number) : number :=
  match x, y with
  | NaN, _ | _, NaN => NaN
  | _, _ => if ltb y x then y else x
  end.

(** Equality of numbers up to the representation of a rational. *)
Definition eqv (x y : number) : Prop :=
  match x, y with
  | NaN, NaN | Infinity, Infinity | NegInfinity, NegInfinity => True
  | Finite a, Finite b => a == b
  | _, _ => False
  end.

(** [lo <= x <= hi] *)
Definition within (lo hi x : number) : Prop :=
  leb lo x = true /\ leb x hi = true.

End Num.

Export Num(number, NaN, NegInfinity, Finite, Infinity).

Declare Scope num_scope.
Delimit Scope num_scope with num.
Infix "==" := Num.eqv (at level 70, no associativity) : num_scope.

(* ================================================================== *)
(** ** JavaScript strings *)
(* ================================================================== *)

Module Str.

(** [String(n)] for an integer [n]. *)
Definition ofZ (z : Z) : string := NilZero.string_of_int (Z.to_int z).

(** The filler of [padStart]: [pad] repeated and cut to [n] characters.
    [rest] is what remains of the copy of [pad] being written. *)
Fixpoint filler (pad rest : string) (n : nat) : string :=
  match n with
  | O => ""
  | S n' =>
      match rest with
      | String c rest' => String c (filler pad rest' n')
      | EmptyString =>
          match pad with
          | String c pad' => String c (filler pad pad' n')
          | EmptyString => ""
          end
      end
  end.

(** [s.padStart(targetLength, padString)] *)
Definition padStart (s : string) (targetLength : nat) (padString : string)
  : string :=
  if (targetLength <=? String.length s)%nat then s
  else match padString with
       | EmptyString => s
       | _ => filler padString padString (targetLength - String.length s) ++ s
       end.

(** [s.replace(/c/g, d)] for single characters [c] and [d]. *)
Fixpoint replaceAll (c d : ascii) (s : string) : string :=
  match s with
  | EmptyString => EmptyString
  | String a s' => String (if Ascii.eqb a c then d else a) (replaceAll c d s')
  end.

(** [rows.join(sep)] *)
Definition join (sep : string) (rows : list string) : string :=
  String.concat sep rows.

Definition isDigit (a : ascii) : bool :=
  let n := nat_of_ascii a in ((48 <=? n) && (n <=? 57))%nat.

Fixpoint all (p : ascii -> bool) (s : string) : bool :=
  match s with
  | EmptyString => true
  | String a s' => p a && all p s'
  end.

Fixpoint occurs (c : ascii) (s : string) : bool :=
  match s with
  | EmptyString => false
  | String a s' => Ascii.eqb a c || occurs c s'
  end.

End Str.

(* ================================================================== *)
(** ** Objects used as dictionaries *)
(* ================================================================== *)

Module Obj.

Section Dict.
Context {V : Type}.

(** Own string-keyed properties in property order.  None of the keys
    used by the application is an array index, so property order is
    insertion order. *)
Definition t : Type := list (string * V).

(** [o[k]], [None] standing for [undefined]. *)
Fixpoint get (k : string) (o : t) : option V :=
  match o with
  | [] => None
  | (k', v) :: o' => if String.eqb k' k then Some v else get k o'
  end.

(** [{ ...o, [k]: v }]: an existing property keeps its position and
    takes the new value, a new property goes last. *)
Fixpoint set (k : string) (v : V) (o : t) : t :=
  match o with
  | [] => [(k, v)]
  | (k', v') :: o' =>
      if String.eqb k' k then (k', v) :: o' else (k', v') :: set k v o'
  end.

(** [Object.keys(o)] *)
Definition keys (o : t) : list string := map fst o.

(** [Object.values(o)] *)
Definition values (o : t) : list V := map snd o.

End Dict.

Arguments t : clear implicits.

End Obj.

(* ================================================================== *)
(** ** The [Date] object *)
(* ================================================================== *)

Module JSDate.

(** A [Date] is its time value: milliseconds since the epoch, UTC.
    (Invalid dates do not arise: the application only builds dates from
    the clock and from stored timestamps.) *)
Definition Date : Type := Z.

Definition msPerDay : Z := 86400000.

Definition Day (t : Z) : Z := t / msPerDay.
Definition TimeWithinDay (t : Z) : Z := t mod msPerDay.

(** Day number (days since 1970-01-01) of the first day of month
    [m] (1..12) of year [y] in the proleptic Gregorian calendar, plus
    [d - 1]. *)
Definition days_from_civil (y m d : Z) : Z :=
  let y' := if m <=? 2 then y - 1 else y in
  let era := y' / 400 in
  let yoe := y' - era * 400 in
  let mp := if 2 <? m then m - 3 else m + 9 in
  let doy := (153 * mp + 2) / 5 + d - 1 in
  let doe := yoe * 365 + yoe / 4 - yoe / 100 + doy in
  era * 146097 + doe - 719468.

(** Year, month of year and day of month of one 400-year era, from the
    day of the era (0 is March 1st of the era's first year). *)
Definition civil_of_doe (doe : Z) : Z * Z * Z :=
  let yoe := (doe - doe / 1460 + doe / 36524 - doe / 146096) / 365 in
  let doy := doe - (365 * yoe + yoe / 4 - yoe / 100) in
  let mp := (5 * doy + 2) / 153 in
  let d := doy - (153 * mp + 2) / 5 + 1 in
  let m := if mp <? 10 then mp + 3 else mp - 9 in
  (if m <=? 2 then yoe + 1 else yoe, m, d).

(** Year, month (1..12) and day of month of a day number. *)
Definition civil_from_days (z : Z) : Z * Z * Z :=
  let z' := z + 719468 in
  let era := z' / 146097 in
  let doe := z' - era * 146097 in
  let '(y, m, d) := civil_of_doe doe in
  (y + era * 400, m, d).

Definition YearFromTime (t : Z) : Z :=
  let '(y, _, _) := civil_from_days (Day t) in y.

(** Month of the year, January being 0. *)
Definition MonthFromTime (t : Z) : Z :=
  let '(_, m, _) := civil_from_days (Day t) in m - 1.

Definition DateFromTime (t : Z) : Z :=
  let '(_, _, d) := civil_from_days (Day t) in d.

Definition MakeTime (hour min sec ms : Z) : Z :=
  hour * 3600000 + min * 60000 + sec * 1000 + ms.

Definition MakeDay (year month date : Z) : Z :=
  let ym := year + month / 12 in
  let mn := month mod 12 in
  days_from_civil ym (mn + 1) 1 + date - 1.

Definition MakeDate (day time : Z) : Z := day * msPerDay + time.

Section Local.
(** Offset of local time from UTC in milliseconds, taken constant. *)
Variable tz : Z.

Definition LocalTime (t : Z) : Z := t + tz.
Definition UTC (t : Z) : Z := t - tz.

Definition getFullYear (d : Date) : Z := YearFromTime (LocalTime d).
Definition getMonth (d : Date) : Z := MonthFromTime (LocalTime d).
Definition getDate (d : Date) : Z := DateFromTime (LocalTime d).

(** [d.setHours(hour, min, sec, ms)], returning the updated date. *)
Definition setHours (hour min sec ms : Z) (d : Date) : Date :=
  let t := LocalTime d in
  UTC (MakeDate (Day t) (MakeTime hour min sec ms)).

(** [d.setDate(date)], returning the updated date. *)
Definition setDate (date : Z) (d : Date) : Date :=
  let t := LocalTime d in
  UTC (MakeDate (MakeDay (YearFromTime t) (MonthFromTime t) date)
                (TimeWithinDay t)).

(** The local calendar day of an instant, as a day number. *)
Definition localDay (d : Date) : Z := Day (LocalTime d).
End Local.

End JSDate.

(* ================================================================== *)
(** ** The application *)
(* ================================================================== *)

(** *** Types *)

Record ExpenseEntry : Type := mkEntry {
  id : string;
  amount : number;
  timestamp : Z;
  category : string;
  note : string
}.

Definition DayBook : Type := Obj.t (list ExpenseEntry).

Record Category : Type := mkCategory {
  cat_id : string;
  cat_name : string;
  cat_color : string;
  cat_icon : string
}.

Record Currency : Type := mkCurrency {
  code : string;
  symbol : string;
  cur_name : string
}.

Definition DEFAULT_CATEGORIES : list Category :=
  [ mkCategory "food" "Food" "#ef4444" "food-icon";
    mkCategory "transport" "Transport" "#3b82f6" "transport-icon";
    mkCategory "entertainment" "Entertainment" "#8b5cf6" "entertainment-icon";
    mkCategory "shopping" "Shopping" "#10b981" "shopping-icon";
    mkCategory "health" "Health" "#f59e0b" "health-icon";
    mkCategory "other" "Other" "#6b7280" "other-icon" ].

Definition CURRENCY_OPTIONS : list Currency :=
  [ mkCurrency "USD" "$" "US Dollar";
    mkCurrency "EUR" "EUR" "Euro";
    mkCurrency "GBP" "GBP" "British Pound";
    mkCurrency "JPY" "JPY" "Japanese Yen";
    mkCurrency "CAD" "C$" "Canadian Dollar";
    mkCurrency "AUD" "A$" "Australian Dollar" ].

(** *** Date helpers *)

(** [dateKey(d)]: the template [`${y}-${m}-${day}`]. *)
Definition dateKey (tz : Z) (d : JSDate.Date) : string :=
  let y := JSDate.getFullYear tz d in
  let m := Str.padStart (Str.ofZ (JSDate.getMonth tz d + 1)) 2 "0" in
  let day := Str.padStart (Str.ofZ (JSDate.getDate tz d)) 2 "0" in
  Str.ofZ y ++ "-" ++ m ++ "-" ++ day.

(** *** Currency helper *)

Module NumFmt.

Section Host.
(** [Number::toString] of a finite value of magnitude at least 10^21
    (exponent notation), which belongs to the host. *)
Variable exponentNotation : Q -> string.

(** [x.toFixed(f)] *)
Definition toFixed (x : number) (f : nat) : string :=
  match x with
  | NaN => "NaN"
  | Infinity => "Infinity"
  | NegInfinity => "-Infinity"
  | Finite q =>
      let s := if Num.Qltb q 0 then "-" else "" in
      let x := Qabs q in
      let m :=
        if Qle_bool (inject_Z (10 ^ 21)) x then exponentNotation x
        else
          let n := Qfloor (x * inject_Z (10 ^ Z.of_nat f) + (1 # 2)) in
          let m := Str.ofZ n in
          if (f =? 0)%nat then m
          else
            let k := String.length m in
            let m := if (k <=? f)%nat
                     then Str.filler "0" "0" (f + 1 - k) ++ m else m in
            let k := String.length m in
            substring 0 (k - f) m ++ "." ++ substring (k - f) f m
      in s ++ m
  end.

Definition fmtCurrency (n : number) (currencySymbol : string) : string :=
  currencySymbol ++ toFixed n 2.

Definition fmtCurrencyNoSymbol (n : number) : string := toFixed n 2.

End Host.

(** A string of the shape [-]digits.dd with exactly [f] digits after
    the point. *)
Definition fixedPoint (f : nat) (s : string) : Prop :=
  exists sign a b,
    s = sign ++ a ++ "." ++ b /\
    (sign = "" \/ sign = "-") /\
    a <> "" /\ Str.all Str.isDigit a = true /\
    String.length b = f /\ Str.all Str.isDigit b = true.

End NumFmt.

(** *** State *)

Record AppState : Type := mkState {
  dailyBudget : number;
  quickAmounts : list number;
  book : DayBook;
  customAmount : string;
  showSettings : bool;
  categories : list Category;
  selectedCategory : string;
  expenseNote : string;
  showAddExpense : bool;
  currency : Currency;
  showSplash : bool;
  todayKey : string
}.

(** [setBook(updater)] *)
Definition setBook (updater : DayBook -> DayBook) (s : AppState) : AppState :=
  mkState (dailyBudget s) (quickAmounts s) (updater (book s)) (customAmount s)
          (showSettings s) (categories s) (selectedCategory s) (expenseNote s)
          (showAddExpense s) (currency s) (showSplash s) (todayKey s).

Definition setExpenseNote (v : string) (s : AppState) : AppState :=
  mkState (dailyBudget s) (quickAmounts s) (book s) (customAmount s)
          (showSettings s) (categories s) (selectedCategory s) v
          (showAddExpense s) (currency s) (showSplash s) (todayKey s).

Definition setShowAddExpense (v : bool) (s : AppState) : AppState :=
  mkState (dailyBudget s) (quickAmounts s) (book s) (customAmount s)
          (showSettings s) (categories s) (selectedCategory s) (expenseNote s)
          v (currency s) (showSplash s) (todayKey s).

(** Calls into the platform made by a handler, in order. *)
Inductive ImpactFeedbackStyle : Type := Light | Medium.

Inductive Effect : Type :=
| HapticsImpact (style : ImpactFeedbackStyle)
| AlertShown (title message : string).

(** *** Derived values *)

(** [entries.reduce((acc, e) => acc + e.amount, 0)] *)
Definition sumAmounts (entries : list ExpenseEntry) : number :=
  fold_left (fun acc e => Num.add acc (amount e)) entries Num.zero.

(** [book[key] || []] *)
Definition bucket (b : DayBook) (key : string) : list ExpenseEntry :=
  match Obj.get key b with
  | Some arr => arr
  | None => []
  end.

Definition todayEntries (s : AppState) : list ExpenseEntry :=
  bucket (book s) (todayKey s).

Definition todayTotal (s : AppState) : number := sumAmounts (todayEntries s).

(** [Math.max(0, dailyBudget - todayTotal)] *)
Definition remainingOf (budget total : number) : number :=
  Num.Math_max Num.zero (Num.sub budget total).

(** [dailyBudget > 0 ? Math.min(1, todayTotal / dailyBudget) : 0] *)
Definition progressOf (budget total : number) : number :=
  if Num.gtb budget Num.zero
  then Num.Math_min Num.one (Num.div total budget)
  else Num.zero.

Definition remaining (s : AppState) : number :=
  remainingOf (dailyBudget s) (todayTotal s).

Definition progress (s : AppState) : number :=
  progressOf (dailyBudget s) (todayTotal s).

Record Summary : Type := mkSummary {
  averageDaily : number;
  thisMonthTotal : number;
  totalSpent : number
}.

(** [spendingSummary]; [now] is the value of [new Date()]. *)
Definition spendingSummary (tz : Z) (now : JSDate.Date) (b : DayBook)
  : Summary :=
  let allEntries := List.concat (Obj.values b) in
  let totalSpent := sumAmounts allEntries in
  let totalDays :=
    let n := List.length (Obj.keys b) in if (n =? 0)%nat then 1%nat else n in
  let averageDaily := Num.div totalSpent (Num.ofNat totalDays) in
  let thisMonth := JSDate.getMonth tz now in
  let thisYear := JSDate.getFullYear tz now in
  let thisMonthEntries :=
    filter (fun entry =>
              let entryDate : JSDate.Date := timestamp entry in
              (JSDate.getMonth tz entryDate =? thisMonth)
              && (JSDate.getFullYear tz entryDate =? thisYear))
           allEntries in
  let thisMonthTotal := sumAmounts thisMonthEntries in
  mkSummary averageDaily thisMonthTotal totalSpent.

Record DayTotal : Type := mkDayTotal {
  date : JSDate.Date;
  total : number
}.

(** One iteration of the loop of [last7Totals]; [now] is the value of
    the [new Date()] of that iteration. *)
Definition last7Step (tz : Z) (now : JSDate.Date) (b : DayBook)
                     (arr : list DayTotal) (i : Z) : list DayTotal :=
  let d := now in
  let d := JSDate.setHours tz 0 0 0 0 d in
  let d := JSDate.setDate tz (JSDate.getDate tz d - i) d in
  let key := dateKey tz d in
  let total := sumAmounts (bucket b key) in
  (arr ++ [mkDayTotal d total])%list.

(** [for (let i = 6; i >= 0; i--)]: [fuel] bounds the iterations.
    [clock r] is the value of the [r]-th [new Date()] that the callback
    evaluates (counted from 0) and [reads] the number of readings made
    so far: every iteration reads the clock again. *)
Fixpoint last7Loop (fuel : nat) (tz : Z) (clock : nat -> JSDate.Date)
                   (b : DayBook) (reads : nat) (i : Z) (arr : list DayTotal)
  : list DayTotal :=
  match fuel with
  | O => arr
  | S fuel' =>
      if 0 <=? i
      then last7Loop fuel' tz clock b (S reads) (i - 1)
                     (last7Step tz (clock reads) b arr i)
      else arr
  end.

(** The callback of [last7Totals], which [useMemo] evaluates at the
    first render and at every render that finds another [book].  The
    reading [cal] comes first and is never used. *)
Definition last7Totals (tz : Z) (clock : nat -> JSDate.Date) (b : DayBook)
  : list DayTotal :=
  let cal := clock 0%nat in
  last7Loop 8 tz clock b 1 6 [].

(** *** Mutations *)

(** [addAmount(amt, category, note)].  [rid] is the value of
    [Math.random().toString(36).slice(2)] and [nowMs] that of
    [Date.now()]; [None] is an omitted argument. *)
Definition addAmount (rid : string) (nowMs : Z)
    (amt : number) (category : option string) (note : option string)
    (s : AppState) : AppState * list Effect :=
  let category :=
    match category with Some c => c | None => selectedCategory s end in
  let note := match note with Some n => n | None => "" end in
  if negb (Num.gtb amt Num.zero) then (s, [])
  else
    let s1 :=
      setBook (fun prev =>
                 let arr := match Obj.get (todayKey s) prev with
                            | Some a => a
                            | None => []
                            end in
                 let entry := mkEntry rid amt nowMs category note in
                 let arr := (arr ++ [entry])%list in
                 Obj.set (todayKey s) arr prev) s in
    let s2 := setExpenseNote "" s1 in
    let s3 := setShowAddExpense false s2 in
    (s3, [HapticsImpact Light]).

(** [deleteExpense(expenseId)] *)
Definition deleteExpense (expenseId : string) (s : AppState) : AppState :=
  setBook (fun prev =>
             let arr := match Obj.get (todayKey s) prev with
                        | Some a => a
                        | None => []
                        end in
             let filtered :=
               filter (fun expense => negb (String.eqb (id expense) expenseId))
                      arr in
             Obj.set (todayKey s) filtered prev) s.

(** The buttons of the confirmation alert of [clearToday]. *)
Inductive AlertButton : Type := Cancel | Clear.

(** [clearToday()] followed by the press of one button of its alert. *)
Definition clearToday (pressed : AlertButton) (s : AppState)
  : AppState * list Effect :=
  let shown :=
    [AlertShown "Clear today?" "This will remove all entries for today."] in
  match pressed with
  | Cancel => (s, shown)
  | Clear => (setBook (fun prev => Obj.set (todayKey s) [] prev) s, shown)
  end.

(** The effect that ensures today's array exists. *)
Definition ensureToday (s : AppState) : AppState :=
  setBook (fun prev =>
             match Obj.get (todayKey s) prev with
             | Some _ => prev
             | None => Obj.set (todayKey s) [] prev
             end) s.

(** *** Export *)

(** [sorted.sort(compare)]: the sort is stable, an element is placed
    before the first one [y] with [compare x y <= 0]. *)
Fixpoint sortInsert {A : Type} (compare : A -> A -> Z) (x : A) (l : list A)
  : list A :=
  match l with
  | [] => [x]
  | y :: l' =>
      if compare x y <=? 0 then x :: y :: l'
      else y :: sortInsert compare x l'
  end.

Fixpoint sort {A : Type} (compare : A -> A -> Z) (l : list A) : list A :=
  match l with
  | [] => []
  | x :: l' => sortInsert compare x (sort compare l')
  end.

Definition csvHeaders : string :=
  "Date,Amount,Category,Note" ++ String "010" "".

Section CsvExport.
(** [new Date(ts).toLocaleDateString()] in the host's locale. *)
Variable toLocaleDateString : Z -> string.
Variable exponentNotation : Q -> string.

Definition csvRow (entry : ExpenseEntry) : string :=
  let date := toLocaleDateString (timestamp entry) in
  let amount := NumFmt.toFixed exponentNotation (amount entry) 2 in
  let category := category entry in
  let note := Str.replaceAll "," ";" (note entry) in
  date ++ "," ++ amount ++ "," ++ category ++ "," ++ note.

Definition sortedEntries (b : DayBook) : list ExpenseEntry :=
  let allEntries := List.concat (Obj.values b) in
  sort (fun a b => timestamp b - timestamp a) allEntries.

(** The [csvContent] of [exportData('csv')]. *)
Definition csvContent (b : DayBook) : string :=
  let csvRows := map csvRow (sortedEntries b) in
  csvHeaders ++ Str.join (String "010" "") csvRows.

(** The download name of the export. *)
Definition csvFileName (tz : Z) (now : JSDate.Date) : string :=
  "expenses-" ++ dateKey tz now ++ ".csv".

End CsvExport.

(* ================================================================== *)
(** ** Auxiliary checkers *)
(* ================================================================== *)

Module CalCheck.
Import JSDate.

(** What is checked of one day of an era: the fields are in range and
    [days_from_civil] maps them back to the day. *)
Definition doe_ok (doe : Z) : bool :=
  let '(y, m, d) := civil_of_doe doe in
  let y' := if m <=? 2 then y - 1 else y in
  (1 <=? m) && (m <=? 12) && (1 <=? d) && (d <=? 31)
  && (0 <=? y') && (y' <=? 399)
  && (days_from_civil y m d + 719468 =? doe).

(** [p] on every integer of [base, base + 2^bits). *)
Fixpoint all_in_block (bits : nat) (base : Z) (p : Z -> bool) : bool :=
  match bits with
  | O => p base
  | S b =>
      if all_in_block b base p then all_in_block b (base + 2 ^ Z.of_nat b) p
      else false
  end.

End CalCheck.

(* ================================================================== *)
(** ** Reference formats *)
(* ================================================================== *)

Module Fmt.

(** The decimal digit of [n mod 10]. *)
Definition digit (n : Z) : ascii := ascii_of_nat (48 + Z.to_nat (n mod 10)).

(** [n] written with exactly [width] decimal digits, zeros in front. *)
Fixpoint zeroPadded (width : nat) (n : Z) : string :=
  match width with
  | O => ""
  | S w => zeroPadded w (n / 10) ++ String (digit n) ""
  end.

(** The pattern YYYY-MM-DD. *)
Definition YYYY_MM_DD (y m d : Z) : string :=
  zeroPadded 4 y ++ "-" ++ zeroPadded 2 m ++ "-" ++ zeroPadded 2 d.

(** Ten characters: four digits, a dash, two digits, a dash, two digits. *)
Definition isYYYYMMDD (s : string) : bool :=
  match s with
  | String y1 (String y2 (String y3 (String y4 (String s1
      (String m1 (String m2 (String s2 (String d1 (String d2 "")))))))))  =>
      Str.isDigit y1 && Str.isDigit y2 && Str.isDigit y3 && Str.isDigit y4
      && Ascii.eqb s1 "-" && Str.isDigit m1 && Str.isDigit m2
      && Ascii.eqb s2 "-" && Str.isDigit d1 && Str.isDigit d2
  | _ => false
  end.

(** Reading back a decimal numeral, leading zeros allowed. *)
Definition readZ (s : string) : option Z :=
  option_map Z.of_int (NilZero.int_of_string s).

End Fmt.

(* ================================================================== *)
(** ** Vocabulary of the properties *)
(* ================================================================== *)

(** The settings held next to the ledger. *)
Definition sameSettings (s s' : AppState) : Prop :=
  dailyBudget s' = dailyBudget s
  /\ quickAmounts s' = quickAmounts s
  /\ categories s' = categories s
  /\ currency s' = currency s.

(** No entry of [entries] carries the id [i]. *)
Definition freshId (i : string) (entries : list ExpenseEntry) : Prop :=
  forall e, In e entries -> id e <> i.

(** The state of a first launch on the day [key]. *)
Definition initialState (key : string) : AppState :=
  mkState (Num.ofZ 30)
          [Num.ofZ 2; Num.ofZ 5; Num.ofZ 10; Num.ofZ 20]
          [] "" false DEFAULT_CATEGORIES "food" "" false
          (mkCurrency "USD" "$" "US Dollar") true key.

(** [ts] falls in the calendar month (and year) of [now], local time. *)
Definition inMonthOf (tz : Z) (now ts : Z) : bool :=
  let '(y1, m1, _) := JSDate.civil_from_days (JSDate.localDay tz now) in
  let '(y2, m2, _) := JSDate.civil_from_days (JSDate.localDay tz ts) in
  (y2 =? y1) && (m2 =? m1).

(** The numbers of [amounts] added one after the other, from the left,
    to the running total [acc]. *)
Fixpoint addedTo (acc : number) (amounts : list number) : number :=
  match amounts with
  | [] => acc
  | x :: rest => addedTo (Num.add acc x) rest
  end.

(** [k] is not a key of the ledger yet, or it is the key inserted
    last. *)
Definition newestKey (k : string) (b : DayBook) : Prop :=
  Obj.get k b = None
  \/ exists (older : DayBook) (arr : list ExpenseEntry),
       b = (older ++ [(k, arr)])%list /\ Obj.get k older = None.




(** The instant at which the local day [n] (a day number) starts. *)
Definition startOfLocalDay (tz : Z) (n : Z) : JSDate.Date :=
  JSDate.UTC tz (JSDate.MakeDate n 0).

(** The seven readings of the clock made by the loop of one evaluation
    of [last7Totals] (the readings 1 to 7) fall on the local day [n]. *)
Definition readsOnDay (tz : Z) (clock : nat -> JSDate.Date) (n : Z) : Prop :=
  forall r : nat, (1 <= r <= 7)%nat -> JSDate.localDay tz (clock r) = n.

(** A clock that shows [start] at its first reading and advances by one
    millisecond from a reading to the next. *)
Definition tickingFrom (start : JSDate.Date) (r : nat) : JSDate.Date :=
  start + Z.of_nat r.

(** The entry of a weekly history for the local day [n]. *)
Definition dayTotalOf (tz : Z) (b : DayBook) (n : Z) : DayTotal :=
  let d := startOfLocalDay tz n in
  mkDayTotal d (sumAmounts (bucket b (dateKey tz d))).

(** [a] comes before [b] in a newest-first list. *)
Definition newerOrSame (a b : ExpenseEntry) : Prop :=
  timestamp b <= timestamp a.

(** Host functions of an English-language device, as far as the
    examples need them. *)
Definition sampleLocaleDate (ts : Z) : string :=
  let '(y, m, d) := JSDate.civil_from_days (JSDate.Day ts) in
  Str.ofZ m ++ "/" ++ Str.ofZ d ++ "/" ++ Str.ofZ y.

Definition sampleExponentNotation (x : Q) : string :=
  if Qeq_bool x (inject_Z (10 ^ 21)) then "1e+21" else "".

(** The ledger after the amount [Infinity] (the value [parseFloat]
    gives for the text "1e999") is added on the first day. *)
Definition infiniteAmountLedger : DayBook :=
  book (fst (addAmount "k3x" 1704189600000 Infinity (Some "food") (Some "")
                       (ensureToday (initialState "2024-01-02")))).

(* ================================================================== *)
(** ** The day clock *)
(* ================================================================== *)

(** [setTodayKey(v)] *)
Definition setTodayKey (v : string) (s : AppState) : AppState :=
  mkState (dailyBudget s) (quickAmounts s) (book s) (customAmount s)
          (showSettings s) (categories s) (selectedCategory s) (expenseNote s)
          (showAddExpense s) (currency s) (showSplash s) v.

(** [updateDate()]; [now] is the value of [new Date()]. *)
Definition updateDate (tz : Z) (now : JSDate.Date) (s : AppState) : AppState :=
  let newTodayKey := dateKey tz now in
  if negb (String.eqb newTodayKey (todayKey s))
  then setTodayKey newTodayKey s
  else s.

(** [handleAppStateChange(nextAppState)] *)
Definition handleAppStateChange (tz : Z) (now : JSDate.Date)
    (nextAppState : string) (s : AppState) : AppState :=
  if String.eqb nextAppState "active" then updateDate tz now s else s.

(** A check of the date together with the render that follows it: the
    effect that ensures today's array has [todayKey] as its only
    dependency, so it runs when the check changed the key. *)
Definition dayCheck (tz : Z) (now : JSDate.Date) (s : AppState) : AppState :=
  let s' := updateDate tz now s in
  if String.eqb (todayKey s') (todayKey s) then s' else ensureToday s'.

(* ================================================================== *)
(** ** Quick amounts *)
(* ================================================================== *)

Module NumJS.

(** SameValueZero, the equality of the members of a [Set]. *)
Definition sameValueZero (x y : number) : bool :=
  match x, y with
  | NaN, NaN | Infinity, Infinity | NegInfinity, NegInfinity => true
  | Finite a, Finite b => Qeq_bool a b
  | _, _ => false
  end.

(** [x === y]: [NaN] equals nothing. *)
Definition strictEquals (x y : number) : bool :=
  match x, y with
  | NaN, _ | _, NaN => false
  | _, _ => sameValueZero x y
  end.

(** What a sort reads off the result [v] of its comparator: the sign
    of [v], [NaN] counting as 0. *)
Definition comparatorSign (v : number) : Z :=
  match v with
  | NaN => 0
  | NegInfinity => -1
  | Infinity => 1
  | Finite q => Z.sgn (Qnum q)
  end.

(** [x || y] on numbers: [0] and [NaN] are the falsy numbers. *)
Definition orElse (x y : number) : number :=
  match x with
  | NaN => y
  | Finite q => if Qeq_bool q 0 then y else x
  | _ => x
  end.

(** [x * y]; a zero times an infinity is [NaN]. *)
Definition mul (x y : number) : number :=
  match x, y with
  | NaN, _ | _, NaN => NaN
  | Finite a, Finite b => Finite (a * b)
  | Finite a, Infinity | Infinity, Finite a =>
      if Qeq_bool a 0 then NaN
      else if Num.Qltb a 0 then NegInfinity else Infinity
  | Finite a, NegInfinity | NegInfinity, Finite a =>
      if Qeq_bool a 0 then NaN
      else if Num.Qltb a 0 then Infinity else NegInfinity
  | Infinity, Infinity | NegInfinity, NegInfinity => Infinity
  | Infinity, NegInfinity | NegInfinity, Infinity => NegInfinity
  end.

(** [set.add(v)] on the members of a [Set] in insertion order. *)
Definition setAdd (members : list number) (v : number) : list number :=
  if existsb (sameValueZero v) members then members
  else (members ++ [v])%list.

(** [Array.from(new Set(values))] *)
Definition newSet (values : list number) : list number :=
  fold_left setAdd values [].

End NumJS.

(** [s.replace(c, d)] for single characters: the first [c] only. *)
Fixpoint replaceFirst (c d : ascii) (s : string) : string :=
  match s with
  | EmptyString => EmptyString
  | String a s' =>
      if Ascii.eqb a c then String d s' else String a (replaceFirst c d s')
  end.

(** [setQuickAmounts(updater)] *)
Definition setQuickAmounts (updater : list number -> list number)
    (s : AppState) : AppState :=
  mkState (dailyBudget s) (updater (quickAmounts s)) (book s) (customAmount s)
          (showSettings s) (categories s) (selectedCategory s) (expenseNote s)
          (showAddExpense s) (currency s) (showSplash s) (todayKey s).

(** The updater of [addQuickAmount(v)]:
    [Array.from(new Set([...prev, v])).sort((a, b) => a - b)]. *)
Definition withQuickAmount (v : number) (prev : list number) : list number :=
  sort (fun a b => NumJS.comparatorSign (Num.sub a b))
       (NumJS.newSet (prev ++ [v])%list).

Definition addQuickAmount (v : number) (s : AppState) : AppState :=
  setQuickAmounts (withQuickAmount v) s.

(** The updater of [removeQuickAmount(v)]: [prev.filter(x => x !== v)]. *)
Definition withoutQuickAmount (v : number) (prev : list number)
  : list number :=
  filter (fun x => negb (NumJS.strictEquals x v)) prev.

Definition removeQuickAmount (v : number) (s : AppState) : AppState :=
  setQuickAmounts (withoutQuickAmount v) s.

(** [x < y] as a relation. *)
Definition lessThan (x y : number) : Prop := Num.ltb x y = true.

(** Quick amounts as the application keeps them: positive and in
    strictly ascending order. *)
Definition quickAmountsOk (l : list number) : Prop :=
  Forall (fun x => Num.gtb x Num.zero = true) l /\ Sorted lessThan l.

(* ================================================================== *)
(** ** The handlers of the screen *)
(* ================================================================== *)

(** The global [isNaN(x)] on a number. *)
Definition isNaN (x : number) : bool :=
  match x with NaN => true | _ => false end.

Definition setDailyBudget (v : number) (s : AppState) : AppState :=
  mkState v (quickAmounts s) (book s) (customAmount s)
          (showSettings s) (categories s) (selectedCategory s) (expenseNote s)
          (showAddExpense s) (currency s) (showSplash s) (todayKey s).

Definition setCustomAmount (v : string) (s : AppState) : AppState :=
  mkState (dailyBudget s) (quickAmounts s) (book s) v
          (showSettings s) (categories s) (selectedCategory s) (expenseNote s)
          (showAddExpense s) (currency s) (showSplash s) (todayKey s).

Definition setSelectedCategory (v : string) (s : AppState) : AppState :=
  mkState (dailyBudget s) (quickAmounts s) (book s) (customAmount s)
          (showSettings s) (categories s) v (expenseNote s)
          (showAddExpense s) (currency s) (showSplash s) (todayKey s).

Definition setShowSettings (v : bool) (s : AppState) : AppState :=
  mkState (dailyBudget s) (quickAmounts s) (book s) (customAmount s)
          v (categories s) (selectedCategory s) (expenseNote s)
          (showAddExpense s) (currency s) (showSplash s) (todayKey s).

Definition setCurrency (v : Currency) (s : AppState) : AppState :=
  mkState (dailyBudget s) (quickAmounts s) (book s) (customAmount s)
          (showSettings s) (categories s) (selectedCategory s) (expenseNote s)
          (showAddExpense s) v (showSplash s) (todayKey s).

Section Handlers.
(** [parseFloat], which belongs to the host. *)
Variable parseFloat : string -> number.

(** The press of the quick chip number [n]: [addAmount(v)] for the
    [n]-th quick amount [v]; there is no chip beyond the list. *)
Definition pressQuickChip (rid : string) (nowMs : Z) (n : nat)
    (s : AppState) : AppState * list Effect :=
  match nth_error (quickAmounts s) n with
  | Some v => addAmount rid nowMs v None None s
  | None => (s, [])
  end.

(** The press of [Add Expense] in the custom form. *)
Definition pressAddExpense (rid : string) (nowMs : Z) (s : AppState)
  : AppState * list Effect :=
  let parsed := parseFloat (replaceFirst "," "." (customAmount s)) in
  if isNaN parsed || Num.leb parsed Num.zero then (s, [])
  else
    let '(s', effects) :=
      addAmount rid nowMs parsed (Some (selectedCategory s))
                (Some (expenseNote s)) s in
    (s', HapticsImpact Medium :: effects).

(** The press of [Cancel] in the custom form. *)
Definition pressCancel (s : AppState) : AppState :=
  setExpenseNote "" (setCustomAmount "" (setShowAddExpense false s)).

(** The [onChangeText] of the budget field. *)
Definition changeBudget (t : string) (s : AppState) : AppState :=
  setDailyBudget
    (NumJS.orElse (parseFloat (replaceFirst "," "." t)) Num.zero) s.

(** The [onSubmitEditing] of the quick amount field. *)
Definition submitQuickAmount (text : string) (s : AppState) : AppState :=
  let v := parseFloat (replaceFirst "," "." text) in
  if Num.gtb v Num.zero then addQuickAmount v s else s.

(** What can happen on the screen, with what the host supplies.  (The
    screen offers a part of these at a time: the chips or the custom
    form, the settings sheet or not.) *)
Inductive Event : Type :=
| DateChecked (now : JSDate.Date)
| AppStateChanged (now : JSDate.Date) (nextAppState : string)
| QuickChipPressed (rid : string) (nowMs : Z) (n : nat)
| CustomPressed
| AmountTyped (text : string)
| NoteTyped (text : string)
| CategoryPressed (categoryId : string)
| AddExpensePressed (rid : string) (nowMs : Z)
| CancelPressed
| DeletePressed (expenseId : string)
| ClearTodayPressed (pressed : AlertButton)
| SettingsPressed
| BudgetTyped (text : string)
| CurrencyPressed (option : Currency)
| QuickAmountRemoved (v : number)
| QuickAmountSubmitted (text : string)
| SettingsClosed.

(** The state after an event, the render it causes included. *)
Definition react (tz : Z) (ev : Event) (s : AppState) : AppState :=
  match ev with
  | DateChecked now => dayCheck tz now s
  | AppStateChanged now nextAppState =>
      let s' := handleAppStateChange tz now nextAppState s in
      if String.eqb (todayKey s') (todayKey s) then s' else ensureToday s'
  | QuickChipPressed rid nowMs n => fst (pressQuickChip rid nowMs n s)
  | CustomPressed => setShowAddExpense true s
  | AmountTyped text => setCustomAmount text s
  | NoteTyped text => setExpenseNote text s
  | CategoryPressed categoryId => setSelectedCategory categoryId s
  | AddExpensePressed rid nowMs => fst (pressAddExpense rid nowMs s)
  | CancelPressed => pressCancel s
  | DeletePressed expenseId => deleteExpense expenseId s
  | ClearTodayPressed pressed => fst (clearToday pressed s)
  | SettingsPressed => setShowSettings true s
  | BudgetTyped text => changeBudget text s
  | CurrencyPressed option => setCurrency option s
  | QuickAmountRemoved v => removeQuickAmount v s
  | QuickAmountSubmitted text => submitQuickAmount text s
  | SettingsClosed => setShowSettings false s
  end.

(** A session: the events in the order they happen. *)
Definition run (tz : Z) (events : list Event) (s : AppState) : AppState :=
  fold_left (fun s ev => react tz ev s) events s.

End Handlers.

(** The state once the first render and its effects are done, on the
    day [key], when the store held nothing to restore. *)
Definition firstRender (key : string) : AppState :=
  ensureToday (initialState key).

(** Every amount of the ledger is [> 0]. *)
Definition positiveLedger (b : DayBook) : Prop :=
  Forall (fun e => Num.gtb (amount e) Num.zero = true)
         (List.concat (Obj.values b)).

(** What a session keeps true. *)
Definition sessionInvariant (s : AppState) : Prop :=
  positiveLedger (book s)
  /\ Obj.get (todayKey s) (book s) <> None
  /\ quickAmountsOk (quickAmounts s)
  /\ dailyBudget s <> NaN.

(** A host whose [parseFloat] reads nothing, for the examples where no
    text is parsed. *)
Definition noParse (text : string) : number := NaN.

(* ================================================================== *)
(** ** What the screen shows *)
(* ================================================================== *)

(** The [data] of the list of today's expenses:
    [[...todayEntries].sort((a, b) => b.timestamp - a.timestamp)]. *)
Definition todayList (s : AppState) : list ExpenseEntry :=
  sort (fun a b => timestamp b - timestamp a) (todayEntries s).

(** The category shown for an expense:
    [categories.find(cat => cat.id === item.category) || categories[0]],
    [None] standing for [undefined]. *)
Definition categoryOf (cats : list Category) (item : ExpenseEntry)
  : option Category :=
  match find (fun cat => String.eqb (cat_id cat) (category item)) cats with
  | Some cat => Some cat
  | None => nth_error cats 0
  end.

(** [a] is older than [b]. *)
Definition olderThan (a b : ExpenseEntry) : Prop :=
  timestamp a < timestamp b.

(** Occurrences of the character [c] in [s]. *)
Fixpoint countChar (c : ascii) (s : string) : nat :=
  match s with
  | EmptyString => O
  | String a s' => (if Ascii.eqb a c then 1 else 0) + countChar c s'
  end.

(** *** The bars of [WeeklyHistory] *)

Module WeeklyHistory.

(** [Math.max(0, Math.min(1, budget > 0 ? total / budget : 0))] *)
Definition ratio (budget total : number) : number :=
  Num.Math_max Num.zero
    (Num.Math_min Num.one
       (if Num.gtb budget Num.zero then Num.div total budget else Num.zero)).

(** [Math.max(6, 80 * ratio)] *)
Definition height (budget total : number) : number :=
  Num.Math_max (Num.ofZ 6) (NumJS.mul (Num.ofZ 80) (ratio budget total)).

(** [total <= budget ? blue : red] *)
Definition color (budget total : number) : string :=
  if Num.leb total budget
  then "rgba(59,130,246,0.85)" else "rgba(239,68,68,0.95)".

(** The sum shown above the bars:
    [dailyTotals.reduce((s, d) => s + d.total, 0)]. *)
Definition sum (dailyTotals : list DayTotal) : number :=
  fold_left (fun s d => Num.add s (total d)) dailyTotals Num.zero.

End WeeklyHistory.

(** *** The ring of [ProgressRing] *)

Module ProgressRing.

(** [Math.PI], the binary64 number nearest to pi. *)
Definition Math_PI : number :=
  Finite (884279719003555 # 281474976710656).

Definition size : number := Num.ofZ 200.
Definition stroke : number := Num.ofZ 16.
Definition radius : number := Num.div (Num.sub size stroke) (Num.ofZ 2).
Definition circumference : number :=
  NumJS.mul (NumJS.mul (Num.ofZ 2) Math_PI) radius.

(** [circumference * (1 - Math.min(1, progress))] *)
Definition offset (progress : number) : number :=
  NumJS.mul circumference (Num.sub Num.one (Num.Math_min Num.one progress)).

(** The literal [0.7], the binary64 number nearest to 7/10. *)
Definition literal_0_7 : number :=
  Finite (3152519739159347 # 4503599627370496).

(** [progress < 0.7 ? green : progress < 1 ? orange : red] *)
Definition color (progress : number) : string :=
  if Num.ltb progress literal_0_7 then "#10b981"
  else if Num.ltb progress Num.one then "#f59e0b"
  else "#ef4444".

End ProgressRing.

(** A host whose [parseFloat] reads the texts of the examples: a plain
    integer numeral has its value, a text that is none has [NaN]. *)
Definition sampleParseFloat (text : string) : number :=
  match Fmt.readZ text with
  | Some z => Num.ofZ z
  | None => NaN
  end.

(* ================================================================== *)
(** * Properties *)
(* ================================================================== *)

(** ** The calendar *)

Section Calendar.
Import JSDate CalCheck.

Lemma all_in_block_sound (p : Z -> bool) :
  forall bits base, all_in_block bits base p = true ->
  forall z, base <= z < base + 2 ^ Z.of_nat bits -> p z = true.
Proof.
  induction bits as [|b IH]; intros base H z Hz.
  - simpl in *. assert (z = base) by lia. now subst.
  - cbn [all_in_block] in H.
    destruct (all_in_block b base p) eqn:H1; [|discriminate].
    rewrite Nat2Z.inj_succ, Z.pow_succ_r in Hz by lia.
    destruct (Z_lt_le_dec z (base + 2 ^ Z.of_nat b)).
    + apply (IH base H1); lia.
    + apply (IH _ H); lia.
Qed.

Lemma era_checked :
  all_in_block 18 0 (fun z => if 146097 <=? z then true else doe_ok z) = true.
Proof. vm_compute. reflexivity. Qed.

Lemma doe_ok_era : forall doe, 0 <= doe < 146097 -> doe_ok doe = true.
Proof.
  intros doe Hd.
  pose proof (all_in_block_sound _ _ _ era_checked doe) as Hz.
  change (2 ^ Z.of_nat 18) with 262144 in Hz.
  cbv beta in Hz.
  destruct (146097 <=? doe) eqn:E.
  - apply Z.leb_le in E. lia.
  - apply Hz. lia.
Qed.

(** Four hundred years are 146097 days. *)
Lemma days_from_civil_shift y m d e :
  days_from_civil (y + e * 400) m d = days_from_civil y m d + e * 146097.
Proof.
  unfold days_from_civil.
  replace (if m <=? 2 then y + e * 400 - 1 else y + e * 400)
    with ((if m <=? 2 then y - 1 else y) + e * 400)
    by (destruct (m <=? 2); lia).
  rewrite Z.div_add by lia.
  set (y' := if m <=? 2 then y - 1 else y).
  replace (y' + e * 400 - (y' / 400 + e) * 400)
    with (y' - y' / 400 * 400) by lia.
  lia.
Qed.

(** [days_from_civil] is a left inverse of [civil_from_days], whose
    month and day of month are in range. *)
Lemma civil_from_days_spec z :
  let '(y, m, d) := civil_from_days z in
  days_from_civil y m d = z /\ 1 <= m <= 12 /\ 1 <= d <= 31.
Proof.
  unfold civil_from_days.
  set (z' := z + 719468).
  set (era := z' / 146097).
  assert (Hdoe : 0 <= z' - era * 146097 < 146097).
  { pose proof (Z.mod_pos_bound z' 146097 ltac:(lia)) as Hm.
    rewrite Z.mod_eq in Hm by lia. unfold era. lia. }
  pose proof (doe_ok_era _ Hdoe) as Hok.
  unfold doe_ok in Hok.
  destruct (civil_of_doe (z' - era * 146097)) as [[y m] d].
  repeat (apply andb_true_iff in Hok as [Hok ?]).
  rewrite days_from_civil_shift.
  repeat match goal with
         | H : (_ <=? _) = true |- _ => apply Z.leb_le in H
         | H : (_ =? _) = true |- _ => apply Z.eqb_eq in H
         end.
  subst z'. lia.
Qed.

Lemma civil_from_days_inj z1 z2 :
  civil_from_days z1 = civil_from_days z2 -> z1 = z2.
Proof.
  intros E.
  pose proof (civil_from_days_spec z1) as H1.
  pose proof (civil_from_days_spec z2) as H2.
  rewrite E in H1.
  destruct (civil_from_days z2) as [[y m] d].
  destruct H1 as [H1 _], H2 as [H2 _]. congruence.
Qed.

End Calendar.

(** ** Strings *)

Section Strings.

Lemma length_append (a b : string) :
  String.length (a ++ b) = (String.length a + String.length b)%nat.
Proof. induction a as [|c a IH]; simpl; [reflexivity | now rewrite IH]. Qed.

Lemma append_inv_head (a b c : string) : a ++ b = a ++ c -> b = c.
Proof. induction a as [|x a IH]; simpl; [auto | intros [= E]; auto]. Qed.

(** Two concatenations with tails of the same length agree part by part. *)
Lemma append_inj_tail (a c b d : string) :
  a ++ b = c ++ d -> String.length b = String.length d -> a = c /\ b = d.
Proof.
  revert c. induction a as [|x a IH]; intros [|y c] E L; simpl in E.
  - now split.
  - exfalso. apply (f_equal String.length) in E.
    simpl in E. rewrite length_append in E. lia.
  - exfalso. apply (f_equal String.length) in E.
    simpl in E. rewrite length_append in E. lia.
  - injection E as -> E. destruct (IH c E L) as [-> ->]. now split.
Qed.

Lemma to_int_proper (z : Z) :
  Z.to_int z <> Decimal.Pos Decimal.Nil
  /\ Z.to_int z <> Decimal.Neg Decimal.Nil.
Proof.
  destruct z as [|p|p]; simpl; split; try discriminate;
    intros [= E]; now apply (DecimalPos.Unsigned.to_uint_nonnil p).
Qed.

(** [String(n)] reads back as [n]. *)
Lemma readZ_ofZ (z : Z) : Fmt.readZ (Str.ofZ z) = Some z.
Proof.
  unfold Fmt.readZ, Str.ofZ.
  destruct (to_int_proper z) as [H1 H2].
  rewrite NilZero.isi by assumption. simpl. now rewrite DecimalZ.of_to.
Qed.

Lemma ofZ_inj (a b : Z) : Str.ofZ a = Str.ofZ b -> a = b.
Proof.
  intros E. apply (f_equal Fmt.readZ) in E.
  rewrite !readZ_ofZ in E. congruence.
Qed.

Lemma all_digits_uint (d : Decimal.uint) :
  Str.all Str.isDigit (NilEmpty.string_of_uint d) = true.
Proof. induction d; simpl; auto. Qed.

(** The numeral of a natural number is a non-empty string of digits. *)
Lemma ofZ_digits (z : Z) :
  0 <= z -> Str.all Str.isDigit (Str.ofZ z) = true /\ Str.ofZ z <> "".
Proof.
  intros Hz. unfold Str.ofZ.
  destruct z as [|p|p]; [now split | | lia].
  simpl. pose proof (DecimalPos.Unsigned.to_uint_nonnil p) as Hn.
  destruct (Pos.to_uint p) eqn:E; try congruence;
    (split; [apply (all_digits_uint (_ u)) | discriminate]).
Qed.

(** Month and day fields: [padStart(2, '0')] of a number below 100 is
    its two-digit numeral. *)
Lemma pad2_checked :
  CalCheck.all_in_block 7 0
    (fun n => if 100 <=? n then true
              else String.eqb (Str.padStart (Str.ofZ n) 2 "0")
                              (Fmt.zeroPadded 2 n)) = true.
Proof. vm_compute. reflexivity. Qed.

Lemma pad2_zeroPadded (n : Z) :
  0 <= n < 100 -> Str.padStart (Str.ofZ n) 2 "0" = Fmt.zeroPadded 2 n.
Proof.
  intros Hn.
  pose proof (all_in_block_sound _ _ _ pad2_checked n) as H.
  change (2 ^ Z.of_nat 7) with 128 in H. cbv beta in H.
  destruct (100 <=? n) eqn:E; [apply Z.leb_le in E; lia |].
  apply String.eqb_eq, H. lia.
Qed.

Lemma length_zeroPadded (w : nat) (n : Z) :
  String.length (Fmt.zeroPadded w n) = w.
Proof.
  revert n. induction w as [|w IH]; intros n; simpl; [reflexivity |].
  rewrite length_append, IH. simpl. lia.
Qed.

Lemma readZ_pad2_checked :
  CalCheck.all_in_block 7 0
    (fun n => if 100 <=? n then true
              else match Fmt.readZ (Fmt.zeroPadded 2 n) with
                   | Some m => m =? n
                   | None => false
                   end) = true.
Proof. vm_compute. reflexivity. Qed.

Lemma zeroPadded2_inj (n m : Z) :
  0 <= n < 100 -> 0 <= m < 100 ->
  Fmt.zeroPadded 2 n = Fmt.zeroPadded 2 m -> n = m.
Proof.
  intros Hn Hm E.
  assert (R : forall k, 0 <= k < 100 ->
                        Fmt.readZ (Fmt.zeroPadded 2 k) = Some k).
  { intros k Hk.
    pose proof (all_in_block_sound _ _ _ readZ_pad2_checked k) as H.
    change (2 ^ Z.of_nat 7) with 128 in H. cbv beta in H.
    destruct (100 <=? k) eqn:E'; [apply Z.leb_le in E'; lia |].
    specialize (H ltac:(lia)).
    destruct (Fmt.readZ (Fmt.zeroPadded 2 k)); [|discriminate].
    apply Z.eqb_eq in H. now subst. }
  pose proof (R n Hn) as Rn. rewrite E, (R m Hm) in Rn. congruence.
Qed.

End Strings.

(** ** [dateKey] *)

Section DateKey.
Import JSDate.

Lemma isDigit_digit (n : Z) : Str.isDigit (Fmt.digit n) = true.
Proof.
  unfold Fmt.digit.
  pose proof (Z.mod_pos_bound n 10 ltac:(lia)) as H.
  assert (E : exists k, (k < 10)%nat /\ Z.to_nat (n mod 10) = k)
    by (exists (Z.to_nat (n mod 10)); split; [lia | reflexivity]).
  destruct E as (k & Hk & ->).
  do 10 (destruct k as [|k]; [reflexivity |]). lia.
Qed.

Lemma isYYYYMMDD_pattern (y m d : Z) :
  Fmt.isYYYYMMDD (Fmt.YYYY_MM_DD y m d) = true.
Proof.
  unfold Fmt.YYYY_MM_DD. cbn [Fmt.zeroPadded String.append Fmt.isYYYYMMDD].
  rewrite !isDigit_digit. reflexivity.
Qed.

Lemma year4_checked :
  CalCheck.all_in_block 14 0
    (fun y => if (1000 <=? y) && (y <=? 9999)
              then String.eqb (Str.ofZ y) (Fmt.zeroPadded 4 y) else true)
  = true.
Proof. vm_compute. reflexivity. Qed.

Lemma ofZ_year4 (y : Z) : 1000 <= y <= 9999 -> Str.ofZ y = Fmt.zeroPadded 4 y.
Proof.
  intros Hy.
  pose proof (all_in_block_sound _ _ _ year4_checked y) as H.
  change (2 ^ Z.of_nat 14) with 16384 in H. cbv beta in H.
  replace ((1000 <=? y) && (y <=? 9999)) with true in H
    by (symmetry; apply andb_true_iff; split; apply Z.leb_le; lia).
  apply String.eqb_eq, H. lia.
Qed.

(** The key in terms of the calendar fields of the local day. *)
Lemma dateKey_fields (tz : Z) (t : Date) :
  let '(y, m, d) := civil_from_days (localDay tz t) in
  dateKey tz t
  = Str.ofZ y ++ "-" ++ Fmt.zeroPadded 2 m ++ "-" ++ Fmt.zeroPadded 2 d.
Proof.
  unfold dateKey, getFullYear, getMonth, getDate,
    YearFromTime, MonthFromTime, DateFromTime, localDay.
  pose proof (civil_from_days_spec (Day (LocalTime tz t))) as H.
  destruct (civil_from_days (Day (LocalTime tz t))) as [[y m] d].
  destruct H as (_ & Hm & Hd).
  replace (m - 1 + 1) with m by lia.
  rewrite !pad2_zeroPadded by lia. reflexivity.
Qed.

Lemma dateKey_inj (tz : Z) (t1 t2 : Date) :
  dateKey tz t1 = dateKey tz t2 -> localDay tz t1 = localDay tz t2.
Proof.
  intros E. apply civil_from_days_inj.
  pose proof (dateKey_fields tz t1) as K1.
  pose proof (dateKey_fields tz t2) as K2.
  pose proof (civil_from_days_spec (localDay tz t1)) as S1.
  pose proof (civil_from_days_spec (localDay tz t2)) as S2.
  destruct (civil_from_days (localDay tz t1)) as [[y1 m1] d1].
  destruct (civil_from_days (localDay tz t2)) as [[y2 m2] d2].
  rewrite K1, K2 in E.
  apply append_inj_tail in E as [Ey E]; [| reflexivity].
  apply (append_inv_head "-") in E.
  apply append_inj_tail in E as [Em E]; [| reflexivity].
  apply (append_inv_head "-") in E. rename E into Ed.
  apply ofZ_inj in Ey. apply zeroPadded2_inj in Em; [| lia | lia].
  apply zeroPadded2_inj in Ed; [| lia | lia].
  congruence.
Qed.

Lemma dateKey_same_day (tz : Z) (t1 t2 : Date) :
  localDay tz t1 = localDay tz t2 -> dateKey tz t1 = dateKey tz t2.
Proof.
  intros E.
  unfold dateKey, getFullYear, getMonth, getDate,
    YearFromTime, MonthFromTime, DateFromTime.
  unfold localDay in E. now rewrite E.
Qed.

End DateKey.

(** C5, as stated, fails at the format: the year is printed by
    [String(y)] without padding, so one millisecond before
    1000-01-01T00:00Z the key is ["999-12-31"], which is not of the
    shape YYYY-MM-DD. *)
Lemma dateKey_year_not_padded :
  dateKey 0 (-30610224000001) = "999-12-31"
  /\ Fmt.isYYYYMMDD (dateKey 0 (-30610224000001)) = false.
Proof. split; vm_compute; reflexivity. Qed.

(** C5 (amended): [dateKey] is a function of the local calendar day of
    its argument and of nothing else: two instants of the same local day
    have the same key, two instants of distinct local days have distinct
    keys.  The key is the decimal numeral of the local year, a dash, the
    month on two digits, a dash and the day of the month on two digits;
    it has the shape YYYY-MM-DD whenever the local year has four digits
    (1000 to 9999). *)
Theorem dateKey_calendar_day (tz : Z) :
  (forall t1 t2 : JSDate.Date,
      JSDate.localDay tz t1 = JSDate.localDay tz t2 ->
      dateKey tz t1 = dateKey tz t2)
  /\ (forall t1 t2 : JSDate.Date,
      JSDate.localDay tz t1 <> JSDate.localDay tz t2 ->
      dateKey tz t1 <> dateKey tz t2)
  /\ (forall t : JSDate.Date,
      let '(y, m, d) := JSDate.civil_from_days (JSDate.localDay tz t) in
      1 <= m <= 12 /\ 1 <= d <= 31
      /\ dateKey tz t
         = Str.ofZ y ++ "-" ++ Fmt.zeroPadded 2 m ++ "-" ++ Fmt.zeroPadded 2 d
      /\ (1000 <= y <= 9999 ->
          dateKey tz t = Fmt.YYYY_MM_DD y m d
          /\ Fmt.isYYYYMMDD (dateKey tz t) = true)).
Proof.
  split; [| split].
  - intros t1 t2 E. now apply dateKey_same_day.
  - intros t1 t2 N E. apply N. now apply dateKey_inj.
  - intros t.
    pose proof (dateKey_fields tz t) as K.
    pose proof (civil_from_days_spec (JSDate.localDay tz t)) as S.
    destruct (JSDate.civil_from_days (JSDate.localDay tz t)) as [[y m] d].
    destruct S as (_ & Hm & Hd).
    repeat split; try lia; try assumption.
    + rewrite K. unfold Fmt.YYYY_MM_DD. now rewrite ofZ_year4.
    + rewrite K, ofZ_year4 by assumption. apply isYYYYMMDD_pattern.
Qed.

(** Noon and the last millisecond of 2024-02-29 in a zone one hour east
    of Greenwich share the key; the next millisecond does not. *)
Lemma dateKey_calendar_day_witness :
  dateKey 3600000 1709204400000 = dateKey 3600000 1709247599999
  /\ dateKey 3600000 1709247599999 <> dateKey 3600000 1709247600000.
Proof.
  destruct (dateKey_calendar_day 3600000) as (Same & Diff & _).
  split.
  - apply Same. vm_compute. reflexivity.
  - apply Diff. vm_compute. discriminate.
Defined.

(** ** Dictionaries *)

Section DictFacts.
Context {V : Type}.
Implicit Types (o : Obj.t V) (k : string) (v : V).

Lemma get_set_same k v o : Obj.get k (Obj.set k v o) = Some v.
Proof.
  induction o as [|[k' v'] o IH]; simpl.
  - now rewrite String.eqb_refl.
  - destruct (String.eqb k' k) eqn:E; simpl; rewrite E; auto.
Qed.

Lemma get_set_other k k' v o :
  k' <> k -> Obj.get k' (Obj.set k v o) = Obj.get k' o.
Proof.
  intros N. induction o as [|[k0 v0] o IH]; simpl.
  - destruct (String.eqb_spec k k'); congruence.
  - destruct (String.eqb_spec k0 k); simpl.
    + subst. destruct (String.eqb_spec k k'); congruence.
    + rewrite IH. reflexivity.
Qed.

Lemma set_get_id k v o : Obj.get k o = Some v -> Obj.set k v o = o.
Proof.
  induction o as [|[k' v'] o IH]; simpl; [discriminate |].
  destruct (String.eqb k' k); [intros [= ->]; reflexivity |].
  intros H. now rewrite IH.
Qed.


Lemma set_absent k v o :
  Obj.get k o = None -> Obj.set k v o = (o ++ [(k, v)])%list.
Proof.
  induction o as [|[k' v'] o IH]; simpl; [reflexivity |].
  destruct (String.eqb k' k); [discriminate |].
  intros H. now rewrite IH.
Qed.

End DictFacts.

(** ** Ledger mutations *)

Section Mutations.

Lemma setBook_same (f : DayBook -> DayBook) (s : AppState) :
  f (book s) = book s -> setBook f s = s.
Proof. destruct s; unfold setBook; simpl. now intros ->. Qed.

Lemma filter_fresh (i : string) (arr : list ExpenseEntry) :
  freshId i arr ->
  filter (fun expense => negb (String.eqb (id expense) i)) arr = arr.
Proof.
  intros F. induction arr as [|e arr IH]; simpl; [reflexivity |].
  destruct (String.eqb_spec (id e) i) as [E|_]; simpl.
  - exfalso. apply (F e); [now left | assumption].
  - rewrite IH; [reflexivity |]. intros x Hx. apply F. now right.
Qed.


Lemma bucket_set_same (b : DayBook) (k : string) (arr : list ExpenseEntry) :
  bucket (Obj.set k arr b) k = arr.
Proof. unfold bucket. now rewrite get_set_same. Qed.

(** What [deleteExpense] does for an id that today's bucket lacks. *)
Lemma deleteExpense_fresh (i : string) (s : AppState) :
  freshId i (todayEntries s) -> deleteExpense i s = ensureToday s.
Proof.
  intros F. unfold deleteExpense, ensureToday, setBook. f_equal.
  unfold todayEntries, bucket in F.
  destruct (Obj.get (todayKey s) (book s)) as [arr|] eqn:G.
  - rewrite filter_fresh by assumption. now apply set_get_id.
  - reflexivity.
Qed.

End Mutations.

(** C2, as stated, fails when the current day has no bucket: the
    updater of [deleteExpense] always writes the property
    [[todayKey]], so on a ledger that holds one other day the call
    adds an empty bucket and the ledger has two keys instead of one. *)
Lemma deleteExpense_creates_bucket :
  let s := setBook (fun _ => [("2024-01-01",
                               [mkEntry "k3x" (Num.ofZ 10) 1704103200000
                                        "food" ""])])
                   (initialState "2024-01-02") in
  Obj.get (todayKey s) (book s) = None
  /\ book (deleteExpense "zzz" s)
     = [("2024-01-01", [mkEntry "k3x" (Num.ofZ 10) 1704103200000 "food" ""]);
        ("2024-01-02", [])]
  /\ deleteExpense "zzz" s <> s.
Proof.
  cbv zeta. split; [reflexivity | split; [reflexivity |]].
  intros E. apply (f_equal (fun s => List.length (book s))) in E.
  vm_compute in E. discriminate.
Qed.

(** C2 (amended): for an entry id that is not in the current day's
    bucket, [deleteExpense] leaves the entries of the current day
    unchanged and is idempotent; when the current day has a bucket the
    resulting state is identical to the state before the call; when it
    has none, the call appends an empty bucket under the current day
    key, which is the ledger [ensureToday] produces. *)
Theorem deleteExpense_absent_id (s : AppState) (expenseId : string) :
  freshId expenseId (todayEntries s) ->
  todayEntries (deleteExpense expenseId s) = todayEntries s
  /\ (Obj.get (todayKey s) (book s) <> None -> deleteExpense expenseId s = s)
  /\ (Obj.get (todayKey s) (book s) = None ->
      book (deleteExpense expenseId s)
      = (book s ++ [(todayKey s, [])])%list)
  /\ deleteExpense expenseId s = ensureToday s
  /\ deleteExpense expenseId (deleteExpense expenseId s)
     = deleteExpense expenseId s.
Proof.
  intros F.
  assert (T : todayEntries (deleteExpense expenseId s) = todayEntries s).
  { unfold deleteExpense, todayEntries, setBook; simpl.
    rewrite bucket_set_same. unfold todayEntries, bucket in *.
    destruct (Obj.get (todayKey s) (book s));
      [now apply filter_fresh | reflexivity]. }
  split; [exact T | split; [| split; [| split]]].
  - intros G. apply setBook_same. cbv beta zeta.
    unfold todayEntries, bucket in F.
    destruct (Obj.get (todayKey s) (book s)) as [arr|] eqn:E; [| congruence].
    rewrite filter_fresh by assumption. now apply set_get_id.
  - intros G. unfold deleteExpense, setBook; simpl. rewrite G. simpl.
    now apply set_absent.
  - now apply deleteExpense_fresh.
  - set (s' := deleteExpense expenseId s).
    assert (F' : freshId expenseId (todayEntries s'))
      by (unfold s'; now rewrite T).
    rewrite (deleteExpense_fresh _ _ F').
    unfold ensureToday. apply setBook_same.
    unfold s', deleteExpense, setBook; simpl. now rewrite get_set_same.
Qed.

(** On a ledger whose current day holds one entry, deleting another id. *)
Lemma deleteExpense_absent_id_witness :
  let s := setBook (fun _ => [("2024-01-02",
                               [mkEntry "k3x" (Num.ofZ 10) 1704189600000
                                        "food" ""])])
                   (initialState "2024-01-02") in
  freshId "zzz" (todayEntries s) /\ deleteExpense "zzz" s = s.
Proof.
  cbv zeta.
  assert (F : freshId "zzz"
                (todayEntries
                   (setBook (fun _ => [("2024-01-02",
                               [mkEntry "k3x" (Num.ofZ 10) 1704189600000
                                        "food" ""])])
                            (initialState "2024-01-02")))).
  { intros e [<- | []]. simpl. discriminate. }
  split; [exact F |].
  destruct (deleteExpense_absent_id _ _ F) as (_ & Same & _).
  apply Same. simpl. discriminate.
Defined.

Section Amounts.

(** [!(amt > 0)] holds exactly of [NaN] and of the amounts [<= 0]. *)
Lemma not_positive_iff (amt : number) :
  Num.gtb amt Num.zero = false <-> amt = NaN \/ Num.leb amt Num.zero = true.
Proof.
  unfold Num.gtb, Num.zero.
  destruct amt as [| |q|]; simpl; unfold Num.Qltb.
  - split; auto.
  - split; auto.
  - rewrite negb_false_iff.
    split; [auto | intros [H|H]; [discriminate | exact H]].
  - split; [discriminate | intros [H|H]; discriminate].
Qed.

End Amounts.

(** C4: an amount that is [NaN] or that is [<= 0] is rejected by the
    guard of [addAmount] before anything happens: the state (ledger
    included: no entry appended, no bucket created) is returned as it
    was and no platform call is made. *)
Theorem addAmount_invalid_amount
    (s : AppState) (rid : string) (nowMs : Z) (amt : number)
    (category note : option string) :
  amt = NaN \/ Num.leb amt Num.zero = true ->
  addAmount rid nowMs amt category note s = (s, [])
  /\ book (fst (addAmount rid nowMs amt category note s)) = book s
  /\ Obj.keys (book (fst (addAmount rid nowMs amt category note s)))
     = Obj.keys (book s)
  /\ todayEntries (fst (addAmount rid nowMs amt category note s))
     = todayEntries s.
Proof.
  intros H. apply not_positive_iff in H.
  assert (E : addAmount rid nowMs amt category note s = (s, []))
    by (unfold addAmount; now rewrite H).
  rewrite E. auto.
Qed.

(** The empty custom amount parses to [NaN]; adding it on the first
    day changes nothing. *)
Lemma addAmount_invalid_amount_witness :
  addAmount "k3x" 1704189600000 NaN None None (initialState "2024-01-02")
  = (initialState "2024-01-02", []).
Proof.
  apply (addAmount_invalid_amount (initialState "2024-01-02")
           "k3x" 1704189600000 NaN None None).
  left. reflexivity.
Defined.




(** C10: each mutation of the ledger writes the bucket of the current
    day key only: the bucket of (or the absence of a bucket for) any
    other key is what it was, and budget, quick amounts, categories
    and currency are untouched. *)
Theorem mutations_frame (s : AppState) (k : string) :
  k <> todayKey s ->
  (forall rid nowMs amt category note,
      let s' := fst (addAmount rid nowMs amt category note s) in
      Obj.get k (book s') = Obj.get k (book s) /\ sameSettings s s')
  /\ (forall expenseId,
      let s' := deleteExpense expenseId s in
      Obj.get k (book s') = Obj.get k (book s) /\ sameSettings s s')
  /\ (forall pressed,
      let s' := fst (clearToday pressed s) in
      Obj.get k (book s') = Obj.get k (book s) /\ sameSettings s s').
Proof.
  intros N. unfold sameSettings. split; [| split].
  - intros rid nowMs amt category note. cbv zeta. unfold addAmount.
    destruct (negb (Num.gtb amt Num.zero)); cbn; [auto |].
    rewrite get_set_other by assumption. auto.
  - intros expenseId. cbv zeta. unfold deleteExpense. cbn.
    rewrite get_set_other by assumption. auto.
  - intros [|]; cbv zeta; cbn; [auto |].
    rewrite get_set_other by assumption. auto.
Qed.

(** Yesterday's bucket survives an addition made today. *)
Lemma mutations_frame_witness :
  let s := setBook (fun _ => [("2024-01-01",
                               [mkEntry "k3x" (Num.ofZ 10) 1704103200000
                                        "food" ""])])
                   (initialState "2024-01-02") in
  Obj.get "2024-01-01"
    (book (fst (addAmount "q7a" 1704189600000 (Num.ofZ 5) None None s)))
  = Some [mkEntry "k3x" (Num.ofZ 10) 1704103200000 "food" ""].
Proof.
  cbv zeta.
  refine (proj1 (proj1 (mutations_frame _ "2024-01-01" _)
                   "q7a" 1704189600000 (Num.ofZ 5) None None)).
  simpl. discriminate.
Defined.

(** ** Arithmetic of the budget meter *)

Section Meter.
Local Open Scope Q_scope.

Lemma Qltb_lt (a b : Q) : Num.Qltb a b = true <-> a < b.
Proof.
  unfold Num.Qltb. rewrite negb_true_iff. split.
  - intros H. apply Qnot_le_lt. intros L.
    apply Qle_bool_iff in L. congruence.
  - intros H. destruct (Qle_bool b a) eqn:E; [| reflexivity].
    apply Qle_bool_iff in E. exfalso. now apply (Qlt_not_le a b).
Qed.

Lemma Qltb_ge (a b : Q) : Num.Qltb a b = false <-> b <= a.
Proof.
  unfold Num.Qltb. rewrite negb_false_iff. apply Qle_bool_iff.
Qed.

Lemma Qdiv_nonneg (q b : Q) : 0 <= q -> 0 < b -> 0 <= q / b.
Proof.
  intros Hq Hb. unfold Qdiv. apply Qmult_le_0_compat; [assumption |].
  apply Qlt_le_weak. now apply Qinv_lt_0_compat.
Qed.

Lemma remainingOf_bounds (b t : number) :
  Num.leb Num.zero t = true -> Num.leb Num.zero b = true ->
  ~ (b = Infinity /\ t = Infinity) ->
  Num.within Num.zero b (remainingOf b t).
Proof.
  intros Ht Hb N. unfold Num.within, remainingOf, Num.sub, Num.zero in *.
  destruct b as [| |b|], t as [| |q|]; simpl in *; try discriminate;
    try (split; reflexivity).
  - apply Qle_bool_iff in Hb, Ht.
    destruct (Num.Qltb 0 (b + - q)) eqn:E; simpl.
    + apply Qltb_lt in E. split; apply Qle_bool_iff; lra.
    + split; apply Qle_bool_iff; lra.
  - split; [reflexivity | assumption].
  - exfalso. now apply N.
Qed.

Lemma progressOf_bounds (b t : number) :
  Num.leb Num.zero t = true ->
  ~ (b = Infinity /\ t = Infinity) ->
  Num.within Num.zero Num.one (progressOf b t).
Proof.
  intros Ht N. unfold Num.within, progressOf, Num.gtb, Num.zero, Num.one in *.
  destruct b as [| |b|], t as [| |q|]; simpl in *; try discriminate;
    try (split; reflexivity).
  - destruct (Num.Qltb 0 b) eqn:Hb; [| split; reflexivity].
    apply Qltb_lt in Hb. apply Qle_bool_iff in Ht.
    destruct (Qeq_bool b 0) eqn:Z.
    + apply Qeq_bool_iff in Z. lra.
    + simpl. destruct (Num.Qltb (q / b) 1) eqn:E; simpl.
      * apply Qltb_lt in E. split; apply Qle_bool_iff.
        -- now apply Qdiv_nonneg.
        -- lra.
      * split; reflexivity.
  - destruct (Num.Qltb 0 b) eqn:Hb; [| split; reflexivity].
    apply Qltb_lt in Hb.
    replace (Num.Qltb b 0) with false
      by (symmetry; apply Qltb_ge; lra).
    split; reflexivity.
  - exfalso. now apply N.
Qed.

End Meter.

(** C7, as stated, fails at one pair of numbers: with budget and total
    both [Infinity] (a total that is [>= 0]) the difference and the
    quotient are [NaN], which [Math.max] and [Math.min] hand back. *)
Lemma meter_infinite_budget_and_total :
  Num.leb Num.zero Infinity = true
  /\ remainingOf Infinity Infinity = NaN
  /\ progressOf Infinity Infinity = NaN
  /\ ~ Num.within Num.zero Num.one (progressOf Infinity Infinity)
  /\ ~ Num.within Num.zero Infinity (remainingOf Infinity Infinity).
Proof.
  repeat split; try reflexivity;
    intros [H _]; vm_compute in H; discriminate.
Qed.

(** C7 (amended): for every budget [b] ([NaN] and the infinities
    included) and every total [t >= 0], the pair [b = t = Infinity]
    apart: [remaining] is [max(0, b - t)] and lies in [[0, b]] when
    [b >= 0]; [progress] is [min(1, t / b)] when [b > 0] and [0]
    otherwise (no division happens for a zero or negative budget), and
    lies in [[0, 1]]. *)
Theorem meter_bounds (b t : number) :
  Num.leb Num.zero t = true ->
  ~ (b = Infinity /\ t = Infinity) ->
  remainingOf b t = Num.Math_max Num.zero (Num.sub b t)
  /\ (Num.leb Num.zero b = true -> Num.within Num.zero b (remainingOf b t))
  /\ (Num.gtb b Num.zero = true ->
      progressOf b t = Num.Math_min Num.one (Num.div t b))
  /\ (Num.gtb b Num.zero = false -> progressOf b t = Num.zero)
  /\ (Num.leb b Num.zero = true -> progressOf b t = Num.zero)
  /\ Num.within Num.zero Num.one (progressOf b t).
Proof.
  intros Ht N.
  split; [reflexivity |].
  split; [intros Hb; now apply remainingOf_bounds |].
  split; [intros H; unfold progressOf; now rewrite H |].
  split; [intros H; unfold progressOf; now rewrite H |].
  split; [| now apply progressOf_bounds].
  intros H. unfold progressOf.
  replace (Num.gtb b Num.zero) with false; [reflexivity |].
  symmetry. apply not_positive_iff. now right.
Qed.

(** Budget 20 and a total of 25: nothing remains and the meter is full. *)
Lemma meter_bounds_witness :
  remainingOf (Num.ofZ 20) (Num.ofZ 25) = Num.zero
  /\ progressOf (Num.ofZ 20) (Num.ofZ 25) = Num.one
  /\ Num.within Num.zero Num.one (progressOf (Num.ofZ 20) (Num.ofZ 25)).
Proof.
  split; [reflexivity | split; [reflexivity |]].
  refine (proj2 (proj2 (proj2 (proj2 (proj2
            (meter_bounds (Num.ofZ 20) (Num.ofZ 25) _ _)))))).
  - reflexivity.
  - intros [H _]. discriminate.
Defined.

(** Budget 30 with 5 and 12 spent: 17 in total, 13 remain, and the
    meter stands at 17/30. *)
Example meter_scenario :
  let s := fst (addAmount "q7a" 1704193200000 (Num.ofZ 12) None None
             (fst (addAmount "k3x" 1704189600000 (Num.ofZ 5) None None
                     (ensureToday (initialState "2024-01-02"))))) in
  (todayTotal s == Num.ofZ 17)%num
  /\ (remaining s == Num.ofZ 13)%num
  /\ (progress s == Finite (17 # 30))%num.
Proof. cbv zeta. repeat split; vm_compute; reflexivity. Qed.

(** ** Sums of amounts *)

Section Sums.

(** [reduce] adds the amounts one after the other, from the left. *)
Lemma reduce_addedTo (l : list ExpenseEntry) :
  forall a, fold_left (fun acc e => Num.add acc (amount e)) l a
            = addedTo a (map amount l).
Proof.
  induction l as [|e l IH]; intros a; cbn [fold_left map addedTo];
    [reflexivity | apply IH].
Qed.

Lemma sumAmounts_addedTo (l : list ExpenseEntry) :
  sumAmounts l = addedTo Num.zero (map amount l).
Proof. apply reduce_addedTo. Qed.

Lemma addedTo_app (l1 l2 : list number) :
  forall a, addedTo a (l1 ++ l2) = addedTo (addedTo a l1) l2.
Proof.
  induction l1 as [|x l1 IH]; intros a; cbn [app addedTo];
    [reflexivity | apply IH].
Qed.

(** The sum of a list that continues another one resumes from the sum
    of the first. *)
Lemma sumAmounts_app (l1 l2 : list ExpenseEntry) :
  sumAmounts (l1 ++ l2) = addedTo (sumAmounts l1) (map amount l2).
Proof.
  rewrite !sumAmounts_addedTo, map_app. apply addedTo_app.
Qed.

Lemma sumAmounts_snoc (l : list ExpenseEntry) (e : ExpenseEntry) :
  sumAmounts (l ++ [e]) = Num.add (sumAmounts l) (amount e).
Proof. now rewrite sumAmounts_app. Qed.

End Sums.

(** ** The spending summary *)

Section SummaryFacts.


Lemma values_append (b : DayBook) (k : string) (arr : list ExpenseEntry) :
  List.concat (Obj.values (b ++ [(k, arr)])%list)
  = (List.concat (Obj.values b) ++ arr)%list.
Proof.
  unfold Obj.values. rewrite map_app, concat_app. simpl.
  now rewrite app_nil_r.
Qed.

Lemma month_test (tz : Z) (now ts : Z) :
  (JSDate.getMonth tz ts =? JSDate.getMonth tz now)
  && (JSDate.getFullYear tz ts =? JSDate.getFullYear tz now)
  = inMonthOf tz now ts.
Proof.
  unfold inMonthOf, JSDate.getMonth, JSDate.getFullYear,
    JSDate.MonthFromTime, JSDate.YearFromTime, JSDate.localDay.
  destruct (JSDate.civil_from_days (JSDate.Day (JSDate.LocalTime tz now)))
    as [[y1 m1] d1].
  destruct (JSDate.civil_from_days (JSDate.Day (JSDate.LocalTime tz ts)))
    as [[y2 m2] d2].
  rewrite andb_comm. f_equal.
  destruct (Z.eqb_spec (m2 - 1) (m1 - 1)), (Z.eqb_spec m2 m1);
    (reflexivity || lia).
Qed.

End SummaryFacts.




(** ** The weekly history *)

Section Week.
Import JSDate.
Variable tz : Z.

Lemma localDay_startOfLocalDay (n : Z) : localDay tz (startOfLocalDay tz n) = n.
Proof.
  unfold localDay, startOfLocalDay, LocalTime, UTC, MakeDate, Day, msPerDay.
  replace (n * 86400000 + 0 - tz + tz) with (n * 86400000) by lia.
  now apply Z.div_mul.
Qed.

Lemma days_from_civil_day (y m d : Z) :
  days_from_civil y m d = days_from_civil y m 1 + d - 1.
Proof. unfold days_from_civil. lia. Qed.

(** [setHours(0, 0, 0, 0)] followed by [setDate(getDate() - i)] lands
    on the start of the local day [i] days before. *)
Lemma midnight_days_before (now : Date) (i : Z) :
  let d := setHours tz 0 0 0 0 now in
  setDate tz (getDate tz d - i) d = startOfLocalDay tz (localDay tz now - i).
Proof.
  cbv zeta.
  assert (L : LocalTime tz (setHours tz 0 0 0 0 now)
              = localDay tz now * msPerDay).
  { unfold localDay, setHours, LocalTime, UTC, MakeDate, MakeTime. lia. }
  assert (D : Day (localDay tz now * msPerDay) = localDay tz now)
    by (unfold Day, msPerDay; now apply Z.div_mul).
  assert (W : TimeWithinDay (localDay tz now * msPerDay) = 0)
    by (unfold TimeWithinDay, msPerDay; now apply Z.mod_mul).
  unfold setDate, getDate, startOfLocalDay.
  rewrite L, W. unfold YearFromTime, MonthFromTime, DateFromTime.
  rewrite D.
  pose proof (civil_from_days_spec (localDay tz now)) as S.
  destruct (civil_from_days (localDay tz now)) as [[y m] d].
  destruct S as (R & Hm & _).
  unfold MakeDay.
  replace ((m - 1) / 12) with 0 by (symmetry; apply Z.div_small; lia).
  rewrite (Z.mod_small (m - 1) 12) by lia.
  replace (y + 0) with y by lia. replace (m - 1 + 1) with m by lia.
  rewrite (days_from_civil_day y m d) in R.
  f_equal. f_equal. lia.
Qed.

Lemma last7Step_spec (now : Date) (b : DayBook) (arr : list DayTotal) (i : Z) :
  last7Step tz now b arr i
  = (arr ++ [dayTotalOf tz b (localDay tz now - i)])%list.
Proof.
  unfold last7Step, dayTotalOf.
  pose proof (midnight_days_before now i) as M. cbv zeta in M.
  now rewrite M.
Qed.

Lemma last7Loop_step (fuel : nat) (clock : nat -> Date) (b : DayBook)
    (reads : nat) (i : Z) arr :
  0 <= i ->
  last7Loop (S fuel) tz clock b reads i arr
  = last7Loop fuel tz clock b (S reads) (i - 1)
      (last7Step tz (clock reads) b arr i).
Proof.
  intros H. cbn [last7Loop].
  now replace (0 <=? i) with true by (symmetry; apply Z.leb_le; lia).
Qed.

Lemma last7Loop_stop (fuel : nat) (clock : nat -> Date) (b : DayBook)
    (reads : nat) (i : Z) arr :
  i < 0 -> last7Loop fuel tz clock b reads i arr = arr.
Proof.
  intros H. destruct fuel; cbn [last7Loop]; [reflexivity |].
  now replace (0 <=? i) with false by (symmetry; apply Z.leb_gt; lia).
Qed.

(** The loop runs to its exit with the fuel it is given; its iteration
    for [i] uses the reading number [7 - i]. *)
Lemma last7Totals_reads (clock : nat -> Date) (b : DayBook) :
  last7Totals tz clock b
  = map (fun r => dayTotalOf tz b (localDay tz (clock r) - (7 - Z.of_nat r)))
        [1; 2; 3; 4; 5; 6; 7]%nat.
Proof.
  unfold last7Totals. cbv zeta.
  do 7 (rewrite last7Loop_step by lia; rewrite last7Step_spec).
  rewrite last7Loop_stop by lia. reflexivity.
Qed.

Lemma last7Totals_unrolled (clock : nat -> Date) (b : DayBook) (n : Z) :
  readsOnDay tz clock n ->
  last7Totals tz clock b
  = map (fun i => dayTotalOf tz b (n - i)) [6; 5; 4; 3; 2; 1; 0].
Proof.
  intros R. rewrite last7Totals_reads. cbn [map].
  rewrite (R 1%nat), (R 2%nat), (R 3%nat), (R 4%nat), (R 5%nat), (R 6%nat),
    (R 7%nat) by lia.
  reflexivity.
Qed.

Lemma tickingFrom_day (start : Date) (n : Z) :
  localDay tz start = n -> localDay tz (start + 7) = n ->
  readsOnDay tz (tickingFrom start) n.
Proof.
  unfold readsOnDay, tickingFrom, localDay, LocalTime, Day, msPerDay.
  intros A B r R.
  assert (L : (start + tz) / 86400000 <= (start + Z.of_nat r + tz) / 86400000)
    by (apply Z.div_le_mono; lia).
  assert (U : (start + Z.of_nat r + tz) / 86400000
              <= (start + 7 + tz) / 86400000)
    by (apply Z.div_le_mono; lia).
  lia.
Qed.

End Week.

(** C6: the loop of [last7Totals] reads the clock in each of its seven
    iterations (the reading [cal] made before the loop is not used).
    When local midnight passes between two of these readings, the
    entries are not the seven days that end today.  Here the evaluation
    starts in the last millisecond of 2024-03-01: the entries are dated
    02-24, then 02-26 to 03-02, so that 2024-02-25 and the 9 units
    entered on it are missing from the week, whichever of the two days
    is taken for today. *)
Theorem last7Totals_across_midnight :
  let ledger :=
    [("2024-02-25", [mkEntry "k3x" (Num.ofZ 9) 1708862400000 "food" ""]);
     ("2024-03-01", [mkEntry "q7a" (Num.ofZ 5) 1709294400000 "food" ""])] in
  let clock := tickingFrom 1709337599998 in
  map (fun r => dateKey 0 (clock r)) [1; 2; 3; 4; 5; 6; 7]%nat
  = ["2024-03-01"; "2024-03-02"; "2024-03-02"; "2024-03-02"; "2024-03-02";
     "2024-03-02"; "2024-03-02"]
  /\ map (fun x => (dateKey 0 (date x), total x)) (last7Totals 0 clock ledger)
     = [("2024-02-24", Num.zero); ("2024-02-26", Num.zero);
        ("2024-02-27", Num.zero); ("2024-02-28", Num.zero);
        ("2024-02-29", Num.zero); ("2024-03-01", Num.ofZ 5);
        ("2024-03-02", Num.zero)].
Proof. cbv zeta. split; vm_compute; reflexivity. Qed.

(** X25: when the seven readings of the clock made by the loop fall on
    one local day, [last7Totals] has exactly seven entries, one per
    local calendar day from six days before that day up to it, oldest
    first, each dated at the start of its day.  The total of an entry
    is the amounts of the bucket stored under the [dateKey] of its
    date, added from the left starting from 0, and it is 0 when the
    ledger has no bucket under that key. *)
Theorem last7Totals_week
    (tz : Z) (clock : nat -> JSDate.Date) (b : DayBook) (today : Z) :
  readsOnDay tz clock today ->
  let week := last7Totals tz clock b in
  List.length week = 7%nat
  /\ map (fun x => JSDate.localDay tz (date x)) week
     = map (fun i => today - i) [6; 5; 4; 3; 2; 1; 0]
  /\ map date week
     = map (fun i => startOfLocalDay tz (today - i)) [6; 5; 4; 3; 2; 1; 0]
  /\ (exists x, nth_error week 6 = Some x
                /\ dateKey tz (date x) = dateKey tz (clock 7%nat))
  /\ (forall x, In x week ->
        total x
        = addedTo Num.zero (map amount (bucket b (dateKey tz (date x)))))
  /\ (forall x, In x week ->
        Obj.get (dateKey tz (date x)) b = None -> total x = Num.zero).
Proof.
  intros R. cbv zeta. rewrite (last7Totals_unrolled tz clock b today R).
  assert (T : forall x,
             In x (map (fun i => dayTotalOf tz b (today - i))
                       [6; 5; 4; 3; 2; 1; 0]) ->
             total x
             = addedTo Num.zero
                 (map amount (bucket b (dateKey tz (date x))))).
  { intros x Hx. apply in_map_iff in Hx as (i & <- & _).
    cbn [dayTotalOf total date]. apply sumAmounts_addedTo. }
  split; [reflexivity | split; [| split; [| split; [| split]]]].
  - rewrite map_map. apply map_ext. intros i. cbn [dayTotalOf date].
    apply localDay_startOfLocalDay.
  - rewrite map_map. reflexivity.
  - eexists. split; [reflexivity |]. cbn [dayTotalOf date].
    apply dateKey_same_day.
    rewrite localDay_startOfLocalDay, (R 7%nat) by lia. lia.
  - exact T.
  - intros x Hx G. rewrite (T x Hx). unfold bucket. now rewrite G.
Qed.

(** The week that ends on 2024-03-01 in a zone one hour east of
    Greenwich: 5 then 12 units entered on 02-28, 7 units on 03-01, and
    no bucket for the other days. *)
Lemma last7Totals_week_witness :
  map total
    (last7Totals 3600000 (tickingFrom 1709251199000)
       [("2024-02-28",
         [mkEntry "k3x" (Num.ofZ 5) 1709110800000 "food" "";
          mkEntry "q7a" (Num.ofZ 12) 1709114400000 "fun" ""]);
        ("2024-03-01",
         [mkEntry "m2c" (Num.ofZ 7) 1709251198000 "food" ""])])
  = [Num.zero; Num.zero; Num.zero; Num.zero; Num.ofZ 17; Num.zero; Num.ofZ 7].
Proof.
  pose (b := [("2024-02-28",
               [mkEntry "k3x" (Num.ofZ 5) 1709110800000 "food" "";
                mkEntry "q7a" (Num.ofZ 12) 1709114400000 "fun" ""]);
              ("2024-03-01",
               [mkEntry "m2c" (Num.ofZ 7) 1709251198000 "food" ""])]).
  assert (R : readsOnDay 3600000 (tickingFrom 1709251199000) 19783).
  { apply tickingFrom_day; vm_compute; reflexivity. }
  destruct (last7Totals_week 3600000 (tickingFrom 1709251199000) b 19783 R)
    as (_ & _ & Dates & _ & Totals & _).
  fold b.
  assert (E : map total (last7Totals 3600000 (tickingFrom 1709251199000) b)
              = map (fun d => addedTo Num.zero
                                (map amount (bucket b (dateKey 3600000 d))))
                    (map date
                       (last7Totals 3600000 (tickingFrom 1709251199000) b))).
  { rewrite map_map. apply map_ext_in. intros x Hx. now apply Totals. }
  rewrite E, Dates. vm_compute. reflexivity.
Defined.

(** ** Sorting *)

Section Sorting.
Context {A : Type}.
Variable compare : A -> A -> Z.

Lemma sortInsert_perm (x : A) (l : list A) :
  Permutation (sortInsert compare x l) (x :: l).
Proof.
  induction l as [|y l IH]; simpl; [reflexivity |].
  destruct (compare x y <=? 0); [reflexivity |].
  rewrite IH. apply perm_swap.
Qed.

Lemma sort_perm (l : list A) : Permutation (sort compare l) l.
Proof.
  induction l as [|x l IH]; simpl; [reflexivity |].
  rewrite sortInsert_perm. now constructor.
Qed.

(** The order a comparator induces, and what makes it one. *)
Variable before : A -> A -> Prop.
Hypothesis before_compare : forall x y, compare x y <= 0 -> before x y.
Hypothesis after_compare : forall x y, 0 < compare x y -> before y x.

Lemma sortInsert_sorted (x : A) (l : list A) :
  Sorted before l -> Sorted before (sortInsert compare x l).
Proof.
  induction l as [|y l IH]; intros S; simpl.
  - repeat constructor.
  - destruct (Z.leb_spec (compare x y) 0) as [L|G].
    + constructor; [assumption |]. constructor. now apply before_compare.
    + apply Sorted_inv in S as [S H].
      constructor; [now apply IH |].
      destruct l as [|z l]; simpl.
      * constructor. now apply after_compare.
      * destruct (compare x z <=? 0); constructor.
        -- now apply after_compare.
        -- now apply HdRel_inv in H.
Qed.

Lemma sort_sorted (l : list A) : Sorted before (sort compare l).
Proof.
  induction l as [|x l IH]; simpl; [constructor |].
  now apply sortInsert_sorted.
Qed.

End Sorting.

Section ExportFacts.

Lemma newerOrSame_trans : Relations_1.Transitive newerOrSame.
Proof. intros a b c. unfold newerOrSame. lia. Qed.

Lemma sortedEntries_perm (b : DayBook) :
  Permutation (sortedEntries b) (List.concat (Obj.values b)).
Proof. apply sort_perm. Qed.

Lemma sortedEntries_sorted (b : DayBook) :
  StronglySorted newerOrSame (sortedEntries b).
Proof.
  apply Sorted_StronglySorted; [exact newerOrSame_trans |].
  apply sort_sorted; unfold newerOrSame; intros x y; lia.
Qed.

Lemma replaceAll_clean (c d : ascii) (s : string) :
  c <> d -> Str.occurs c (Str.replaceAll c d s) = false.
Proof.
  intros N. induction s as [|a s IH]; simpl; [reflexivity |].
  rewrite IH, orb_false_r.
  destruct (Ascii.eqb_spec a c) as [->|Na].
  - apply Ascii.eqb_neq. congruence.
  - now apply Ascii.eqb_neq.
Qed.

(** Characters other than [c] stay where they are. *)
Lemma replaceAll_get (c d : ascii) (s : string) (n : nat) :
  String.get n (Str.replaceAll c d s)
  = option_map (fun a => if Ascii.eqb a c then d else a) (String.get n s).
Proof.
  revert n. induction s as [|a s IH]; intros n; simpl; [reflexivity |].
  destruct n; [reflexivity | apply IH].
Qed.

End ExportFacts.

(** ** [toFixed] *)

Section ToFixed.

Lemma all_append (p : ascii -> bool) (a b : string) :
  Str.all p (a ++ b) = Str.all p a && Str.all p b.
Proof.
  induction a as [|c a IH]; simpl; [reflexivity |].
  now rewrite IH, andb_assoc.
Qed.

Lemma occurs_append (c : ascii) (a b : string) :
  Str.occurs c (a ++ b) = Str.occurs c a || Str.occurs c b.
Proof.
  induction a as [|x a IH]; simpl; [reflexivity |].
  now rewrite IH, orb_assoc.
Qed.

Lemma filler_zero (n : nat) :
  forall rest, Str.all Str.isDigit rest = true ->
  Str.all Str.isDigit (Str.filler "0" rest n) = true
  /\ String.length (Str.filler "0" rest n) = n.
Proof.
  induction n as [|n IH]; intros rest H; simpl; [now split |].
  destruct rest as [|c rest]; simpl in *.
  - destruct (IH "" eq_refl) as [D L]. rewrite D, L. now split.
  - apply andb_true_iff in H as [Hc Hr].
    destruct (IH rest Hr) as [D L]. rewrite Hc, D, L. now split.
Qed.

Lemma substring_length (s : string) :
  forall n m, (n + m <= String.length s)%nat ->
  String.length (substring n m s) = m.
Proof.
  induction s as [|c s IH]; intros n m H; simpl in H.
  - assert (n = 0%nat) by lia. assert (m = 0%nat) by lia. now subst.
  - destruct n as [|n]; destruct m as [|m]; simpl; try reflexivity.
    + rewrite IH by lia. reflexivity.
    + apply IH. lia.
    + apply IH. lia.
Qed.

Lemma substring_all (p : ascii -> bool) (s : string) :
  forall n m, Str.all p s = true -> Str.all p (substring n m s) = true.
Proof.
  induction s as [|c s IH]; intros n m H.
  - destruct n, m; reflexivity.
  - simpl in H. apply andb_true_iff in H as [Hc Hs].
    destruct n as [|n]; destruct m as [|m]; simpl; auto.
    now rewrite Hc, IH.
Qed.

Lemma Qfloor_nonneg (x : Q) : (0 <= x)%Q -> 0 <= Qfloor x.
Proof.
  intros H. change 0 with (Qfloor 0). now apply Qfloor_resp_le.
Qed.

Lemma pow10_nonneg (f : nat) : (0 <= inject_Z (10 ^ Z.of_nat f))%Q.
Proof.
  change 0%Q with (inject_Z 0). rewrite <- Zle_Qle.
  apply Z.pow_nonneg. lia.
Qed.

(** Below 10^21 in magnitude, [toFixed(f)] with [f > 0] writes an
    optional sign, at least one digit, a point and [f] digits. *)
Lemma toFixed_fixedPoint (exponentNotation : Q -> string) (q : Q) (f : nat) :
  (Qabs q < inject_Z (10 ^ 21))%Q -> f <> 0%nat ->
  NumFmt.fixedPoint f (NumFmt.toFixed exponentNotation (Finite q) f).
Proof.
  intros R F. unfold NumFmt.toFixed.
  destruct (Qle_bool (inject_Z (10 ^ 21)) (Qabs q)) eqn:E;
    [apply Qle_bool_iff in E; exfalso; now apply (Qlt_not_le _ _ R) |].
  replace (f =? 0)%nat with false by (symmetry; now apply Nat.eqb_neq).
  set (n := Qfloor (Qabs q * inject_Z (10 ^ Z.of_nat f) + (1 # 2))).
  assert (Hn : 0 <= n).
  { apply Qfloor_nonneg.
    pose proof (Qabs_nonneg q) as A. pose proof (pow10_nonneg f) as P.
    pose proof (Qmult_le_0_compat _ _ A P) as M. lra. }
  destruct (ofZ_digits n Hn) as [D NE].
  set (m0 := Str.ofZ n) in *.
  set (m := if (String.length m0 <=? f)%nat
            then Str.filler "0" "0" (f + 1 - String.length m0) ++ m0
            else m0).
  assert (Hm : Str.all Str.isDigit m = true /\ (f < String.length m)%nat).
  { unfold m. destruct (Nat.leb_spec (String.length m0) f) as [L|L].
    - destruct (filler_zero (f + 1 - String.length m0) "0" eq_refl) as [FD FL].
      rewrite all_append, FD, D, length_append, FL. split; [reflexivity | lia].
    - now split. }
  destruct Hm as [Dm Lm].
  exists (if Num.Qltb q 0 then "-" else ""),
         (substring 0 (String.length m - f) m),
         (substring (String.length m - f) f m).
  split; [reflexivity |].
  split; [destruct (Num.Qltb q 0); auto |].
  split.
  { intros E'. apply (f_equal String.length) in E'.
    rewrite substring_length in E' by lia. simpl in E'. lia. }
  split; [now apply substring_all |].
  split; [apply substring_length; lia | now apply substring_all].
Qed.

Lemma fixedPoint_has_point (f : nat) (s : string) :
  NumFmt.fixedPoint f s -> Str.occurs "." s = true.
Proof.
  intros (sign & a & b & -> & _).
  rewrite !occurs_append. simpl. now rewrite !orb_true_r.
Qed.

End ToFixed.

(** ** The CSV export *)

(** C9, as stated, fails at the amount column: [toFixed(2)] gives two
    decimals to finite amounts below 10^21 only.  The amount
    [Infinity] passes the guard of [addAmount] and is exported as
    ["Infinity"]; the amount 10^21 is exported in exponent notation. *)
Lemma csv_amount_without_decimals :
  infiniteAmountLedger
  = [("2024-01-02", [mkEntry "k3x" Infinity 1704189600000 "food" ""])]
  /\ csvContent sampleLocaleDate sampleExponentNotation infiniteAmountLedger
     = "Date,Amount,Category,Note" ++ String "010" ""
       ++ "1/2/2024,Infinity,food,"
  /\ ~ NumFmt.fixedPoint 2 (NumFmt.toFixed sampleExponentNotation Infinity 2)
  /\ ~ NumFmt.fixedPoint 2
         (NumFmt.toFixed sampleExponentNotation
                         (Finite (inject_Z (10 ^ 21))) 2).
Proof.
  split; [reflexivity | split; [vm_compute; reflexivity | split]];
    intros H; apply fixedPoint_has_point in H; vm_compute in H; discriminate.
Qed.

(** C9 (amended): the CSV text is the line [Date,Amount,Category,Note]
    followed by one row per entry of the ledger, the rows being joined
    by line feeds and ordered by timestamp, newest first.  A row is the
    locale date of the timestamp, the amount as printed by
    [toFixed(2)], the raw category id and the note with every comma
    replaced by a semicolon (['coffee, latte'] gives ['coffee; latte']),
    separated by commas.  The amount has exactly two decimals when it
    is finite and below 10^21 in magnitude. *)
Theorem csvContent_layout
    (toLocaleDateString : Z -> string) (exponentNotation : Q -> string)
    (b : DayBook) :
  let rows := sortedEntries b in
  let row := csvRow toLocaleDateString exponentNotation in
  csvContent toLocaleDateString exponentNotation b
  = "Date,Amount,Category,Note" ++ String "010" ""
    ++ Str.join (String "010" "") (map row rows)
  /\ Permutation rows (List.concat (Obj.values b))
  /\ List.length (map row rows) = List.length (List.concat (Obj.values b))
  /\ StronglySorted newerOrSame rows
  /\ (forall e : ExpenseEntry,
      row e = toLocaleDateString (timestamp e) ++ ","
              ++ NumFmt.toFixed exponentNotation (amount e) 2 ++ ","
              ++ category e ++ ","
              ++ Str.replaceAll "," ";" (note e)
      /\ Str.occurs "," (Str.replaceAll "," ";" (note e)) = false
      /\ (forall n, String.get n (Str.replaceAll "," ";" (note e))
                    = option_map (fun a => if Ascii.eqb a "," then ";"%char
                                           else a)
                                 (String.get n (note e)))
      /\ (forall q, amount e = Finite q ->
                    (Qabs q < inject_Z (10 ^ 21))%Q ->
                    NumFmt.fixedPoint 2
                      (NumFmt.toFixed exponentNotation (amount e) 2)))
  /\ Str.replaceAll "," ";" "coffee, latte" = "coffee; latte".
Proof.
  cbv zeta. split; [reflexivity |].
  split; [apply sortedEntries_perm |].
  split; [rewrite length_map; apply Permutation_length, sortedEntries_perm |].
  split; [apply sortedEntries_sorted |].
  split; [| reflexivity].
  intros e. split; [reflexivity |].
  split; [apply replaceAll_clean; discriminate |].
  split; [intros n; apply replaceAll_get |].
  intros q -> R. apply toFixed_fixedPoint; [assumption | discriminate].
Qed.

(** Seven units and a half, printed for the amount column. *)
Lemma csvContent_layout_witness :
  NumFmt.fixedPoint 2
    (NumFmt.toFixed sampleExponentNotation (Finite (15 # 2)) 2).
Proof.
  pose (e := mkEntry "k3x" (Finite (15 # 2)) 1704189600000 "food" "tea, milk").
  destruct (csvContent_layout sampleLocaleDate sampleExponentNotation [])
    as (_ & _ & _ & _ & Row & _).
  destruct (Row e) as (_ & _ & _ & Amount).
  apply (Amount (15 # 2)).
  - reflexivity.
  - vm_compute. reflexivity.
Defined.

(** A ledger of two days exported on an English-language device. *)
Example csvContent_two_days :
  csvContent sampleLocaleDate sampleExponentNotation
    [("2024-01-01", [mkEntry "k3x" (Num.ofZ 10) 1704103200000 "food" ""]);
     ("2024-01-02", [mkEntry "q7a" (Finite (7 # 2)) 1704189600000
                             "food" "coffee, latte";
                     mkEntry "m2c" (Finite (1 # 8)) 1704193200000
                             "other" ""])]
  = "Date,Amount,Category,Note" ++ String "010" ""
    ++ "1/2/2024,0.13,other," ++ String "010" ""
    ++ "1/2/2024,3.50,food,coffee; latte" ++ String "010" ""
    ++ "1/1/2024,10.00,food,".
Proof. vm_compute. reflexivity. Qed.

(* ================================================================== *)
(** * Further properties of the application *)
(* ================================================================== *)

(** ** The day clock and the bucket of the day *)

Section DayClock.

Lemma bucket_set_other (b : DayBook) (k k' : string) (arr : list ExpenseEntry) :
  k' <> k -> bucket (Obj.set k arr b) k' = bucket b k'.
Proof. intros N. unfold bucket. now rewrite get_set_other. Qed.

Lemma ensureToday_present (s : AppState) :
  Obj.get (todayKey s) (book s) <> None -> ensureToday s = s.
Proof.
  intros G. unfold ensureToday. apply setBook_same.
  destruct (Obj.get (todayKey s) (book s)); congruence.
Qed.

Lemma ensureToday_bucket (s : AppState) (k : string) :
  bucket (book (ensureToday s)) k = bucket (book s) k.
Proof.
  unfold ensureToday, setBook; cbn [book].
  destruct (Obj.get (todayKey s) (book s)) eqn:G; [reflexivity |].
  destruct (String.eqb_spec k (todayKey s)) as [->|N].
  - rewrite bucket_set_same. unfold bucket. now rewrite G.
  - now apply bucket_set_other.
Qed.

Lemma ensureToday_has_bucket (s : AppState) :
  Obj.get (todayKey s) (book (ensureToday s)) = Some (todayEntries s).
Proof.
  unfold ensureToday, setBook, todayEntries, bucket; cbn [book].
  destruct (Obj.get (todayKey s) (book s)) eqn:G.
  - exact G.
  - apply get_set_same.
Qed.

Lemma updateDate_key (tz : Z) (now : JSDate.Date) (s : AppState) :
  todayKey (updateDate tz now s) = dateKey tz now.
Proof.
  unfold updateDate.
  destruct (String.eqb_spec (dateKey tz now) (todayKey s)) as [E|N]; cbn.
  - now symmetry.
  - reflexivity.
Qed.

Lemma updateDate_book (tz : Z) (now : JSDate.Date) (s : AppState) :
  book (updateDate tz now s) = book s.
Proof. unfold updateDate. now destruct (negb _). Qed.

Lemma updateDate_current (tz : Z) (now : JSDate.Date) (s : AppState) :
  todayKey s = dateKey tz now -> updateDate tz now s = s.
Proof. intros E. unfold updateDate. now rewrite E, String.eqb_refl. Qed.

Lemma dayCheck_key (tz : Z) (now : JSDate.Date) (s : AppState) :
  todayKey (dayCheck tz now s) = dateKey tz now.
Proof.
  unfold dayCheck. destruct (String.eqb _ _); [| unfold ensureToday; cbn];
    apply updateDate_key.
Qed.

Lemma dayCheck_bucket (tz : Z) (now : JSDate.Date) (s : AppState) (k : string) :
  bucket (book (dayCheck tz now s)) k = bucket (book s) k.
Proof.
  unfold dayCheck. destruct (String.eqb _ _).
  - now rewrite updateDate_book.
  - now rewrite ensureToday_bucket, updateDate_book.
Qed.

Lemma dayCheck_current (tz : Z) (now : JSDate.Date) (s : AppState) :
  todayKey s = dateKey tz now -> dayCheck tz now s = s.
Proof.
  intros E. unfold dayCheck. rewrite (updateDate_current _ _ _ E).
  now rewrite String.eqb_refl.
Qed.

End DayClock.

(** X1: the effect that ensures today's array gives the current day a
    bucket holding exactly the entries the day had (none when it had no
    bucket), leaves the entries found under every key as they were, and
    changes nothing when run again. *)
Theorem ensureToday_keeps_entries (s : AppState) :
  Obj.get (todayKey s) (book (ensureToday s)) = Some (todayEntries s)
  /\ (forall k : string, bucket (book (ensureToday s)) k = bucket (book s) k)
  /\ List.concat (Obj.values (book (ensureToday s)))
     = List.concat (Obj.values (book s))
  /\ ensureToday (ensureToday s) = ensureToday s.
Proof.
  split; [apply ensureToday_has_bucket |].
  split; [apply ensureToday_bucket |].
  split.
  - unfold ensureToday, setBook; cbn [book].
    destruct (Obj.get (todayKey s) (book s)) eqn:G; [reflexivity |].
    rewrite (set_absent _ _ _ G), values_append. apply app_nil_r.
  - apply ensureToday_present.
    change (todayKey (ensureToday s)) with (todayKey s).
    rewrite ensureToday_has_bucket. discriminate.
Qed.

(** X2: two checks of the date made at instants of the same local
    calendar day: the second one changes nothing, neither the key nor
    the ledger. *)
Theorem dayCheck_once_a_day
    (tz : Z) (now1 now2 : JSDate.Date) (s : AppState) :
  JSDate.localDay tz now1 = JSDate.localDay tz now2 ->
  dayCheck tz now2 (dayCheck tz now1 s) = dayCheck tz now1 s
  /\ updateDate tz now2 (updateDate tz now1 s) = updateDate tz now1 s.
Proof.
  intros E. apply (dateKey_same_day tz) in E. split.
  - apply dayCheck_current. now rewrite dayCheck_key.
  - apply updateDate_current. now rewrite updateDate_key.
Qed.

(** Noon and the last millisecond of 2024-02-29, one hour east of
    Greenwich, on a state left at the day before. *)
Lemma dayCheck_once_a_day_witness :
  dayCheck 3600000 1709247599999
    (dayCheck 3600000 1709204400000 (initialState "2024-02-28"))
  = dayCheck 3600000 1709204400000 (initialState "2024-02-28").
Proof.
  assert (Same : JSDate.localDay 3600000 1709204400000
                 = JSDate.localDay 3600000 1709247599999)
    by (vm_compute; reflexivity).
  exact (proj1 (dayCheck_once_a_day 3600000 1709204400000 1709247599999
                  (initialState "2024-02-28") Same)).
Defined.

(** X3: when the date is checked on another local day than the one the
    current key was taken on, the key becomes the key of the new day
    and differs from the old one, the new day has a bucket, every key
    keeps the entries it had, and what shows as today's entries is what
    the ledger already held under the new key: nothing on a day never
    seen (total 0, meter at 0), the old bucket when the clock went back
    to a day already in the ledger. *)
Theorem dayCheck_rollover
    (tz : Z) (now0 now : JSDate.Date) (s : AppState) :
  todayKey s = dateKey tz now0 ->
  JSDate.localDay tz now <> JSDate.localDay tz now0 ->
  let s' := dayCheck tz now s in
  todayKey s' = dateKey tz now
  /\ todayKey s' <> todayKey s
  /\ Obj.get (todayKey s') (book s') <> None
  /\ (forall k : string, bucket (book s') k = bucket (book s) k)
  /\ todayEntries s' = bucket (book s) (dateKey tz now)
  /\ (Obj.get (dateKey tz now) (book s) = None ->
      todayEntries s' = [] /\ todayTotal s' = Num.zero
      /\ (progress s' == Num.zero)%num).
Proof.
  intros K D. cbv zeta.
  assert (N : dateKey tz now <> todayKey s).
  { rewrite K. intros E. now apply D, dateKey_inj. }
  assert (T : todayEntries (dayCheck tz now s)
              = bucket (book s) (dateKey tz now)).
  { unfold todayEntries. now rewrite dayCheck_bucket, dayCheck_key. }
  split; [apply dayCheck_key |].
  split; [now rewrite dayCheck_key |].
  split.
  { unfold dayCheck. rewrite updateDate_key.
    destruct (String.eqb_spec (dateKey tz now) (todayKey s)); [congruence |].
    change (todayKey (ensureToday (updateDate tz now s)))
      with (todayKey (updateDate tz now s)).
    rewrite ensureToday_has_bucket. discriminate. }
  split; [apply dayCheck_bucket |].
  split; [exact T |].
  intros G.
  assert (T0 : todayEntries (dayCheck tz now s) = []).
  { rewrite T. unfold bucket. now rewrite G. }
  split; [exact T0 |].
  assert (Z0 : todayTotal (dayCheck tz now s) = Num.zero).
  { unfold todayTotal. now rewrite T0. }
  split; [exact Z0 |].
  unfold progress, progressOf. rewrite Z0.
  destruct (dailyBudget (dayCheck tz now s)) as [| |q|]; cbn; try exact I;
    try reflexivity.
  unfold Num.gtb, Num.zero; cbn.
  destruct (Num.Qltb 0 q) eqn:P; [| reflexivity].
  apply Qltb_lt in P.
  destruct (Qeq_bool q 0) eqn:Z; [apply Qeq_bool_iff in Z; lra |].
  cbn. replace (Num.Qltb (0 / q) 1) with true; [cbn; field; lra |].
  symmetry. apply Qltb_lt. unfold Qdiv. lra.
Qed.

(** The first check after midnight on a state left at 2024-02-29. *)
Lemma dayCheck_rollover_witness :
  todayKey (dayCheck 0 1709251200000 (initialState "2024-02-29"))
  = "2024-03-01"
  /\ todayEntries (dayCheck 0 1709251200000 (initialState "2024-02-29")) = [].
Proof.
  destruct (dayCheck_rollover 0 1709164800000 1709251200000
              (initialState "2024-02-29"))
    as (Key & _ & _ & _ & _ & Fresh).
  - vm_compute. reflexivity.
  - vm_compute. discriminate.
  - split.
    + rewrite Key. vm_compute. reflexivity.
    + destruct (Fresh eq_refl) as (Empty & _). exact Empty.
Defined.

(** ** How the mutations move the totals *)

Section DictKeys.
Context {V : Type}.

Lemma keys_set_some (k : string) (v w : V) (o : Obj.t V) :
  Obj.get k o = Some w -> Obj.keys (Obj.set k v o) = Obj.keys o.
Proof.
  unfold Obj.keys.
  induction o as [|[k' v'] o IH]; simpl; [discriminate |].
  destruct (String.eqb k' k); [reflexivity |].
  intros H. simpl. now rewrite IH.
Qed.

End DictKeys.

Section NewestKey.

Lemma get_last (k : string) (v : list ExpenseEntry) (o : DayBook) :
  Obj.get k o = None -> Obj.get k (o ++ [(k, v)])%list = Some v.
Proof.
  induction o as [|[k' v'] o IH]; simpl.
  - now rewrite String.eqb_refl.
  - destruct (String.eqb k' k); [discriminate | exact IH].
Qed.

Lemma set_last (k : string) (v w : list ExpenseEntry) (o : DayBook) :
  Obj.get k o = None ->
  Obj.set k w (o ++ [(k, v)])%list = (o ++ [(k, w)])%list.
Proof.
  induction o as [|[k' v'] o IH]; simpl.
  - now rewrite String.eqb_refl.
  - destruct (String.eqb k' k); [discriminate |].
    intros H. now rewrite IH.
Qed.

End NewestKey.

Section Totals.

(** The flattened ledger before and after a bucket is written. *)
Lemma flat_set (b : DayBook) (k : string) :
  exists pre post : list ExpenseEntry,
    List.concat (Obj.values b) = (pre ++ bucket b k ++ post)%list
    /\ forall arr, List.concat (Obj.values (Obj.set k arr b))
                   = (pre ++ arr ++ post)%list.
Proof.
  unfold bucket.
  induction b as [|[k' v'] b IH]; cbn [Obj.get Obj.set].
  - exists [], []. split; [reflexivity |].
    intros arr. cbn. now rewrite !app_nil_r.
  - destruct (String.eqb k' k).
    + exists [], (List.concat (Obj.values b)). split; [reflexivity |].
      intros arr. reflexivity.
    + destruct IH as (pre & post & E & F).
      exists (v' ++ pre)%list, post. split.
      * change (List.concat (Obj.values ((k', v') :: b)))
          with (v' ++ List.concat (Obj.values b))%list.
        rewrite E. now rewrite app_assoc.
      * intros arr.
        change (List.concat (Obj.values ((k', v') :: Obj.set k arr b)))
          with (v' ++ List.concat (Obj.values (Obj.set k arr b)))%list.
        rewrite F. now rewrite app_assoc.
Qed.

(** When the bucket written is the newest, nothing follows it. *)
Lemma flat_set_newest (b : DayBook) (k : string) :
  newestKey k b ->
  exists pre : list ExpenseEntry,
    List.concat (Obj.values b) = (pre ++ bucket b k)%list
    /\ forall arr, List.concat (Obj.values (Obj.set k arr b))
                   = (pre ++ arr)%list.
Proof.
  unfold bucket. intros [G | (older & arr0 & -> & G)].
  - exists (List.concat (Obj.values b)). rewrite G. split.
    + now rewrite app_nil_r.
    + intros arr. rewrite (set_absent _ _ _ G). apply values_append.
  - exists (List.concat (Obj.values older)).
    rewrite (get_last _ _ _ G). split.
    + apply values_append.
    + intros arr. rewrite (set_last _ _ _ _ G). apply values_append.
Qed.

Lemma addAmount_book (rid : string) (nowMs : Z) (amt : number)
    (category note : option string) (s : AppState) :
  Num.gtb amt Num.zero = true ->
  book (fst (addAmount rid nowMs amt category note s))
  = Obj.set (todayKey s)
      (bucket (book s) (todayKey s)
         ++ [mkEntry rid amt nowMs
               (match category with
                | Some c => c
                | None => selectedCategory s
                end)
               (match note with Some n => n | None => "" end)])%list
      (book s).
Proof. intros P. unfold addAmount. now rewrite P. Qed.

Lemma thisMonthTotal_filter (tz : Z) (now : JSDate.Date) (b : DayBook) :
  thisMonthTotal (spendingSummary tz now b)
  = sumAmounts (filter (fun e => inMonthOf tz now (timestamp e))
                       (List.concat (Obj.values b))).
Proof.
  unfold spendingSummary; cbn [thisMonthTotal]. f_equal.
  apply filter_ext. intros e. apply month_test.
Qed.

Lemma inMonthOf_same_day (tz : Z) (now ts : Z) :
  JSDate.localDay tz ts = JSDate.localDay tz now -> inMonthOf tz now ts = true.
Proof.
  intros E. unfold inMonthOf. rewrite E.
  destruct (JSDate.civil_from_days (JSDate.localDay tz now)) as [[y m] d].
  now rewrite !Z.eqb_refl.
Qed.

Lemma filter_removes (i : string) (l1 l2 : list ExpenseEntry)
    (e : ExpenseEntry) :
  id e = i -> freshId i (l1 ++ l2) ->
  filter (fun expense => negb (String.eqb (id expense) i)) (l1 ++ e :: l2)
  = (l1 ++ l2)%list.
Proof.
  intros E F. rewrite filter_app. cbn [filter].
  rewrite E, String.eqb_refl. cbn [negb].
  rewrite <- filter_app. now apply filter_fresh.
Qed.

Lemma positive_bucket (b : DayBook) (k : string) :
  positiveLedger b ->
  Forall (fun e => Num.gtb (amount e) Num.zero = true) (bucket b k).
Proof.
  unfold positiveLedger. destruct (flat_set b k) as (pre & post & E & _).
  rewrite E. intros F. apply Forall_app in F as [_ F].
  now apply Forall_app in F as [F _].
Qed.

End Totals.

(** The order of running totals.  These facts use of the addition only
    that adding a number [>= 0] to a number [>= 0] gives a number that
    is [>= 0] and not smaller, and that the addition is monotone; they
    hold for the rounded addition of the host as well. *)
Section OrderOfSums.

Lemma gtb_leb (x : number) :
  Num.gtb x Num.zero = true -> Num.leb Num.zero x = true.
Proof.
  unfold Num.gtb, Num.zero. destruct x as [| |x|]; cbn; try congruence.
  rewrite Qltb_lt. intros X. apply Qle_bool_iff. lra.
Qed.

Lemma leb_trans (x y z : number) :
  Num.leb x y = true -> Num.leb y z = true -> Num.leb x z = true.
Proof.
  destruct x as [| |x|], y as [| |y|], z as [| |z|]; cbn; try congruence.
  intros A B. apply Qle_bool_iff in A, B. apply Qle_bool_iff. lra.
Qed.

Lemma add_keeps_nonneg (a x : number) :
  Num.leb Num.zero a = true -> Num.leb Num.zero x = true ->
  Num.leb Num.zero (Num.add a x) = true.
Proof.
  unfold Num.zero. destruct a as [| |a|], x as [| |x|]; cbn; try congruence.
  intros A X. apply Qle_bool_iff in A, X. apply Qle_bool_iff. lra.
Qed.

Lemma add_increases (a x : number) :
  Num.leb Num.zero a = true -> Num.leb Num.zero x = true ->
  Num.leb a (Num.add a x) = true.
Proof.
  unfold Num.zero. destruct a as [| |a|], x as [| |x|]; cbn; try congruence.
  intros A X. apply Qle_bool_iff in A, X. apply Qle_bool_iff. lra.
Qed.

Lemma add_monotone_l (a a' x : number) :
  Num.leb Num.zero a = true -> Num.leb a a' = true ->
  Num.leb Num.zero x = true ->
  Num.leb (Num.add a x) (Num.add a' x) = true.
Proof.
  unfold Num.zero.
  destruct a as [| |a|], a' as [| |a'|], x as [| |x|]; cbn; try congruence.
  intros A L X. apply Qle_bool_iff in A, L, X. apply Qle_bool_iff. lra.
Qed.

Lemma add_monotone_r (a x x' : number) :
  Num.leb Num.zero a = true -> Num.leb Num.zero x = true ->
  Num.leb x x' = true ->
  Num.leb (Num.add a x) (Num.add a x') = true.
Proof.
  unfold Num.zero.
  destruct a as [| |a|], x as [| |x|], x' as [| |x'|]; cbn; try congruence.
  intros A X L. apply Qle_bool_iff in A, X, L. apply Qle_bool_iff. lra.
Qed.

Lemma addedTo_nonneg (l : list number) :
  Forall (fun x => Num.leb Num.zero x = true) l ->
  forall a, Num.leb Num.zero a = true ->
            Num.leb Num.zero (addedTo a l) = true.
Proof.
  induction 1 as [|x l X _ IH]; intros a A; cbn [addedTo]; [exact A |].
  apply IH. now apply add_keeps_nonneg.
Qed.

Lemma addedTo_increases (l : list number) :
  Forall (fun x => Num.leb Num.zero x = true) l ->
  forall a, Num.leb Num.zero a = true -> Num.leb a (addedTo a l) = true.
Proof.
  induction 1 as [|x l X _ IH]; intros a A; cbn [addedTo].
  - destruct a as [| |a|]; cbn in *; try congruence.
    apply Qle_bool_iff. lra.
  - apply leb_trans with (y := Num.add a x); [now apply add_increases |].
    apply IH. now apply add_keeps_nonneg.
Qed.

Lemma addedTo_monotone (l : list number) :
  Forall (fun x => Num.leb Num.zero x = true) l ->
  forall a a', Num.leb Num.zero a = true -> Num.leb a a' = true ->
               Num.leb (addedTo a l) (addedTo a' l) = true.
Proof.
  induction 1 as [|x l X _ IH]; intros a a' A L; cbn [addedTo]; [exact L |].
  apply IH; [now apply add_keeps_nonneg | now apply add_monotone_l].
Qed.

Lemma amounts_nonneg (l : list ExpenseEntry) :
  Forall (fun e => Num.gtb (amount e) Num.zero = true) l ->
  Forall (fun x => Num.leb Num.zero x = true) (map amount l).
Proof.
  intros F. apply Forall_map. eapply Forall_impl; [| exact F].
  intros e. apply gtb_leb.
Qed.

(** Entries with positive amounts put into a list of such entries, at
    whatever place, do not lower its sum. *)
Lemma sumAmounts_grows (l1 arr l2 : list ExpenseEntry) :
  Forall (fun e => Num.gtb (amount e) Num.zero = true) (l1 ++ arr ++ l2) ->
  Num.leb (sumAmounts (l1 ++ l2)) (sumAmounts (l1 ++ arr ++ l2)) = true.
Proof.
  intros F. apply Forall_app in F as [F1 F]. apply Forall_app in F as [Fa F2].
  rewrite (sumAmounts_app l1 l2), (sumAmounts_app l1 (arr ++ l2)), map_app,
    addedTo_app.
  assert (A : Num.leb Num.zero (sumAmounts l1) = true).
  { rewrite sumAmounts_addedTo.
    apply addedTo_nonneg; [now apply amounts_nonneg | reflexivity]. }
  apply addedTo_monotone; [now apply amounts_nonneg | exact A |].
  apply addedTo_increases; [now apply amounts_nonneg | exact A].
Qed.

Lemma positive_filter (p : ExpenseEntry -> bool) (l : list ExpenseEntry) :
  Forall (fun e => Num.gtb (amount e) Num.zero = true) l ->
  Forall (fun e => Num.gtb (amount e) Num.zero = true) (filter p l).
Proof.
  rewrite !Forall_forall. intros F e I. apply filter_In in I as [I _]. auto.
Qed.

End OrderOfSums.

(** X4: a positive amount added puts one entry at the end of today's
    bucket, carrying the amount, the given time, and the selected
    category and an empty note when these are omitted.  Today's total
    is the total before plus the amount.  In the list of all entries
    the new one stands right after those of today, so the total spent
    is the total before plus the amount when today's bucket is the
    newest of the ledger, and is never lower than before on a ledger of
    positive amounts.  The ledger gains a key only when today had no
    bucket. *)
Theorem addAmount_raises_totals
    (tz : Z) (now : JSDate.Date) (s : AppState) (rid : string) (nowMs : Z)
    (amt : number) (category note : option string) :
  Num.gtb amt Num.zero = true ->
  let s' := fst (addAmount rid nowMs amt category note s) in
  let e := mkEntry rid amt nowMs
             (match category with
              | Some c => c
              | None => selectedCategory s
              end)
             (match note with Some n => n | None => "" end) in
  let spent x := totalSpent (spendingSummary tz now (book x)) in
  todayEntries s' = (todayEntries s ++ [e])%list
  /\ todayTotal s' = Num.add (todayTotal s) amt
  /\ (exists pre post : list ExpenseEntry,
        List.concat (Obj.values (book s))
        = (pre ++ todayEntries s ++ post)%list
        /\ List.concat (Obj.values (book s'))
           = (pre ++ todayEntries s ++ e :: post)%list)
  /\ (newestKey (todayKey s) (book s) -> spent s' = Num.add (spent s) amt)
  /\ (positiveLedger (book s) -> Num.leb (spent s) (spent s') = true)
  /\ Obj.keys (book s')
     = match Obj.get (todayKey s) (book s) with
       | Some _ => Obj.keys (book s)
       | None => (Obj.keys (book s) ++ [todayKey s])%list
       end
  /\ expenseNote s' = "" /\ showAddExpense s' = false.
Proof.
  intros P. cbv beta zeta.
  set (e := mkEntry rid amt nowMs _ _).
  assert (B : book (fst (addAmount rid nowMs amt category note s))
              = Obj.set (todayKey s) (todayEntries s ++ [e])%list (book s))
    by now apply addAmount_book.
  assert (K : todayKey (fst (addAmount rid nowMs amt category note s))
              = todayKey s)
    by (unfold addAmount; now rewrite P).
  assert (T : todayEntries (fst (addAmount rid nowMs amt category note s))
              = (todayEntries s ++ [e])%list).
  { unfold todayEntries at 1. rewrite B, K. apply bucket_set_same. }
  split; [exact T |].
  split; [unfold todayTotal; rewrite T; apply sumAmounts_snoc |].
  destruct (flat_set (book s) (todayKey s)) as (pre & post & E & F).
  fold (todayEntries s) in E.
  split.
  { exists pre, post. split; [exact E |].
    rewrite B, F, <- app_assoc. reflexivity. }
  split.
  { intros N. unfold spendingSummary; cbn [totalSpent].
    destruct (flat_set_newest _ _ N) as (pre' & E' & F').
    rewrite B, F', E'. fold (todayEntries s).
    rewrite app_assoc. apply sumAmounts_snoc. }
  split.
  { intros L. unfold spendingSummary; cbn [totalSpent].
    rewrite B, F, E, <- app_assoc.
    rewrite (app_assoc pre (todayEntries s) post).
    rewrite (app_assoc pre (todayEntries s) ([e] ++ post)).
    apply sumAmounts_grows.
    unfold positiveLedger in L. rewrite E in L.
    rewrite <- app_assoc. apply Forall_app in L as [L1 L].
    apply Forall_app in L as [L2 L3].
    repeat (apply Forall_app; split); try assumption.
    constructor; [exact P | constructor]. }
  split; [| unfold addAmount; rewrite P; split; reflexivity].
  rewrite B. unfold bucket.
  destruct (Obj.get (todayKey s) (book s)) as [arr|] eqn:G.
  - now apply keys_set_some with (w := arr).
  - rewrite (set_absent _ _ _ G). unfold Obj.keys. now rewrite map_app.
Qed.

(** Five units tapped on the first day: the total spent, 0 before, is
    0 + 5 afterwards. *)
Lemma addAmount_raises_totals_witness :
  totalSpent
    (spendingSummary 0 1704189600000
       (book (fst (addAmount "k3x" 1704189600000 (Num.ofZ 5) None None
                             (initialState "2024-01-02")))))
  = Num.add Num.zero (Num.ofZ 5).
Proof.
  assert (Positive : Num.gtb (Num.ofZ 5) Num.zero = true) by reflexivity.
  refine (proj1 (proj2 (proj2 (proj2
            (addAmount_raises_totals 0 1704189600000
               (initialState "2024-01-02") "k3x" 1704189600000
               (Num.ofZ 5) None None Positive)))) _).
  left. reflexivity.
Defined.

(** X5: an amount added with a timestamp outside the calendar month of
    [now] (local time) leaves this month's total as it is.  With a
    timestamp in that month, the new entry joins the entries counted
    for the month at its place in the ledger: this month's total is the
    total before plus the amount when today's bucket is the newest of
    the ledger, and is never lower than before on a ledger of positive
    amounts. *)
Theorem addAmount_this_month
    (tz : Z) (now : JSDate.Date) (s : AppState) (rid : string) (nowMs : Z)
    (amt : number) (category note : option string) :
  Num.gtb amt Num.zero = true ->
  let s' := fst (addAmount rid nowMs amt category note s) in
  let e := mkEntry rid amt nowMs
             (match category with
              | Some c => c
              | None => selectedCategory s
              end)
             (match note with Some n => n | None => "" end) in
  let month x := thisMonthTotal (spendingSummary tz now (book x)) in
  let counted x :=
    filter (fun e => inMonthOf tz now (timestamp e))
           (List.concat (Obj.values (book x))) in
  (inMonthOf tz now nowMs = false ->
   counted s' = counted s /\ month s' = month s)
  /\ (inMonthOf tz now nowMs = true ->
      (exists pre post : list ExpenseEntry,
          counted s = (pre ++ post)%list
          /\ counted s' = (pre ++ e :: post)%list)
      /\ (newestKey (todayKey s) (book s) ->
          month s' = Num.add (month s) amt)
      /\ (positiveLedger (book s) -> Num.leb (month s) (month s') = true)).
Proof.
  intros P. cbv beta zeta.
  set (e := mkEntry rid amt nowMs _ _).
  set (p := fun e : ExpenseEntry => inMonthOf tz now (timestamp e)).
  assert (B : book (fst (addAmount rid nowMs amt category note s))
              = Obj.set (todayKey s) (todayEntries s ++ [e])%list (book s))
    by now apply addAmount_book.
  rewrite !thisMonthTotal_filter. fold p. rewrite B.
  destruct (flat_set (book s) (todayKey s)) as (pre & post & E & F).
  fold (todayEntries s) in E.
  assert (C : filter p (List.concat (Obj.values (book s)))
              = ((filter p pre ++ filter p (todayEntries s))
                   ++ filter p post)%list)
    by (rewrite E, !filter_app; apply app_assoc).
  assert (C' : filter p (List.concat
                           (Obj.values
                              (Obj.set (todayKey s)
                                 (todayEntries s ++ [e])%list (book s))))
               = ((filter p pre ++ filter p (todayEntries s))
                    ++ filter p [e] ++ filter p post)%list).
  { rewrite F, !filter_app, <- !app_assoc. reflexivity. }
  assert (Pe : filter p [e] = if inMonthOf tz now nowMs then [e] else [])
    by reflexivity.
  split.
  - intros M. rewrite M in Pe. rewrite C, C', Pe. split; reflexivity.
  - intros M. rewrite M in Pe.
    split; [| split].
    + eexists _, _. split; [exact C |]. rewrite C', Pe. reflexivity.
    + intros N. destruct (flat_set_newest _ _ N) as (pre' & E' & F').
      fold (todayEntries s) in E'.
      rewrite F', E', !filter_app, Pe, app_assoc.
      apply sumAmounts_snoc.
    + intros L. rewrite C, C', Pe. apply sumAmounts_grows.
      unfold positiveLedger in L.
      apply (positive_filter p) in L. rewrite C in L.
      apply Forall_app in L as [L1 L2].
      apply Forall_app; split; [exact L1 |].
      apply Forall_app; split; [| exact L2].
      constructor; [exact P | constructor].
Qed.

(** Five units tapped on 2024-01-02 count for January. *)
Lemma addAmount_this_month_witness :
  thisMonthTotal
    (spendingSummary 0 1704189600000
       (book (fst (addAmount "k3x" 1704189600000 (Num.ofZ 5) None None
                             (initialState "2024-01-02")))))
  = Num.add (thisMonthTotal
               (spendingSummary 0 1704189600000
                  (book (initialState "2024-01-02"))))
            (Num.ofZ 5).
Proof.
  assert (Positive : Num.gtb (Num.ofZ 5) Num.zero = true) by reflexivity.
  assert (InMonth : inMonthOf 0 1704189600000 1704189600000 = true)
    by (vm_compute; reflexivity).
  refine (proj1 (proj2 (proj2
            (addAmount_this_month 0 1704189600000
               (initialState "2024-01-02") "k3x" 1704189600000
               (Num.ofZ 5) None None Positive) InMonth)) _).
  left. reflexivity.
Defined.

(** X6: when the id to delete belongs to exactly one entry of today's
    bucket, [deleteExpense] removes that entry and no other and keeps
    the order of the others.  When the entry was the last of the
    bucket, today's total before is the total after plus its amount,
    and so is the total spent when today's bucket is the newest of the
    ledger.  On a ledger of positive amounts neither total is higher
    after the deletion than before. *)
Theorem deleteExpense_lowers_totals
    (tz : Z) (now : JSDate.Date) (s : AppState)
    (l1 l2 : list ExpenseEntry) (e : ExpenseEntry) :
  todayEntries s = (l1 ++ e :: l2)%list ->
  freshId (id e) (l1 ++ l2) ->
  let s' := deleteExpense (id e) s in
  let spent x := totalSpent (spendingSummary tz now (book x)) in
  todayEntries s' = (l1 ++ l2)%list
  /\ (l2 = [] -> todayTotal s = Num.add (todayTotal s') (amount e))
  /\ (l2 = [] -> newestKey (todayKey s) (book s) ->
      spent s = Num.add (spent s') (amount e))
  /\ (positiveLedger (book s) ->
      Num.leb (todayTotal s') (todayTotal s) = true
      /\ Num.leb (spent s') (spent s) = true).
Proof.
  intros T F. cbv beta zeta.
  assert (B : book (deleteExpense (id e) s)
              = Obj.set (todayKey s) (l1 ++ l2)%list (book s)).
  { unfold deleteExpense, setBook; cbn [book].
    fold (bucket (book s) (todayKey s)). fold (todayEntries s).
    rewrite T. now rewrite filter_removes. }
  assert (T' : todayEntries (deleteExpense (id e) s) = (l1 ++ l2)%list).
  { unfold todayEntries. rewrite B.
    change (todayKey (deleteExpense (id e) s)) with (todayKey s).
    apply bucket_set_same. }
  split; [exact T' |].
  split.
  { intros ->. unfold todayTotal. rewrite T, T', app_nil_r.
    apply sumAmounts_snoc. }
  split.
  { intros -> N. unfold spendingSummary; cbn [totalSpent].
    destruct (flat_set_newest _ _ N) as (pre & E' & F').
    fold (todayEntries s) in E'.
    rewrite B, F', E', T, !app_nil_r, app_assoc. apply sumAmounts_snoc. }
  intros L.
  assert (Pt : Forall (fun e => Num.gtb (amount e) Num.zero = true)
                      (l1 ++ [e] ++ l2)).
  { pose proof (positive_bucket _ (todayKey s) L) as Pb.
    fold (todayEntries s) in Pb. now rewrite T in Pb. }
  split.
  - unfold todayTotal. rewrite T, T'.
    change (e :: l2) with ([e] ++ l2)%list. now apply sumAmounts_grows.
  - unfold spendingSummary; cbn [totalSpent].
    destruct (flat_set (book s) (todayKey s)) as (pre & post & E' & F').
    fold (todayEntries s) in E'. unfold positiveLedger in L.
    rewrite B, F', E', T. rewrite E', T in L.
    replace (pre ++ (l1 ++ l2) ++ post)%list
      with ((pre ++ l1) ++ (l2 ++ post))%list
      by now rewrite <- !app_assoc.
    replace (pre ++ (l1 ++ e :: l2) ++ post)%list
      with ((pre ++ l1) ++ [e] ++ (l2 ++ post))%list
      by (rewrite <- !app_assoc; reflexivity).
    apply sumAmounts_grows.
    replace ((pre ++ l1) ++ [e] ++ l2 ++ post)%list
      with (pre ++ (l1 ++ e :: l2) ++ post)%list
      by (rewrite <- !app_assoc; reflexivity).
    exact L.
Qed.

(** Five and twelve units entered, the twelve deleted: the total of the
    day, (0 + 5) + 12 before, is 0 + 5 afterwards. *)
Lemma deleteExpense_lowers_totals_witness :
  let s := fst (addAmount "q7a" 1704193200000 (Num.ofZ 12) None None
             (fst (addAmount "k3x" 1704189600000 (Num.ofZ 5) None None
                     (initialState "2024-01-02")))) in
  todayEntries (deleteExpense "q7a" s)
  = [mkEntry "k3x" (Num.ofZ 5) 1704189600000 "food" ""]
  /\ todayTotal s = Num.add (todayTotal (deleteExpense "q7a" s)) (Num.ofZ 12).
Proof.
  intros s.
  assert (Fresh : freshId "q7a"
                    ([mkEntry "k3x" (Num.ofZ 5) 1704189600000 "food" ""]
                       ++ [])).
  { intros x [<- | []]. cbn. discriminate. }
  pose proof (deleteExpense_lowers_totals 0 1704189600000 s
                [mkEntry "k3x" (Num.ofZ 5) 1704189600000 "food" ""] []
                (mkEntry "q7a" (Num.ofZ 12) 1704193200000 "food" "")
                eq_refl Fresh) as (Entries & Total & _).
  split; [exact Entries | exact (Total eq_refl)].
Defined.

(** X7: [clearToday] shows its alert, whichever button is pressed then.
    Confirming leaves today with an empty bucket (a key of the ledger
    still) and today's total at 0, takes today's entries out of the
    list of all entries and leaves the others in their order, so that
    on a ledger of positive amounts the total spent is not higher than
    before; confirming again changes nothing.  Cancelling leaves the
    state as it was. *)
Theorem clearToday_outcomes
    (tz : Z) (now : JSDate.Date) (s : AppState) :
  let cleared := fst (clearToday Clear s) in
  let spent x := totalSpent (spendingSummary tz now (book x)) in
  let shown :=
    [AlertShown "Clear today?" "This will remove all entries for today."] in
  snd (clearToday Clear s) = shown
  /\ snd (clearToday Cancel s) = shown
  /\ fst (clearToday Cancel s) = s
  /\ Obj.get (todayKey s) (book cleared) = Some []
  /\ todayEntries cleared = []
  /\ todayTotal cleared = Num.zero
  /\ (exists pre post : list ExpenseEntry,
        List.concat (Obj.values (book s))
        = (pre ++ todayEntries s ++ post)%list
        /\ List.concat (Obj.values (book cleared)) = (pre ++ post)%list)
  /\ (positiveLedger (book s) -> Num.leb (spent cleared) (spent s) = true)
  /\ fst (clearToday Clear cleared) = cleared.
Proof.
  cbv beta zeta. unfold clearToday; cbn [fst snd].
  assert (G : Obj.get (todayKey s)
                (book (setBook (fun prev => Obj.set (todayKey s) [] prev) s))
              = Some []) by (unfold setBook; cbn; apply get_set_same).
  assert (T : todayEntries
                (setBook (fun prev => Obj.set (todayKey s) [] prev) s)
              = []).
  { unfold todayEntries, bucket.
    change (todayKey (setBook _ s)) with (todayKey s). now rewrite G. }
  do 3 (split; [reflexivity |]).
  split; [exact G |].
  split; [exact T |].
  split; [unfold todayTotal; now rewrite T |].
  destruct (flat_set (book s) (todayKey s)) as (pre & post & E & F).
  fold (todayEntries s) in E.
  assert (F0 : List.concat
                 (Obj.values
                    (book (setBook
                             (fun prev => Obj.set (todayKey s) [] prev) s)))
               = (pre ++ post)%list)
    by (unfold setBook; cbn [book]; apply F).
  split; [exists pre, post; now split |].
  split.
  { intros L. unfold spendingSummary; cbn [totalSpent].
    rewrite F0, E. apply sumAmounts_grows.
    unfold positiveLedger in L. now rewrite E in L. }
  apply setBook_same. cbn [todayKey book setBook].
  now apply set_get_id.
Qed.

(** Five and twelve units entered on the first day, then cleared: the
    alert is shown and the total spent does not rise. *)
Lemma clearToday_outcomes_witness :
  let s := fst (addAmount "q7a" 1704193200000 (Num.ofZ 12) None None
             (fst (addAmount "k3x" 1704189600000 (Num.ofZ 5) None None
                     (initialState "2024-01-02")))) in
  Num.leb (totalSpent (spendingSummary 0 1704196800000
                         (book (fst (clearToday Clear s)))))
          (totalSpent (spendingSummary 0 1704196800000 (book s)))
  = true.
Proof.
  intros s.
  refine (proj1 (proj2 (proj2 (proj2 (proj2 (proj2 (proj2 (proj2
            (clearToday_outcomes 0 1704196800000 s)))))))) _).
  repeat constructor.
Defined.

(** ** Quick amounts *)

Section OrderOfNumbers.

Lemma ltb_not_NaN (x y : number) : Num.ltb x y = true -> x <> NaN /\ y <> NaN.
Proof. destruct x, y; simpl; intros H; split; congruence. Qed.

Lemma ltb_trans (x y z : number) :
  Num.ltb x y = true -> Num.ltb y z = true -> Num.ltb x z = true.
Proof.
  destruct x, y, z; simpl; try congruence.
  rewrite !Qltb_lt. apply Qlt_trans.
Qed.

Lemma ltb_sign (x y : number) :
  Num.ltb x y = true -> NumJS.comparatorSign (Num.sub x y) < 0.
Proof.
  destruct x as [| |a|], y as [| |b|]; simpl; try congruence; try lia.
  rewrite Qltb_lt. intros H.
  assert (L : (a + - b < 0)%Q) by lra.
  unfold Qlt in L. simpl in L. rewrite Z.mul_1_r in L.
  apply Z.sgn_neg_iff in L. lia.
Qed.

Lemma gtb_sign (x y : number) :
  Num.ltb y x = true -> 0 < NumJS.comparatorSign (Num.sub x y).
Proof.
  destruct x as [| |a|], y as [| |b|]; simpl; try congruence; try lia.
  rewrite Qltb_lt. intros H.
  assert (L : (0 < a + - b)%Q) by lra.
  unfold Qlt in L. simpl in L. rewrite Z.mul_1_r in L.
  apply Z.sgn_pos_iff in L. lia.
Qed.

(** Two numbers are ordered one way or the other, or the same. *)
Lemma trichotomy (x y : number) :
  x <> NaN -> y <> NaN ->
  Num.ltb x y = true \/ NumJS.sameValueZero x y = true \/ Num.ltb y x = true.
Proof.
  destruct x as [| |a|], y as [| |b|]; simpl; intros Hx Hy;
    try congruence; auto.
  destruct (Q_dec a b) as [[L|G]|E].
  - left. now apply Qltb_lt.
  - right; right. now apply Qltb_lt.
  - right; left. now apply Qeq_bool_iff.
Qed.

Lemma sameValueZero_not_ltb (x y : number) :
  NumJS.sameValueZero x y = true ->
  Num.ltb x y = false /\ Num.ltb y x = false.
Proof.
  destruct x as [| |a|], y as [| |b|]; simpl; try congruence; auto.
  intros E. apply Qeq_bool_iff in E. split; apply Qltb_ge; lra.
Qed.

Lemma sameValueZero_sym (x y : number) :
  NumJS.sameValueZero x y = NumJS.sameValueZero y x.
Proof.
  destruct x as [| |a|], y as [| |b|]; simpl; auto.
  destruct (Qeq_bool a b) eqn:E, (Qeq_bool b a) eqn:E'; auto.
  - apply Qeq_bool_iff in E. apply Qeq_bool_neq in E'. exfalso. apply E'.
    now symmetry.
  - apply Qeq_bool_iff in E'. apply Qeq_bool_neq in E. exfalso. apply E.
    now symmetry.
Qed.

Lemma strictEquals_number (x y : number) :
  y <> NaN -> NumJS.strictEquals x y = NumJS.sameValueZero x y.
Proof. destruct x, y; simpl; congruence. Qed.

Lemma positive_not_NaN (x : number) : Num.gtb x Num.zero = true -> x <> NaN.
Proof. intros H E. subst. discriminate. Qed.

End OrderOfNumbers.

Section SortFacts.
Context {A : Type}.
Variable compare : A -> A -> Z.

Lemma sortInsert_head (x : A) (l : list A) :
  HdRel (fun a b => compare a b <= 0) x l -> sortInsert compare x l = x :: l.
Proof.
  intros H. destruct l as [|y l]; [reflexivity |].
  apply HdRel_inv in H. cbn [sortInsert].
  now replace (compare x y <=? 0) with true by (symmetry; now apply Z.leb_le).
Qed.

(** Sorting leaves a list in order as it is. *)
Lemma sort_fixed (l : list A) :
  Sorted (fun a b => compare a b <= 0) l -> sort compare l = l.
Proof.
  induction l as [|x l IH]; intros S; [reflexivity |].
  apply Sorted_inv in S as [S H]. cbn [sort]. rewrite (IH S).
  now apply sortInsert_head.
Qed.

End SortFacts.

Lemma Sorted_weaken {A : Type} (R R' : A -> A -> Prop) (l : list A) :
  (forall a b, R a b -> R' a b) -> Sorted R l -> Sorted R' l.
Proof.
  intros W. induction 1 as [|a l S IH H]; constructor; [exact IH |].
  destruct H; constructor. now apply W.
Qed.

Section QuickFacts.

Let byDifference (a b : number) : Z := NumJS.comparatorSign (Num.sub a b).

Lemma lessThan_trans : Relations_1.Transitive lessThan.
Proof. intros x y z. apply ltb_trans. Qed.

Lemma lessThan_irrefl (x : number) : ~ lessThan x x.
Proof.
  unfold lessThan. destruct x as [| |a|]; simpl; try congruence.
  rewrite Qltb_lt. apply Qlt_irrefl.
Qed.

Lemma lessThan_distinct (x y : number) :
  lessThan x y ->
  NumJS.sameValueZero x y = false /\ NumJS.sameValueZero y x = false.
Proof.
  intros L. rewrite (sameValueZero_sym y x).
  destruct (NumJS.sameValueZero x y) eqn:E; [| now split].
  apply sameValueZero_not_ltb in E as [E _]. unfold lessThan in L. congruence.
Qed.

Lemma sorted_prefix_below (l1 l2 : list number) (x : number) :
  StronglySorted lessThan (l1 ++ x :: l2) -> Forall (fun a => lessThan a x) l1.
Proof.
  induction l1 as [|a l1 IH]; intros S; [constructor |].
  cbn in S. apply StronglySorted_inv in S as [S F].
  constructor; [| now apply IH].
  rewrite Forall_forall in F. apply F, in_elt.
Qed.

Lemma absent_below (v : number) (l : list number) :
  Forall (fun a => lessThan a v) l -> existsb (NumJS.sameValueZero v) l = false.
Proof.
  induction 1 as [|a l L _ IH]; [reflexivity |]. cbn.
  now rewrite (proj2 (lessThan_distinct _ _ L)), IH.
Qed.

(** A [Set] built from a strictly ascending list has its members in
    the order of the list. *)
Lemma newSet_ascending (l : list number) :
  forall acc, StronglySorted lessThan (acc ++ l) ->
              fold_left NumJS.setAdd l acc = (acc ++ l)%list.
Proof.
  induction l as [|x l IH]; intros acc S; cbn [fold_left].
  - now rewrite app_nil_r.
  - unfold NumJS.setAdd at 2.
    rewrite (absent_below x acc (sorted_prefix_below _ _ _ S)).
    rewrite IH; rewrite <- app_assoc; [reflexivity | exact S].
Qed.

Lemma sorted_strongly (l : list number) :
  Sorted lessThan l -> StronglySorted lessThan l.
Proof. apply Sorted_StronglySorted, lessThan_trans. Qed.

(** Where the sort puts a new number [v] appended to a strictly
    ascending list. *)
Lemma sort_snoc (v : number) (l : list number) :
  StronglySorted lessThan l -> Forall (fun x => x <> NaN) l -> v <> NaN ->
  existsb (NumJS.sameValueZero v) l = false ->
  exists lo hi : list number,
    l = (lo ++ hi)%list
    /\ sort byDifference (l ++ [v]) = (lo ++ v :: hi)%list
    /\ Forall (fun a => lessThan a v) lo
    /\ Forall (fun a => lessThan v a) hi.
Proof.
  intros S N Nv. induction l as [|x l IH]; intros Abs.
  - exists [], []. repeat split; constructor.
  - apply StronglySorted_inv in S as [S Fx].
    apply Forall_cons_iff in N as [Nx N].
    cbn [existsb] in Abs. apply orb_false_iff in Abs as [Vx Abs].
    destruct (IH S N Abs) as (lo & hi & E & Srt & Lo & Hi).
    cbn [app sort]. rewrite Srt.
    destruct (trichotomy x v Nx Nv) as [L | [Same | G]].
    + exists (x :: lo), hi. subst l.
      split; [reflexivity |].
      split; [| split; [now constructor | exact Hi]].
      apply sortInsert_head.
      destruct lo as [|a lo]; cbn; constructor; unfold byDifference.
      * apply Z.lt_le_incl. now apply ltb_sign.
      * apply Z.lt_le_incl, ltb_sign.
        apply Forall_inv in Fx. exact Fx.
    + rewrite sameValueZero_sym in Same. congruence.
    + destruct lo as [|a lo].
      * exists [], (x :: hi). cbn [app] in *. subst l.
        split; [reflexivity |].
        split; [| split; [constructor | now constructor]].
        cbn [sortInsert].
        replace (byDifference x v <=? 0) with false
          by (symmetry; apply Z.leb_gt; now apply gtb_sign).
        f_equal. apply sortInsert_head.
        destruct hi as [|b hi]; constructor.
        apply Z.lt_le_incl, ltb_sign. apply Forall_inv in Fx. exact Fx.
      * exfalso. subst l.
        apply Forall_inv in Fx. apply Forall_inv in Lo.
        apply (lessThan_irrefl x).
        unfold lessThan in *.
        apply (ltb_trans x a x); [exact Fx |].
        now apply (ltb_trans a v x).
Qed.

Lemma sorted_insert (lo hi : list number) (v : number) :
  StronglySorted lessThan (lo ++ hi) ->
  Forall (fun a => lessThan a v) lo -> Forall (fun a => lessThan v a) hi ->
  StronglySorted lessThan (lo ++ v :: hi).
Proof.
  induction lo as [|a lo IH]; cbn [app]; intros S Lo Hi.
  - now constructor.
  - apply StronglySorted_inv in S as [S Fa].
    apply Forall_cons_iff in Lo as [La Lo].
    constructor; [now apply IH |].
    apply Forall_app in Fa as [Fa1 Fa2].
    apply Forall_app. split; [exact Fa1 |]. now constructor.
Qed.

Lemma filter_strongly_sorted (p : number -> bool) (l : list number) :
  StronglySorted lessThan l -> StronglySorted lessThan (filter p l).
Proof.
  induction 1 as [|a l S IH F]; cbn [filter]; [constructor |].
  destruct (p a); [| exact IH].
  constructor; [exact IH |].
  rewrite Forall_forall in *. intros x Hx.
  apply filter_In in Hx as [Hx _]. now apply F.
Qed.

Lemma without_keeps (v : number) (l : list number) :
  Forall (fun a => NumJS.strictEquals a v = false) l ->
  withoutQuickAmount v l = l.
Proof.
  unfold withoutQuickAmount.
  induction 1 as [|a l E _ IH]; cbn [filter]; [reflexivity |].
  now rewrite E, IH.
Qed.

Lemma strictEquals_refl (v : number) :
  v <> NaN -> NumJS.strictEquals v v = true.
Proof.
  destruct v as [| |a|]; simpl; try congruence.
  intros _. now apply Qeq_bool_iff.
Qed.

Lemma below_not_equal (v : number) (l : list number) :
  Forall (fun a => lessThan a v) l ->
  Forall (fun a => NumJS.strictEquals a v = false) l.
Proof.
  apply Forall_impl. intros a L.
  rewrite strictEquals_number by (now apply (ltb_not_NaN a v)).
  apply (lessThan_distinct _ _ L).
Qed.

Lemma above_not_equal (v : number) (l : list number) :
  Forall (fun a => lessThan v a) l ->
  Forall (fun a => NumJS.strictEquals a v = false) l.
Proof.
  apply Forall_impl. intros a L.
  rewrite strictEquals_number by (now apply (ltb_not_NaN v a)).
  apply (lessThan_distinct _ _ L).
Qed.

(** What [withQuickAmount] does to a strictly ascending list. *)
Lemma withQuickAmount_spec (v : number) (l : list number) :
  Sorted lessThan l -> Forall (fun x => x <> NaN) l -> v <> NaN ->
  (existsb (NumJS.sameValueZero v) l = true -> withQuickAmount v l = l)
  /\ (existsb (NumJS.sameValueZero v) l = false ->
      exists lo hi : list number,
        l = (lo ++ hi)%list
        /\ withQuickAmount v l = (lo ++ v :: hi)%list
        /\ Forall (fun a => lessThan a v) lo
        /\ Forall (fun a => lessThan v a) hi).
Proof.
  intros S N Nv. pose proof (sorted_strongly l S) as SS.
  assert (Members : fold_left NumJS.setAdd l [] = l)
    by (now apply (newSet_ascending l [])).
  unfold withQuickAmount, NumJS.newSet. rewrite fold_left_app, Members.
  cbn [fold_left]. unfold NumJS.setAdd.
  split; intros E; rewrite E.
  - apply sort_fixed.
    apply (Sorted_weaken lessThan); [| exact S].
    intros a b L. apply Z.lt_le_incl. now apply ltb_sign.
  - now apply sort_snoc.
Qed.

End QuickFacts.

Section QuickState.

Lemma setQuickAmounts_same (f : list number -> list number) (s : AppState) :
  f (quickAmounts s) = quickAmounts s -> setQuickAmounts f s = s.
Proof. destruct s; unfold setQuickAmounts; simpl. now intros ->. Qed.

Lemma not_NaN_insert (lo hi : list number) (v : number) :
  Forall (fun x => x <> NaN) (lo ++ hi) -> v <> NaN ->
  Forall (fun x => x <> NaN) (lo ++ v :: hi).
Proof.
  intros F Nv. apply Forall_app in F as [F1 F2].
  apply Forall_app. split; [exact F1 | now constructor].
Qed.

Lemma present_after_insert (v : number) (lo hi : list number) :
  v <> NaN -> existsb (NumJS.sameValueZero v) (lo ++ v :: hi) = true.
Proof.
  intros Nv. rewrite existsb_app. cbn [existsb].
  replace (NumJS.sameValueZero v v) with true; [now rewrite orb_true_r |].
  symmetry. rewrite <- (strictEquals_number v v Nv).
  now apply strictEquals_refl.
Qed.

End QuickState.

(** X8: on quick amounts in strictly ascending order, [addQuickAmount]
    of a number already among them changes nothing, and of a new
    number [v] puts [v] at its place, the amounts below it before and
    the amounts above it after, in the order they had.  The list is
    strictly ascending afterwards and holds [v], and adding [v] again
    changes nothing. *)
Theorem addQuickAmount_keeps_order (s : AppState) (v : number) :
  Sorted lessThan (quickAmounts s) ->
  Forall (fun x => x <> NaN) (quickAmounts s) ->
  v <> NaN ->
  let l := quickAmounts s in
  let l' := quickAmounts (addQuickAmount v s) in
  (existsb (NumJS.sameValueZero v) l = true -> addQuickAmount v s = s)
  /\ (existsb (NumJS.sameValueZero v) l = false ->
      exists lo hi : list number,
        l = (lo ++ hi)%list /\ l' = (lo ++ v :: hi)%list
        /\ Forall (fun a => lessThan a v) lo
        /\ Forall (fun a => lessThan v a) hi)
  /\ Sorted lessThan l'
  /\ existsb (NumJS.sameValueZero v) l' = true
  /\ addQuickAmount v (addQuickAmount v s) = addQuickAmount v s.
Proof.
  intros S N Nv. cbv zeta.
  destruct (withQuickAmount_spec v (quickAmounts s) S N Nv) as [Old New].
  change (quickAmounts (addQuickAmount v s))
    with (withQuickAmount v (quickAmounts s)).
  assert (After : Sorted lessThan (withQuickAmount v (quickAmounts s))
                  /\ Forall (fun x => x <> NaN)
                            (withQuickAmount v (quickAmounts s))
                  /\ existsb (NumJS.sameValueZero v)
                             (withQuickAmount v (quickAmounts s)) = true).
  { destruct (existsb (NumJS.sameValueZero v) (quickAmounts s)) eqn:E.
    - rewrite (Old eq_refl). now repeat split.
    - destruct (New eq_refl) as (lo & hi & El & -> & Lo & Hi).
      split; [| split].
      + apply StronglySorted_Sorted, sorted_insert; try assumption.
        rewrite <- El. now apply sorted_strongly.
      + apply not_NaN_insert; [now rewrite <- El | exact Nv].
      + now apply present_after_insert. }
  destruct After as (S' & N' & P').
  split; [intros E; apply setQuickAmounts_same; now apply Old |].
  split; [exact New |].
  split; [exact S' |].
  split; [exact P' |].
  apply setQuickAmounts_same.
  change (quickAmounts (addQuickAmount v s))
    with (withQuickAmount v (quickAmounts s)).
  now apply (withQuickAmount_spec v _ S' N' Nv).
Qed.

(** Seven among the quick amounts of a first launch. *)
Lemma addQuickAmount_keeps_order_witness :
  quickAmounts (addQuickAmount (Num.ofZ 7) (initialState "2024-01-02"))
  = [Num.ofZ 2; Num.ofZ 5; Num.ofZ 7; Num.ofZ 10; Num.ofZ 20]
  /\ Sorted lessThan
       (quickAmounts (addQuickAmount (Num.ofZ 7) (initialState "2024-01-02"))).
Proof.
  split; [reflexivity |].
  refine (proj1 (proj2 (proj2
            (addQuickAmount_keeps_order (initialState "2024-01-02")
               (Num.ofZ 7) _ _ _)))).
  - repeat constructor.
  - repeat constructor; discriminate.
  - discriminate.
Defined.

(** X9: [removeQuickAmount(v)] keeps, in their order, exactly the
    amounts that are not [=== v]; a strictly ascending list stays so;
    removing again changes nothing; and since [NaN] is [===] to
    nothing, [removeQuickAmount(NaN)] removes nothing, not even a
    [NaN] of the list. *)
Theorem removeQuickAmount_keeps_others (s : AppState) (v : number) :
  quickAmounts (removeQuickAmount v s)
  = filter (fun x => negb (NumJS.strictEquals x v)) (quickAmounts s)
  /\ (forall x, In x (quickAmounts (removeQuickAmount v s))
                <-> In x (quickAmounts s) /\ NumJS.strictEquals x v = false)
  /\ (Sorted lessThan (quickAmounts s) ->
      Sorted lessThan (quickAmounts (removeQuickAmount v s)))
  /\ removeQuickAmount v (removeQuickAmount v s) = removeQuickAmount v s
  /\ removeQuickAmount NaN s = s.
Proof.
  split; [reflexivity |].
  split.
  { intros x. cbn [removeQuickAmount setQuickAmounts quickAmounts].
    unfold withoutQuickAmount. rewrite filter_In, negb_true_iff. reflexivity. }
  split.
  { intros S. apply StronglySorted_Sorted.
    apply filter_strongly_sorted. now apply sorted_strongly. }
  split.
  - apply setQuickAmounts_same.
    cbn [removeQuickAmount setQuickAmounts quickAmounts].
    apply without_keeps. unfold withoutQuickAmount.
    apply Forall_forall. intros x Hx.
    apply filter_In in Hx as [_ Hx]. now apply negb_true_iff.
  - apply setQuickAmounts_same, without_keeps.
    apply Forall_forall. intros x _. now destruct x.
Qed.

(** The quick amounts of a first launch without the 5. *)
Lemma removeQuickAmount_keeps_others_witness :
  quickAmounts (removeQuickAmount (Num.ofZ 5) (initialState "2024-01-02"))
  = [Num.ofZ 2; Num.ofZ 10; Num.ofZ 20]
  /\ Sorted lessThan
       (quickAmounts
          (removeQuickAmount (Num.ofZ 5) (initialState "2024-01-02"))).
Proof.
  split; [reflexivity |].
  refine (proj1 (proj2 (proj2
            (removeQuickAmount_keeps_others (initialState "2024-01-02")
               (Num.ofZ 5)))) _).
  repeat constructor.
Defined.

(** X10: on quick amounts in strictly ascending order, adding a number
    that is not among them and removing it again gives back the state
    as it was. *)
Theorem addQuickAmount_removeQuickAmount (s : AppState) (v : number) :
  Sorted lessThan (quickAmounts s) ->
  Forall (fun x => x <> NaN) (quickAmounts s) ->
  v <> NaN ->
  existsb (NumJS.sameValueZero v) (quickAmounts s) = false ->
  removeQuickAmount v (addQuickAmount v s) = s.
Proof.
  intros S N Nv Abs.
  destruct (withQuickAmount_spec v (quickAmounts s) S N Nv) as [_ New].
  destruct (New Abs) as (lo & hi & El & E' & Lo & Hi).
  destruct s as [b q bk ca ss cs sc en sa cu sp tk].
  unfold removeQuickAmount, addQuickAmount, setQuickAmounts; cbn in *.
  f_equal. rewrite E', El.
  unfold withoutQuickAmount. rewrite filter_app. cbn [filter].
  rewrite (strictEquals_refl v Nv). cbn [negb].
  fold (withoutQuickAmount v lo). fold (withoutQuickAmount v hi).
  rewrite (without_keeps v lo (below_not_equal v lo Lo)).
  now rewrite (without_keeps v hi (above_not_equal v hi Hi)).
Qed.

(** Seven added to the quick amounts of a first launch and removed. *)
Lemma addQuickAmount_removeQuickAmount_witness :
  removeQuickAmount (Num.ofZ 7)
    (addQuickAmount (Num.ofZ 7) (initialState "2024-01-02"))
  = initialState "2024-01-02".
Proof.
  apply (addQuickAmount_removeQuickAmount (initialState "2024-01-02")
           (Num.ofZ 7)).
  - repeat constructor.
  - repeat constructor; discriminate.
  - discriminate.
  - reflexivity.
Defined.

(** ** The handlers of the screen *)

Section HandlerFacts.
Variable parseFloat : string -> number.
Variable tz : Z.

Lemma isNaN_or_leb (x : number) :
  isNaN x || Num.leb x Num.zero = negb (Num.gtb x Num.zero).
Proof.
  destruct (Num.gtb x Num.zero) eqn:G; cbn [negb].
  - destruct x as [| |q|]; try discriminate; cbn in *; [| reflexivity].
    unfold Num.gtb, Num.zero in G; cbn in G. unfold Num.Qltb in G.
    now apply negb_true_iff in G.
  - apply not_positive_iff in G as [-> | L]; [reflexivity |].
    rewrite L. apply orb_true_r.
Qed.

Lemma orElse_number (x y : number) : y <> NaN -> NumJS.orElse x y <> NaN.
Proof.
  intros Ny. destruct x as [| |q|]; cbn; try discriminate; try assumption.
  destruct (Qeq_bool q 0); [assumption | discriminate].
Qed.

Lemma add_nonneg (a x : number) :
  Num.leb Num.zero a = true -> Num.gtb x Num.zero = true ->
  Num.leb Num.zero (Num.add a x) = true.
Proof.
  unfold Num.gtb, Num.zero.
  destruct a as [| |a|], x as [| |x|]; cbn; try congruence.
  rewrite Qltb_lt. intros A X. apply Qle_bool_iff in A.
  apply Qle_bool_iff. lra.
Qed.

Lemma sum_nonneg (l : list ExpenseEntry) :
  Forall (fun e => Num.gtb (amount e) Num.zero = true) l ->
  Num.leb Num.zero (sumAmounts l) = true.
Proof.
  unfold sumAmounts.
  assert (G : forall a, Num.leb Num.zero a = true ->
              Forall (fun e => Num.gtb (amount e) Num.zero = true) l ->
              Num.leb Num.zero
                (fold_left (fun acc e => Num.add acc (amount e)) l a) = true).
  { induction l as [|e l IH]; intros a A F; cbn [fold_left]; [exact A |].
    apply Forall_cons_iff in F as [Pe F].
    apply IH; [now apply add_nonneg | exact F]. }
  apply G. reflexivity.
Qed.

Lemma positive_set (b : DayBook) (k : string) (arr : list ExpenseEntry) :
  positiveLedger b ->
  Forall (fun e => Num.gtb (amount e) Num.zero = true) arr ->
  positiveLedger (Obj.set k arr b).
Proof.
  unfold positiveLedger. destruct (flat_set b k) as (pre & post & E & F).
  rewrite E, F. intros P A.
  apply Forall_app in P as [P1 P]. apply Forall_app in P as [_ P2].
  apply Forall_app. split; [exact P1 |]. apply Forall_app. now split.
Qed.

Lemma setBook_ext (f g : DayBook -> DayBook) (s : AppState) :
  f (book s) = g (book s) -> setBook f s = setBook g s.
Proof. unfold setBook. now intros ->. Qed.

Lemma invariant_frame (s s' : AppState) :
  book s' = book s -> todayKey s' = todayKey s ->
  quickAmounts s' = quickAmounts s -> dailyBudget s' = dailyBudget s ->
  sessionInvariant s -> sessionInvariant s'.
Proof. unfold sessionInvariant. intros -> -> -> ->. auto. Qed.

Lemma invariant_book (s : AppState) (arr : list ExpenseEntry) :
  Forall (fun e => Num.gtb (amount e) Num.zero = true) arr ->
  sessionInvariant s ->
  sessionInvariant (setBook (fun prev => Obj.set (todayKey s) arr prev) s).
Proof.
  intros A (P & G & Q & B). unfold sessionInvariant, setBook; cbn.
  split; [now apply positive_set |].
  split; [rewrite get_set_same; discriminate | now split].
Qed.

Lemma invariant_addAmount (rid : string) (nowMs : Z) (amt : number)
    (category note : option string) (s : AppState) :
  sessionInvariant s ->
  sessionInvariant (fst (addAmount rid nowMs amt category note s)).
Proof.
  intros I. unfold addAmount.
  destruct (Num.gtb amt Num.zero) eqn:P; cbn [negb fst]; [| exact I].
  apply (invariant_frame
           (setBook (fun prev =>
                       Obj.set (todayKey s)
                         (bucket (book s) (todayKey s)
                            ++ [mkEntry rid amt nowMs
                                  match category with
                                  | Some c => c
                                  | None => selectedCategory s
                                  end
                                  match note with
                                  | Some n => n
                                  | None => ""
                                  end])%list prev) s));
    try reflexivity.
  apply invariant_book; [| exact I].
  apply Forall_app. split.
  - apply positive_bucket, I.
  - now repeat constructor.
Qed.

Lemma invariant_deleteExpense (expenseId : string) (s : AppState) :
  sessionInvariant s -> sessionInvariant (deleteExpense expenseId s).
Proof.
  intros I. unfold deleteExpense.
  rewrite (setBook_ext _
             (fun prev =>
                Obj.set (todayKey s)
                  (filter (fun expense =>
                             negb (String.eqb (id expense) expenseId))
                          (bucket (book s) (todayKey s))) prev))
    by reflexivity.
  apply (invariant_book s); [| exact I].
  apply Forall_forall. intros e He. apply filter_In in He as [He _].
  pose proof (positive_bucket (book s) (todayKey s) (proj1 I)) as F.
  rewrite Forall_forall in F. now apply F.
Qed.

Lemma invariant_ensureToday (s : AppState) :
  positiveLedger (book s) -> quickAmountsOk (quickAmounts s) ->
  dailyBudget s <> NaN -> sessionInvariant (ensureToday s).
Proof.
  intros P Q B. unfold sessionInvariant.
  change (todayKey (ensureToday s)) with (todayKey s).
  rewrite ensureToday_has_bucket.
  split; [| split; [discriminate | now split]].
  unfold ensureToday, setBook; cbn [book].
  destruct (Obj.get (todayKey s) (book s)); [exact P |].
  apply positive_set; [exact P | constructor].
Qed.

Lemma invariant_dayCheck (now : JSDate.Date) (s : AppState) :
  sessionInvariant s -> sessionInvariant (dayCheck tz now s).
Proof.
  intros I. unfold dayCheck, updateDate.
  destruct (String.eqb_spec (dateKey tz now) (todayKey s)) as [E|N];
    cbn [negb].
  - now rewrite String.eqb_refl.
  - cbn [setTodayKey todayKey].
    destruct (String.eqb_spec (dateKey tz now) (todayKey s)); [congruence |].
    destruct I as (P & _ & Q & B). now apply invariant_ensureToday.
Qed.

Lemma quickAmountsOk_not_NaN (l : list number) :
  quickAmountsOk l -> Forall (fun x => x <> NaN) l.
Proof.
  intros [P _]. eapply Forall_impl; [| exact P].
  intros a. apply positive_not_NaN.
Qed.

Lemma quickAmountsOk_with (v : number) (l : list number) :
  Num.gtb v Num.zero = true -> quickAmountsOk l ->
  quickAmountsOk (withQuickAmount v l).
Proof.
  intros Pv Q. pose proof (quickAmountsOk_not_NaN l Q) as N.
  destruct Q as [P S].
  destruct (withQuickAmount_spec v l S N (positive_not_NaN v Pv)) as [Old New].
  destruct (existsb (NumJS.sameValueZero v) l) eqn:E.
  - rewrite (Old eq_refl). now split.
  - destruct (New eq_refl) as (lo & hi & -> & -> & Lo & Hi).
    apply Forall_app in P as [P1 P2]. split.
    + apply Forall_app. split; [exact P1 | now constructor].
    + apply StronglySorted_Sorted, sorted_insert; try assumption.
      now apply sorted_strongly.
Qed.

Lemma quickAmountsOk_without (v : number) (l : list number) :
  quickAmountsOk l -> quickAmountsOk (withoutQuickAmount v l).
Proof.
  intros [P S]. split.
  - apply Forall_forall. intros x Hx. apply filter_In in Hx as [Hx _].
    rewrite Forall_forall in P. now apply P.
  - apply StronglySorted_Sorted, filter_strongly_sorted.
    now apply sorted_strongly.
Qed.

Lemma invariant_react (ev : Event) (s : AppState) :
  sessionInvariant s -> sessionInvariant (react parseFloat tz ev s).
Proof.
  intros I. destruct ev; cbn [react];
    try (now apply (invariant_frame s)).
  - now apply invariant_dayCheck.
  - unfold handleAppStateChange.
    destruct (String.eqb nextAppState "active").
    + now apply invariant_dayCheck.
    + now rewrite String.eqb_refl.
  - unfold pressQuickChip.
    destruct (nth_error (quickAmounts s) n); [| exact I].
    now apply invariant_addAmount.
  - unfold pressAddExpense.
    destruct (isNaN _ || Num.leb _ Num.zero); [exact I |].
    pose proof (invariant_addAmount rid nowMs
                  (parseFloat (replaceFirst "," "." (customAmount s)))
                  (Some (selectedCategory s)) (Some (expenseNote s)) s I) as A.
    destruct (addAmount _ _ _ _ _ s). exact A.
  - now apply invariant_deleteExpense.
  - destruct pressed; cbn [clearToday fst]; [exact I |].
    apply invariant_book; [constructor | exact I].
  - destruct I as (P & G & Q & B). unfold changeBudget.
    repeat split; try assumption; try apply Q.
    cbn. apply orElse_number. discriminate.
  - destruct I as (P & G & Q & B).
    repeat split; try assumption; cbn; now apply quickAmountsOk_without.
  - unfold submitQuickAmount.
    destruct (Num.gtb _ Num.zero) eqn:Pv; [| exact I].
    destruct I as (P & G & Q & B).
    repeat split; try assumption; cbn; now apply quickAmountsOk_with.
Qed.

Lemma invariant_firstRender (key : string) : sessionInvariant (firstRender key).
Proof.
  apply invariant_ensureToday.
  - constructor.
  - split; repeat constructor.
  - discriminate.
Qed.

Lemma invariant_run (events : list Event) :
  forall s, sessionInvariant s -> sessionInvariant (run parseFloat tz events s).
Proof.
  unfold run. induction events as [|ev events IH]; intros s I; [exact I |].
  cbn [fold_left]. apply IH. now apply invariant_react.
Qed.

End HandlerFacts.

(** X11: the press of [Add Expense] either changes nothing and calls
    nothing (the typed amount parses to [NaN] or to a number [<= 0]),
    or adds exactly one entry for the parsed amount with the selected
    category and the typed note, after a medium and a light haptic
    impact; the form is then closed and the note emptied, while the
    typed amount stays in its field.  No haptic impact happens without
    an entry being added. *)
Theorem pressAddExpense_outcomes
    (parseFloat : string -> number) (rid : string) (nowMs : Z)
    (s : AppState) :
  let parsed := parseFloat (replaceFirst "," "." (customAmount s)) in
  let s' := fst (pressAddExpense parseFloat rid nowMs s) in
  let effects := snd (pressAddExpense parseFloat rid nowMs s) in
  (Num.gtb parsed Num.zero = false -> s' = s /\ effects = [])
  /\ (Num.gtb parsed Num.zero = true ->
      effects = [HapticsImpact Medium; HapticsImpact Light]
      /\ todayEntries s'
         = (todayEntries s
              ++ [mkEntry rid parsed nowMs (selectedCategory s)
                          (expenseNote s)])%list
      /\ customAmount s' = customAmount s
      /\ expenseNote s' = "" /\ showAddExpense s' = false)
  /\ (effects <> [] ->
      List.length (todayEntries s') = S (List.length (todayEntries s))).
Proof.
  cbv zeta. unfold pressAddExpense. rewrite isNaN_or_leb.
  set (parsed := parseFloat (replaceFirst "," "." (customAmount s))).
  assert (Added : Num.gtb parsed Num.zero = true ->
                  todayEntries
                    (fst (addAmount rid nowMs parsed (Some (selectedCategory s))
                                    (Some (expenseNote s)) s))
                  = (todayEntries s
                       ++ [mkEntry rid parsed nowMs (selectedCategory s)
                                   (expenseNote s)])%list).
  { intros P. unfold addAmount. rewrite P. cbn [negb fst].
    unfold todayEntries, setBook, setShowAddExpense, setExpenseNote;
      cbn [book todayKey].
    now rewrite bucket_set_same. }
  destruct (Num.gtb parsed Num.zero) eqn:P; cbn [negb].
  - specialize (Added eq_refl).
    unfold addAmount in *. rewrite P in *. cbn [negb fst snd] in *.
    split; [discriminate |].
    split; [intros _; repeat split; exact Added |].
    intros _. rewrite Added, length_app. cbn. lia.
  - cbn [fst snd]. split; [now split | split; [discriminate | congruence]].
Qed.

(** Twelve typed in the custom form on the first day. *)
Lemma pressAddExpense_outcomes_witness :
  snd (pressAddExpense sampleParseFloat "k3x" 1704189600000
         (setCustomAmount "12" (firstRender "2024-01-02")))
  = [HapticsImpact Medium; HapticsImpact Light].
Proof.
  refine (proj1 (proj1 (proj2
            (pressAddExpense_outcomes sampleParseFloat "k3x" 1704189600000
               (setCustomAmount "12" (firstRender "2024-01-02")))) _)).
  reflexivity.
Defined.

(** X12: whatever is typed in the budget field, the budget is never
    [NaN] afterwards.  It is 0 when the text parses to [NaN] or to 0,
    and in every other case it is the number the text parses to: a
    negative number is stored as it is, and like 0 it leaves the meter
    at 0.  The ledger and the quick amounts are not touched. *)
Theorem changeBudget_number
    (parseFloat : string -> number) (text : string) (s : AppState) :
  let parsed := parseFloat (replaceFirst "," "." text) in
  let s' := changeBudget parseFloat text s in
  dailyBudget s' <> NaN
  /\ (parsed = NaN \/ (parsed == Num.zero)%num -> dailyBudget s' = Num.zero)
  /\ (parsed <> NaN -> ~ (parsed == Num.zero)%num -> dailyBudget s' = parsed)
  /\ (Num.ltb parsed Num.zero = true ->
      dailyBudget s' = parsed /\ progress s' = Num.zero)
  /\ (Num.gtb parsed Num.zero = false -> progress s' = Num.zero)
  /\ book s' = book s /\ quickAmounts s' = quickAmounts s.
Proof.
  cbv zeta. unfold changeBudget.
  set (parsed := parseFloat (replaceFirst "," "." text)).
  cbn [dailyBudget setDailyBudget book quickAmounts].
  assert (Low : Num.gtb parsed Num.zero = false ->
                progress (setDailyBudget (NumJS.orElse parsed Num.zero) s)
                = Num.zero).
  { intros P. unfold progress, progressOf. cbn [dailyBudget setDailyBudget].
    replace (Num.gtb (NumJS.orElse parsed Num.zero) Num.zero) with false;
      [reflexivity |].
    destruct parsed as [| |q|]; cbn in *; try congruence.
    destruct (Qeq_bool q 0); [reflexivity | now rewrite P]. }
  split; [apply orElse_number; discriminate |].
  split.
  { intros [-> | Z]; [reflexivity |].
    destruct parsed as [| |q|]; cbn in Z; try contradiction. cbn.
    now replace (Qeq_bool q 0) with true
      by (symmetry; now apply Qeq_bool_iff). }
  split.
  { intros N Z. destruct parsed as [| |q|]; cbn; try congruence.
    destruct (Qeq_bool q 0) eqn:E; [| reflexivity].
    apply Qeq_bool_iff in E. now destruct Z. }
  split; [| split; [exact Low | split; reflexivity]].
  intros L. split.
  - destruct parsed as [| |q|]; cbn in *; try congruence.
    destruct (Qeq_bool q 0) eqn:E; [| reflexivity].
    apply Qeq_bool_iff in E. apply Qltb_lt in L. lra.
  - apply Low. destruct parsed as [| |q|]; cbn in *; try congruence.
    unfold Num.gtb; cbn. apply Qltb_lt in L. apply Qltb_ge. lra.
Qed.

(** A budget of minus five is stored as typed and leaves the meter
    at 0. *)
Lemma changeBudget_number_witness :
  dailyBudget (changeBudget sampleParseFloat "-5" (firstRender "2024-01-02"))
  = Num.ofZ (-5)
  /\ progress (changeBudget sampleParseFloat "-5" (firstRender "2024-01-02"))
     = Num.zero.
Proof.
  refine (proj1 (proj2 (proj2 (proj2
            (changeBudget_number sampleParseFloat "-5"
               (firstRender "2024-01-02"))))) _).
  reflexivity.
Defined.

(** X13: whatever happens on the screen after the first render, in
    whatever order and with whatever the host's [parseFloat], clock and
    ids give: every amount in the ledger is [> 0], the current day has
    its bucket, the quick amounts are positive and strictly ascending,
    and the budget is not [NaN].  In particular today's total is a
    number [>= 0]. *)
Theorem session_invariant
    (parseFloat : string -> number) (tz : Z) (key : string)
    (events : list Event) :
  let s := run parseFloat tz events (firstRender key) in
  Forall (fun e => Num.gtb (amount e) Num.zero = true)
         (List.concat (Obj.values (book s)))
  /\ Obj.get (todayKey s) (book s) = Some (todayEntries s)
  /\ Forall (fun x => Num.gtb x Num.zero = true) (quickAmounts s)
  /\ Sorted lessThan (quickAmounts s)
  /\ dailyBudget s <> NaN
  /\ Num.leb Num.zero (todayTotal s) = true.
Proof.
  cbv zeta.
  pose proof (invariant_run parseFloat tz events _
                (invariant_firstRender key)) as (P & G & (Q1 & Q2) & B).
  split; [exact P |].
  split.
  { unfold todayEntries, bucket.
    destruct (Obj.get _ _); [reflexivity | congruence]. }
  split; [exact Q1 | split; [exact Q2 | split; [exact B |]]].
  apply sum_nonneg, positive_bucket, P.
Qed.

(** X14: in a session the meter stays in range: [progress] lies in
    [[0, 1]], and [remaining] in [[0, budget]] when the budget is
    [>= 0], unless budget and today's total are both [Infinity]. *)
Theorem session_meter
    (parseFloat : string -> number) (tz : Z) (key : string)
    (events : list Event) :
  let s := run parseFloat tz events (firstRender key) in
  ~ (dailyBudget s = Infinity /\ todayTotal s = Infinity) ->
  Num.within Num.zero Num.one (progress s)
  /\ (Num.leb Num.zero (dailyBudget s) = true ->
      Num.within Num.zero (dailyBudget s) (remaining s)).
Proof.
  cbv zeta. intros N.
  pose proof (invariant_run parseFloat tz events _
                (invariant_firstRender key)) as (P & _).
  assert (T : Num.leb Num.zero
                (todayTotal (run parseFloat tz events (firstRender key)))
              = true) by apply sum_nonneg, positive_bucket, P.
  split.
  - now apply progressOf_bounds.
  - intros B. now apply remainingOf_bounds.
Qed.

(** The second chip (5) pressed twice on the first day, budget 30. *)
Lemma session_meter_witness :
  let s := run noParse 0
             [QuickChipPressed "k3x" 1704189600000 1;
              QuickChipPressed "q7a" 1704193200000 1]
             (firstRender "2024-01-02") in
  (todayTotal s == Num.ofZ 10)%num
  /\ Num.within Num.zero Num.one (progress s).
Proof.
  intros s. split; [vm_compute; reflexivity |].
  refine (proj1 (session_meter noParse 0 "2024-01-02"
                   [QuickChipPressed "k3x" 1704189600000 1;
                    QuickChipPressed "q7a" 1704193200000 1] _)).
  intros [B _]. vm_compute in B. discriminate.
Defined.

(** ** What the screen shows *)

Section Shown.

Lemma sortInsert_last {A : Type} (compare : A -> A -> Z) (x : A) (l : list A) :
  Forall (fun y => 0 < compare x y) l ->
  sortInsert compare x l = (l ++ [x])%list.
Proof.
  induction 1 as [|y l G _ IH]; [reflexivity |]. cbn [sortInsert app].
  replace (compare x y <=? 0) with false by (symmetry; now apply Z.leb_gt).
  now rewrite IH.
Qed.

Lemma sort_newest_first_rev (l : list ExpenseEntry) :
  StronglySorted olderThan l ->
  sort (fun a b => timestamp b - timestamp a) l = rev l.
Proof.
  induction 1 as [|x l S IH F]; [reflexivity |].
  cbn [sort rev]. rewrite IH. apply sortInsert_last.
  apply Forall_rev. eapply Forall_impl; [| exact F].
  intros y O. unfold olderThan in O. lia.
Qed.

Lemma week_nth (tz : Z) (clock : nat -> JSDate.Date) (b : DayBook)
    (n i : Z) :
  readsOnDay tz clock n ->
  0 <= i <= 6 ->
  nth_error (last7Totals tz clock b) (Z.to_nat (6 - i))
  = Some (dayTotalOf tz b (n - i)).
Proof.
  intros D R. rewrite (last7Totals_unrolled tz clock b n D).
  assert (C : i = 0 \/ i = 1 \/ i = 2 \/ i = 3 \/ i = 4 \/ i = 5 \/ i = 6)
    by lia.
  destruct C as [-> | [-> | [-> | [-> | [-> | [-> | ->]]]]]]; reflexivity.
Qed.

End Shown.

(** X15: the weekly totals are evaluated when the ledger changes, not
    when the current key does, so the day of their evaluation need not
    be the day the key names.  Whenever the seven readings of the
    evaluation fall on a local day that lies [i] days ([0 <= i <= 6])
    after the day of the key, and the ledger is that of the state, the
    entry number [6 - i] is dated on the day of the key and its total
    is today's total, the total of the meter.  It is the last bar only
    when [i = 0]. *)
Theorem last7Totals_shows_today
    (tz : Z) (clock : nat -> JSDate.Date) (now0 : JSDate.Date) (i : Z)
    (s : AppState) :
  todayKey s = dateKey tz now0 ->
  0 <= i <= 6 ->
  readsOnDay tz clock (JSDate.localDay tz now0 + i) ->
  exists x : DayTotal,
    nth_error (last7Totals tz clock (book s)) (Z.to_nat (6 - i)) = Some x
    /\ dateKey tz (date x) = todayKey s
    /\ total x = todayTotal s.
Proof.
  intros K R D. eexists. split; [now apply (week_nth tz clock _ _ i D) |].
  cbn [dayTotalOf date total].
  assert (E : dateKey tz (startOfLocalDay tz (JSDate.localDay tz now0 + i - i))
              = todayKey s).
  { rewrite K. apply dateKey_same_day.
    rewrite localDay_startOfLocalDay. lia. }
  split; [exact E |]. now rewrite E.
Qed.

(** Five units entered on 2024-02-29; the ledger last changed on
    2024-03-01, when the bucket of that day was made, and the clock was
    then set back, so that the date check returned the key to
    2024-02-29.  The meter shows the 5 units, which stand in the bar
    before the last, and the last bar shows 0. *)
Lemma last7Totals_shows_today_witness :
  let s := dayCheck 0 1709204460000
             (dayCheck 0 1709283600000
                (fst (addAmount "k3x" 1709204400000 (Num.ofZ 5) None None
                        (firstRender "2024-02-29")))) in
  let week := last7Totals 0 (tickingFrom 1709283600000) (book s) in
  todayKey s = "2024-02-29"
  /\ todayTotal s = Num.ofZ 5
  /\ map total week
     = [Num.zero; Num.zero; Num.zero; Num.zero; Num.zero; Num.ofZ 5; Num.zero]
  /\ exists x : DayTotal,
       nth_error week 5 = Some x /\ total x = todayTotal s.
Proof.
  intros s week.
  assert (K : todayKey s = dateKey 0 1709204460000)
    by (vm_compute; reflexivity).
  assert (R : 0 <= 1 <= 6) by lia.
  assert (D : readsOnDay 0 (tickingFrom 1709283600000)
                (JSDate.localDay 0 1709204460000 + 1))
    by (apply tickingFrom_day; vm_compute; reflexivity).
  destruct (last7Totals_shows_today 0 (tickingFrom 1709283600000)
              1709204460000 1 s K R D) as (x & Hx & _ & Tx).
  split; [vm_compute; reflexivity |].
  split; [vm_compute; reflexivity |].
  split; [vm_compute; reflexivity |].
  exists x. split; [exact Hx | exact Tx].
Defined.

(** X16: the list of today's expenses shows every entry of today's
    bucket once, newest first, and leaves the bucket as it is; when the
    entries were stamped at strictly increasing instants, the list is
    the bucket read backwards. *)
Theorem todayList_newest_first (s : AppState) :
  Permutation (todayList s) (todayEntries s)
  /\ StronglySorted newerOrSame (todayList s)
  /\ (StronglySorted olderThan (todayEntries s) ->
      todayList s = rev (todayEntries s)).
Proof.
  split; [apply sort_perm |].
  split.
  - apply Sorted_StronglySorted; [exact newerOrSame_trans |].
    apply sort_sorted; unfold newerOrSame; intros x y; lia.
  - apply sort_newest_first_rev.
Qed.

(** Five and then twelve units entered on the first day. *)
Lemma todayList_newest_first_witness :
  map amount
    (todayList
       (fst (addAmount "q7a" 1704193200000 (Num.ofZ 12) None None
          (fst (addAmount "k3x" 1704189600000 (Num.ofZ 5) None None
                  (firstRender "2024-01-02"))))))
  = [Num.ofZ 12; Num.ofZ 5].
Proof.
  pose (s := fst (addAmount "q7a" 1704193200000 (Num.ofZ 12) None None
               (fst (addAmount "k3x" 1704189600000 (Num.ofZ 5) None None
                       (firstRender "2024-01-02"))))).
  assert (O : StronglySorted olderThan (todayEntries s)).
  { repeat constructor. }
  change (map amount (todayList s) = [Num.ofZ 12; Num.ofZ 5]).
  rewrite (proj2 (proj2 (todayList_newest_first s)) O). reflexivity.
Defined.

Section FirstMatch.
Context {A : Type}.

(** [find] gives the first element that passes the test. *)
Lemma find_first (p : A -> bool) (l : list A) (x : A) :
  find p l = Some x
  <-> exists pre post : list A,
        l = (pre ++ x :: post)%list /\ p x = true
        /\ Forall (fun y => p y = false) pre.
Proof.
  induction l as [|y l IH]; cbn [find].
  - split; [discriminate |].
    intros (pre & post & E & _). now destruct pre.
  - destruct (p y) eqn:Py.
    + split.
      * intros [= <-]. exists [], l. now repeat split.
      * intros (pre & post & E & Px & None).
        destruct pre as [|z pre]; cbn in E; injection E as <- _;
          [reflexivity |].
        apply Forall_cons_iff in None as [Pz _]. congruence.
    + rewrite IH. split.
      * intros (pre & post & -> & Px & None).
        exists (y :: pre), post. repeat split; [assumption |].
        now constructor.
      * intros (pre & post & E & Px & None).
        destruct pre as [|z pre]; cbn in E; injection E as <- ->;
          [congruence |].
        apply Forall_cons_iff in None as [_ None].
        now exists pre, post.
Qed.

End FirstMatch.

(** X17: the category shown for an expense is the first category of the
    list whose id is the one the expense refers to; when no category
    carries that id (a dangling reference) it is the first category of
    the list.  So with at least one category every expense is shown
    with a category, and with none there is nothing to show
    ([undefined]). *)
Theorem categoryOf_fallback (cats : list Category) (item : ExpenseEntry) :
  (forall cat : Category,
     categoryOf cats item = Some cat
     <-> (exists pre post : list Category,
            cats = (pre ++ cat :: post)%list
            /\ cat_id cat = category item
            /\ Forall (fun c => cat_id c <> category item) pre)
         \/ ((forall c, In c cats -> cat_id c <> category item)
             /\ nth_error cats 0 = Some cat))
  /\ (cats <> [] -> exists cat, categoryOf cats item = Some cat /\ In cat cats)
  /\ (cats = [] -> categoryOf cats item = None).
Proof.
  set (p := fun cat => String.eqb (cat_id cat) (category item)).
  assert (Same : forall l,
             Forall (fun y => p y = false) l
             <-> Forall (fun c => cat_id c <> category item) l).
  { intros l. rewrite !Forall_forall. unfold p.
    split; intros H c I; apply String.eqb_neq; auto. }
  assert (Spec : forall cat : Category,
             categoryOf cats item = Some cat
             <-> (exists pre post : list Category,
                    cats = (pre ++ cat :: post)%list
                    /\ cat_id cat = category item
                    /\ Forall (fun c => cat_id c <> category item) pre)
                 \/ ((forall c, In c cats -> cat_id c <> category item)
                     /\ nth_error cats 0 = Some cat)).
  { intros cat. unfold categoryOf. fold p.
    destruct (find p cats) as [found|] eqn:F.
    - pose proof (proj1 (find_first p cats found) F)
        as (pre & post & E & Pf & None).
      split.
      + intros [= <-]. left. exists pre, post.
        repeat split; [exact E | now apply String.eqb_eq | now apply Same].
      + intros [(pre' & post' & E' & Id & None') | (NoId & _)].
        * f_equal. apply Same in None'.
          assert (F' : find p cats = Some cat).
          { apply find_first. exists pre', post'.
            repeat split; [exact E' | now apply String.eqb_eq | exact None']. }
          congruence.
        * exfalso. apply (NoId found).
          -- rewrite E. apply in_or_app. right. now left.
          -- now apply String.eqb_eq.
    - pose proof (find_none _ _ F) as N.
      split.
      + intros E. right. split; [| exact E].
        intros c I. apply String.eqb_neq. now apply N.
      + intros [(pre' & post' & E' & Id & _) | (_ & E)]; [| exact E].
        exfalso. specialize (N cat). rewrite E' in N.
        assert (I : In cat (pre' ++ cat :: post'))
          by (apply in_or_app; right; now left).
        apply N in I. unfold p in I. apply String.eqb_neq in I. congruence. }
  split; [exact Spec |].
  split.
  - intros NE. unfold categoryOf. fold p.
    destruct (find p cats) as [found|] eqn:F.
    + exists found. split; [reflexivity |]. now apply find_some in F.
    + destruct cats as [|c cats]; [congruence |].
      exists c. split; [reflexivity | now left].
  - intros ->. reflexivity.
Qed.

(** Of two categories that carry the same id, the first is shown. *)
Lemma categoryOf_fallback_witness :
  categoryOf [mkCategory "food" "Food" "#ef4444" "food-icon";
              mkCategory "food" "Groceries" "#10b981" "cart-icon"]
             (mkEntry "k3x" (Num.ofZ 5) 1704189600000 "food" "")
  = Some (mkCategory "food" "Food" "#ef4444" "food-icon").
Proof.
  apply (proj1 (categoryOf_fallback _ _)).
  left. exists [], [mkCategory "food" "Groceries" "#10b981" "cart-icon"].
  repeat split. constructor.
Defined.

Section Columns.

Lemma countChar_append (c : ascii) (a b : string) :
  countChar c (a ++ b) = (countChar c a + countChar c b)%nat.
Proof.
  induction a as [|x a IH]; cbn [countChar String.append]; [reflexivity |].
  rewrite IH. lia.
Qed.

Lemma countChar_absent (c : ascii) (s : string) :
  Str.occurs c s = false -> countChar c s = 0%nat.
Proof.
  induction s as [|a s IH]; cbn; [reflexivity |].
  intros H. apply orb_false_iff in H as [-> H]. now rewrite IH.
Qed.

Lemma digits_no_comma (s : string) :
  Str.all Str.isDigit s = true -> Str.occurs "," s = false.
Proof.
  induction s as [|a s IH]; cbn; [reflexivity |].
  intros H. apply andb_true_iff in H as [D H]. rewrite (IH H), orb_false_r.
  destruct (Ascii.eqb_spec a ","); [subst; discriminate | reflexivity].
Qed.

(** [toFixed(2)] writes no comma, provided the host's exponent
    notation writes none. *)
Lemma toFixed_no_comma (exponentNotation : Q -> string) (x : number) :
  (forall q, Str.occurs "," (exponentNotation q) = false) ->
  Str.occurs "," (NumFmt.toFixed exponentNotation x 2) = false.
Proof.
  intros Host. destruct x as [| |q|]; try reflexivity.
  destruct (Qle_bool (inject_Z (10 ^ 21)) (Qabs q)) eqn:Big.
  - unfold NumFmt.toFixed. rewrite Big, occurs_append, Host.
    now destruct (Num.Qltb q 0).
  - assert (R : (Qabs q < inject_Z (10 ^ 21))%Q).
    { apply Qnot_le_lt. intros L. apply Qle_bool_iff in L. congruence. }
    destruct (toFixed_fixedPoint exponentNotation q 2 R ltac:(discriminate))
      as (sign & a & b & -> & Sg & _ & Da & _ & Db).
    rewrite !occurs_append, (digits_no_comma a Da), (digits_no_comma b Db).
    now destruct Sg as [-> | ->].
Qed.

End Columns.

(** X18: a row of the CSV export has exactly three commas, that is four
    columns, whatever the note, as soon as the locale date, the
    category id and the host's exponent notation contain no comma: the
    amount never brings one and those of the note are replaced. *)
Theorem csvRow_four_columns
    (toLocaleDateString : Z -> string) (exponentNotation : Q -> string)
    (entry : ExpenseEntry) :
  Str.occurs "," (toLocaleDateString (timestamp entry)) = false ->
  Str.occurs "," (category entry) = false ->
  (forall q, Str.occurs "," (exponentNotation q) = false) ->
  countChar "," (csvRow toLocaleDateString exponentNotation entry) = 3%nat.
Proof.
  intros D C Host. unfold csvRow. rewrite !countChar_append.
  rewrite (countChar_absent _ _ D), (countChar_absent _ _ C).
  rewrite (countChar_absent _ _ (toFixed_no_comma exponentNotation _ Host)).
  rewrite (countChar_absent "," (Str.replaceAll "," ";" (note entry)))
    by (apply replaceAll_clean; discriminate).
  reflexivity.
Qed.

(** A note with two commas. *)
Lemma csvRow_four_columns_witness :
  countChar ","
    (csvRow sampleLocaleDate sampleExponentNotation
       (mkEntry "k3x" (Finite (7 # 2)) 1704189600000 "food"
                "tea, milk, sugar"))
  = 3%nat.
Proof.
  apply (csvRow_four_columns sampleLocaleDate sampleExponentNotation
           (mkEntry "k3x" (Finite (7 # 2)) 1704189600000 "food"
                    "tea, milk, sugar")).
  - vm_compute. reflexivity.
  - reflexivity.
  - intros q. unfold sampleExponentNotation.
    now destruct (Qeq_bool q (inject_Z (10 ^ 21))).
Defined.

(** ** The meter and the bars *)

Section Drawn.
Local Open Scope Q_scope.

Lemma within_unit (x : number) :
  Num.within Num.zero Num.one x -> exists r, x = Finite r /\ 0 <= r <= 1.
Proof.
  unfold Num.within, Num.zero, Num.one.
  destruct x as [| |r|]; cbn; intros [L U]; try discriminate.
  exists r. apply Qle_bool_iff in L, U. now repeat split.
Qed.

Lemma ratio_progress (b t : number) :
  WeeklyHistory.ratio b t = Num.Math_max Num.zero (progressOf b t).
Proof.
  unfold WeeklyHistory.ratio, progressOf.
  now destruct (Num.gtb b Num.zero).
Qed.

(** The meter is full exactly when the budget is positive and spent. *)
Lemma progress_full (b t : number) :
  Num.leb Num.zero t = true -> ~ (b = Infinity /\ t = Infinity) ->
  Num.gtb b Num.zero = true -> Num.leb b t = true ->
  progressOf b t = Num.one.
Proof.
  unfold progressOf, Num.gtb, Num.zero, Num.one.
  destruct b as [| |b|], t as [| |t|]; cbn; intros T N B L;
    try discriminate; try (exfalso; now apply N).
  - rewrite B. apply Qltb_lt in B. apply Qle_bool_iff in L.
    destruct (Qeq_bool b 0) eqn:Z; [apply Qeq_bool_iff in Z; lra |]. cbn.
    replace (Num.Qltb (t / b) 1) with false; [reflexivity |].
    symmetry. apply Qltb_ge. apply Qle_shift_div_l; lra.
  - rewrite B. apply Qltb_lt in B.
    replace (Num.Qltb b 0) with false by (symmetry; apply Qltb_ge; lra).
    reflexivity.
Qed.

Lemma progress_not_full (b t : number) :
  Num.leb Num.zero t = true -> ~ (b = Infinity /\ t = Infinity) ->
  Num.gtb b Num.zero = true -> Num.leb b t = false ->
  Num.ltb (progressOf b t) Num.one = true.
Proof.
  unfold progressOf, Num.gtb, Num.zero, Num.one.
  destruct b as [| |b|], t as [| |t|]; cbn; intros T N B L;
    try discriminate; try reflexivity.
  rewrite B. apply Qltb_lt in B.
  assert (Lt : t < b).
  { apply Qnot_le_lt. intros H. apply Qle_bool_iff in H. congruence. }
  destruct (Qeq_bool b 0) eqn:Z; [apply Qeq_bool_iff in Z; lra |]. cbn.
  assert (D : t / b < 1) by (apply Qlt_shift_div_r; lra).
  replace (Num.Qltb (t / b) 1) with true by (symmetry; now apply Qltb_lt).
  cbn. now apply Qltb_lt.
Qed.

Lemma remaining_spent (b t : number) :
  Num.leb Num.zero t = true -> ~ (b = Infinity /\ t = Infinity) ->
  Num.leb b t = true -> remainingOf b t = Num.zero.
Proof.
  unfold remainingOf, Num.sub, Num.zero.
  destruct b as [| |b|], t as [| |t|]; cbn; intros T N L;
    try discriminate; try reflexivity; try (exfalso; now apply N).
  apply Qle_bool_iff in L.
  replace (Num.Qltb 0 (b + - t)) with false; [reflexivity |].
  symmetry. apply Qltb_ge. lra.
Qed.

Lemma offset_range (p : number) :
  Num.within Num.zero Num.one p ->
  Num.within Num.zero ProgressRing.circumference (ProgressRing.offset p).
Proof.
  intros W. destruct (within_unit p W) as (r & -> & R0 & R1).
  unfold ProgressRing.offset.
  change ProgressRing.circumference
    with (Finite (325414936593308240 # 562949953421312)).
  unfold Num.within, Num.zero, Num.one, Num.Math_min, Num.ltb.
  destruct (Num.Qltb r 1) eqn:E; cbn;
    split; (reflexivity || (apply Qle_bool_iff; lra)).
Qed.

Lemma height_range (r : Q) :
  0 <= r <= 1 ->
  Num.within (Num.ofZ 6) (Num.ofZ 80)
    (Num.Math_max (Num.ofZ 6) (NumJS.mul (Num.ofZ 80) (Finite r))).
Proof.
  intros [R0 R1]. unfold Num.within, Num.ofZ. cbn.
  destruct (Num.Qltb (inject_Z 6) (inject_Z 80 * r)) eqn:E; cbn.
  - apply Qltb_lt in E. split; apply Qle_bool_iff.
    + now apply Qlt_le_weak.
    + change (inject_Z 80) with (80 # 1). lra.
  - split; reflexivity.
Qed.

End Drawn.

(** X19: a bar of the weekly history, for a day's total [t >= 0] and a
    budget [b] (not both [Infinity]): its ratio is the value of the
    meter for that total; its height lies between 6 and 80; it is 6
    when the budget is not positive and 80 when the budget is positive
    and reached; and a red bar under a positive budget is a full
    bar. *)
Theorem WeeklyHistory_bar (b t : number) :
  Num.leb Num.zero t = true ->
  ~ (b = Infinity /\ t = Infinity) ->
  (WeeklyHistory.ratio b t == progressOf b t)%num
  /\ Num.within (Num.ofZ 6) (Num.ofZ 80) (WeeklyHistory.height b t)
  /\ (Num.gtb b Num.zero = false -> WeeklyHistory.height b t = Num.ofZ 6)
  /\ (Num.gtb b Num.zero = true -> Num.leb b t = true ->
      WeeklyHistory.height b t = Num.ofZ 80)
  /\ (Num.gtb b Num.zero = true ->
      WeeklyHistory.color b t = "rgba(239,68,68,0.95)" ->
      WeeklyHistory.height b t = Num.ofZ 80).
Proof.
  intros T N.
  assert (Full : Num.gtb b Num.zero = true -> Num.leb b t = true ->
                 WeeklyHistory.height b t = Num.ofZ 80).
  { intros B L. unfold WeeklyHistory.height.
    rewrite ratio_progress, (progress_full b t T N B L). reflexivity. }
  destruct (within_unit _ (progressOf_bounds b t T N)) as (r & P & R0 & R1).
  assert (Ratio : exists r', WeeklyHistory.ratio b t = Finite r'
                             /\ (0 <= r' <= 1)%Q /\ (r' == r)%Q).
  { rewrite ratio_progress, P. unfold Num.Math_max, Num.zero, Num.ltb.
    destruct (Num.Qltb 0 r) eqn:E.
    - exists r. repeat split; (assumption || reflexivity).
    - apply Qltb_ge in E. exists 0%Q. repeat split; lra. }
  destruct Ratio as (r' & Er & R' & Same).
  split; [rewrite Er, P; exact Same |].
  split; [unfold WeeklyHistory.height; rewrite Er; now apply height_range |].
  split.
  { intros B. unfold WeeklyHistory.height.
    rewrite ratio_progress. unfold progressOf. rewrite B. reflexivity. }
  split; [exact Full |].
  intros B Red. apply Full; [exact B |].
  unfold WeeklyHistory.color in Red.
  destruct (Num.leb t b) eqn:L; [discriminate |].
  unfold Num.gtb, Num.zero in B.
  destruct b as [| |b|], t as [| |t|]; cbn in *; try discriminate;
    try reflexivity.
  apply Qle_bool_iff. apply Qlt_le_weak, Qnot_le_lt.
  intros H. apply Qle_bool_iff in H. congruence.
Qed.

(** A day of 45 under a budget of 30, and a day of 15. *)
Lemma WeeklyHistory_bar_witness :
  WeeklyHistory.height (Num.ofZ 30) (Num.ofZ 45) = Num.ofZ 80
  /\ Num.within (Num.ofZ 6) (Num.ofZ 80)
       (WeeklyHistory.height (Num.ofZ 30) (Num.ofZ 15)).
Proof.
  split.
  - refine (proj1 (proj2 (proj2 (proj2
              (WeeklyHistory_bar (Num.ofZ 30) (Num.ofZ 45) _ _)))) _ _);
      try reflexivity.
    intros [B _]. discriminate.
  - refine (proj1 (proj2 (WeeklyHistory_bar (Num.ofZ 30) (Num.ofZ 15) _ _)));
      try reflexivity.
    intros [B _]. discriminate.
Defined.

(** X20: the ring of the meter, for a total [t >= 0] and a budget [b]
    (not both [Infinity]).  It is red exactly when the budget is
    positive and reached; it is then closed (offset 0) and nothing
    remains.  When the budget is not positive the ring is green and
    open (the offset is the whole circumference) although nothing
    remains either.  The offset always lies between 0 and the
    circumference. *)
Theorem ProgressRing_states (b t : number) :
  Num.leb Num.zero t = true ->
  ~ (b = Infinity /\ t = Infinity) ->
  let p := progressOf b t in
  (ProgressRing.color p = "#ef4444"
   <-> Num.gtb b Num.zero = true /\ Num.leb b t = true)
  /\ (ProgressRing.color p = "#ef4444" ->
      (ProgressRing.offset p == Num.zero)%num
      /\ remainingOf b t = Num.zero)
  /\ (Num.gtb b Num.zero = false ->
      ProgressRing.color p = "#10b981"
      /\ (ProgressRing.offset p == ProgressRing.circumference)%num
      /\ (Num.leb b Num.zero = true -> remainingOf b t = Num.zero))
  /\ Num.within Num.zero ProgressRing.circumference (ProgressRing.offset p).
Proof.
  intros T N. cbv zeta.
  assert (Red : ProgressRing.color (progressOf b t) = "#ef4444"
                <-> Num.gtb b Num.zero = true /\ Num.leb b t = true).
  { split.
    - intros C. destruct (Num.gtb b Num.zero) eqn:B.
      + split; [reflexivity |].
        destruct (Num.leb b t) eqn:L; [reflexivity |].
        pose proof (progress_not_full b t T N B L) as Lt.
        unfold ProgressRing.color in C. rewrite Lt in C.
        destruct (Num.ltb _ ProgressRing.literal_0_7); discriminate.
      + unfold progressOf in C. rewrite B in C. discriminate.
    - intros [B L]. now rewrite (progress_full b t T N B L). }
  split; [exact Red |].
  split.
  { intros C. apply Red in C as [B L].
    rewrite (progress_full b t T N B L).
    split; [vm_compute; reflexivity | now apply remaining_spent]. }
  split.
  { intros B. unfold progressOf. rewrite B.
    split; [reflexivity | split; [vm_compute; reflexivity |]].
    intros L. apply remaining_spent; try assumption.
    unfold Num.zero in *.
    destruct b as [| |b|], t as [| |t|]; cbn in *; try discriminate;
      try reflexivity.
    apply Qle_bool_iff in L, T. apply Qle_bool_iff. lra. }
  apply offset_range. now apply progressOf_bounds.
Qed.

(** Budget 20 with 25 spent, and no budget at all. *)
Lemma ProgressRing_states_witness :
  ProgressRing.color (progressOf (Num.ofZ 20) (Num.ofZ 25)) = "#ef4444"
  /\ ProgressRing.color (progressOf Num.zero (Num.ofZ 25)) = "#10b981".
Proof.
  split.
  - refine (proj2 (proj1 (ProgressRing_states (Num.ofZ 20) (Num.ofZ 25) _ _))
              _).
    + reflexivity.
    + intros [B _]. discriminate.
    + split; reflexivity.
  - refine (proj1 (proj1 (proj2 (proj2
              (ProgressRing_states Num.zero (Num.ofZ 25) _ _))) _)).
    + reflexivity.
    + intros [B _]. discriminate.
    + reflexivity.
Defined.

(** X21: in a session a quick chip never fails: the press of the chip
    of a listed amount [v] adds one entry of amount [v] to today's
    bucket, with the selected category and an empty note, after one
    light haptic impact. *)
Theorem pressQuickChip_adds
    (parseFloat : string -> number) (tz : Z) (key : string)
    (events : list Event) (rid : string) (nowMs : Z) (n : nat) (v : number) :
  let s := run parseFloat tz events (firstRender key) in
  nth_error (quickAmounts s) n = Some v ->
  pressQuickChip rid nowMs n s = addAmount rid nowMs v None None s
  /\ snd (pressQuickChip rid nowMs n s) = [HapticsImpact Light]
  /\ todayEntries (fst (pressQuickChip rid nowMs n s))
     = (todayEntries s ++ [mkEntry rid v nowMs (selectedCategory s) ""])%list.
Proof.
  cbv zeta. intros E.
  pose proof (invariant_run parseFloat tz events _
                (invariant_firstRender key)) as (_ & _ & (Q & _) & _).
  assert (P : Num.gtb v Num.zero = true).
  { rewrite Forall_forall in Q. apply Q. eapply nth_error_In, E. }
  unfold pressQuickChip. rewrite E.
  split; [reflexivity |].
  unfold addAmount. rewrite P. cbn [negb fst snd].
  split; [reflexivity |].
  unfold todayEntries, setBook, setShowAddExpense, setExpenseNote;
    cbn [book todayKey].
  now rewrite bucket_set_same.
Qed.

(** The chip of 10 on the first day. *)
Lemma pressQuickChip_adds_witness :
  todayEntries (fst (pressQuickChip "k3x" 1704189600000 2
                       (firstRender "2024-01-02")))
  = [mkEntry "k3x" (Num.ofZ 10) 1704189600000 "food" ""].
Proof.
  exact (proj2 (proj2 (pressQuickChip_adds noParse 0 "2024-01-02" []
                         "k3x" 1704189600000 2 (Num.ofZ 10) eq_refl))).
Defined.

(** ** Entries, keys and days *)

Lemma ensureToday_flat (s : AppState) :
  List.concat (Obj.values (book (ensureToday s)))
  = List.concat (Obj.values (book s)).
Proof.
  unfold ensureToday, setBook; cbn [book].
  destruct (Obj.get (todayKey s) (book s)) eqn:G; [reflexivity |].
  rewrite (set_absent _ _ _ G), values_append. apply app_nil_r.
Qed.

Section EntriesAndDays.
Variable tz : Z.

Lemma week_key_other (n i : Z) :
  i <> 0 ->
  dateKey tz (startOfLocalDay tz (n - i)) <> dateKey tz (startOfLocalDay tz n).
Proof.
  intros N E. apply dateKey_inj in E.
  rewrite !localDay_startOfLocalDay in E. lia.
Qed.

Lemma dayTotalOf_other (n : Z) (b : DayBook)
    (arr : list ExpenseEntry) (i : Z) :
  i <> 0 ->
  dayTotalOf tz (Obj.set (dateKey tz (startOfLocalDay tz n)) arr b) (n - i)
  = dayTotalOf tz b (n - i).
Proof.
  intros N. unfold dayTotalOf.
  now rewrite (bucket_set_other b _ _ arr (week_key_other n i N)).
Qed.

Lemma dayTotalOf_nonneg (b : DayBook) (n : Z) :
  positiveLedger b -> Num.leb Num.zero (total (dayTotalOf tz b n)) = true.
Proof.
  intros L. cbn [dayTotalOf total]. now apply sum_nonneg, positive_bucket.
Qed.

(** The entries counted by a test before and after an entry that
    passes it is put at the end of a bucket. *)
Lemma filter_set_snoc (p : ExpenseEntry -> bool) (b : DayBook) (k : string)
    (e : ExpenseEntry) :
  p e = true ->
  exists pre post : list ExpenseEntry,
    filter p (List.concat (Obj.values b)) = (pre ++ post)%list
    /\ filter p (List.concat
                   (Obj.values (Obj.set k (bucket b k ++ [e])%list b)))
       = (pre ++ e :: post)%list.
Proof.
  intros Pe. destruct (flat_set b k) as (pre & post & E & F).
  exists (filter p pre ++ filter p (bucket b k))%list, (filter p post).
  rewrite E, F, !filter_app. cbn [filter]. rewrite Pe.
  now rewrite <- !app_assoc.
Qed.

End EntriesAndDays.

(** X22: an amount added while the current key is the key of the day
    shows in the last bar of the week and in no other.  For two
    evaluations of the weekly totals made on the day of the key, one
    on the ledger before and one on the ledger after, the first six
    entries are the same, and the last, today's total before, is that
    total plus the amount afterwards.  The sum shown above the bars,
    which adds the last bar to the sum of the six others, is not lower
    afterwards on a ledger of positive amounts. *)
Theorem addAmount_week_sum
    (tz : Z) (clock clock' : nat -> JSDate.Date) (today : Z) (s : AppState)
    (rid : string) (nowMs : Z) (amt : number)
    (category note : option string) :
  Num.gtb amt Num.zero = true ->
  readsOnDay tz clock today ->
  readsOnDay tz clock' today ->
  todayKey s = dateKey tz (clock 7%nat) ->
  let s' := fst (addAmount rid nowMs amt category note s) in
  let week := last7Totals tz clock (book s) in
  let week' := last7Totals tz clock' (book s') in
  firstn 6 week' = firstn 6 week
  /\ (exists x x' : DayTotal,
        nth_error week 6 = Some x /\ nth_error week' 6 = Some x'
        /\ date x' = date x
        /\ total x = todayTotal s
        /\ total x' = Num.add (total x) amt
        /\ WeeklyHistory.sum week
           = Num.add (WeeklyHistory.sum (firstn 6 week)) (total x)
        /\ WeeklyHistory.sum week'
           = Num.add (WeeklyHistory.sum (firstn 6 week))
                     (Num.add (total x) amt))
  /\ (positiveLedger (book s) ->
      Num.leb (WeeklyHistory.sum week) (WeeklyHistory.sum week') = true).
Proof.
  intros P R R' K. cbv zeta.
  assert (K' : todayKey s = dateKey tz (startOfLocalDay tz today)).
  { rewrite K. apply dateKey_same_day.
    rewrite localDay_startOfLocalDay. apply R. lia. }
  rewrite (addAmount_book _ _ _ _ _ _ P).
  rewrite (last7Totals_unrolled tz clock _ today R).
  rewrite (last7Totals_unrolled tz clock' _ today R').
  rewrite K'. cbn [map firstn].
  rewrite !dayTotalOf_other by lia.
  replace (today - 0) with today by lia.
  assert (T : total (dayTotalOf tz (book s) today) = todayTotal s).
  { cbn [dayTotalOf total]. unfold todayTotal, todayEntries. now rewrite K'. }
  assert (T' : total (dayTotalOf tz
                        (Obj.set (dateKey tz (startOfLocalDay tz today))
                           (bucket (book s)
                              (dateKey tz (startOfLocalDay tz today))
                              ++ [mkEntry rid amt nowMs
                                    (match category with
                                     | Some c => c
                                     | None => selectedCategory s
                                     end)
                                    (match note with
                                     | Some n => n
                                     | None => ""
                                     end)])%list
                           (book s)) today)
               = Num.add (total (dayTotalOf tz (book s) today)) amt).
  { cbn [dayTotalOf total]. rewrite bucket_set_same. apply sumAmounts_snoc. }
  split; [reflexivity |].
  split.
  { eexists _, _. split; [reflexivity |]. split; [reflexivity |].
    split; [reflexivity |]. split; [exact T |]. split; [exact T' |].
    unfold WeeklyHistory.sum. cbn [fold_left]. rewrite T'.
    split; reflexivity. }
  intros L. unfold WeeklyHistory.sum. cbn [fold_left]. rewrite T'.
  assert (N : forall n, Num.leb Num.zero (total (dayTotalOf tz (book s) n))
                        = true)
    by (intros n; now apply dayTotalOf_nonneg).
  apply add_monotone_r.
  - repeat apply add_keeps_nonneg; (reflexivity || apply N).
  - apply N.
  - apply add_increases; [apply N | now apply gtb_leb].
Qed.

(** Five units tapped at noon on 2024-02-29 raise the last bar of that
    day from 0 to 0 + 5. *)
Lemma addAmount_week_sum_witness :
  exists x' : DayTotal,
    nth_error
      (last7Totals 0 (tickingFrom 1709204400100)
         (book (fst (addAmount "k3x" 1709204400000 (Num.ofZ 5) None None
                       (firstRender "2024-02-29"))))) 6
    = Some x'
    /\ total x' = Num.add Num.zero (Num.ofZ 5).
Proof.
  assert (P : Num.gtb (Num.ofZ 5) Num.zero = true) by reflexivity.
  assert (R : readsOnDay 0 (tickingFrom 1709200800000) 19782)
    by (apply tickingFrom_day; vm_compute; reflexivity).
  assert (R' : readsOnDay 0 (tickingFrom 1709204400100) 19782)
    by (apply tickingFrom_day; vm_compute; reflexivity).
  assert (K : todayKey (firstRender "2024-02-29")
              = dateKey 0 (tickingFrom 1709200800000 7%nat))
    by (vm_compute; reflexivity).
  destruct (proj1 (proj2 (addAmount_week_sum 0 (tickingFrom 1709200800000)
                            (tickingFrom 1709204400100) 19782
                            (firstRender "2024-02-29") "k3x" 1709204400000
                            (Num.ofZ 5) None None P R R' K)))
    as (x & x' & Hx & Hx' & _ & Tx & Tx' & _).
  exists x'. split; [exact Hx' |].
  rewrite Tx', Tx. reflexivity.
Defined.

(** X23: entries leave the ledger by the delete button and by the
    confirmed clearing of the day only: after any other event every
    entry is still in the bucket of the key it was under. *)
Theorem entries_kept
    (parseFloat : string -> number) (tz : Z) (ev : Event) (s : AppState) :
  (forall expenseId, ev <> DeletePressed expenseId) ->
  ev <> ClearTodayPressed Clear ->
  forall (k : string) (e : ExpenseEntry),
    In e (bucket (book s) k) ->
    In e (bucket (book (react parseFloat tz ev s)) k).
Proof.
  intros ND NC k e I.
  assert (Add : forall rid nowMs amt category note,
             In e (bucket (book (fst (addAmount rid nowMs amt category note s)))
                          k)).
  { intros rid nowMs amt category note. unfold addAmount.
    destruct (Num.gtb amt Num.zero) eqn:P; cbn [negb fst]; [| exact I].
    unfold setBook, setShowAddExpense, setExpenseNote; cbn [book].
    fold (bucket (book s) (todayKey s)).
    destruct (String.eqb_spec k (todayKey s)) as [->|N].
    - rewrite bucket_set_same. apply in_or_app. now left.
    - now rewrite bucket_set_other. }
  destruct ev; cbn [react]; try exact I.
  - now rewrite dayCheck_bucket.
  - unfold handleAppStateChange.
    destruct (String.eqb nextAppState "active").
    + fold (dayCheck tz now s). now rewrite dayCheck_bucket.
    + now rewrite String.eqb_refl.
  - unfold pressQuickChip.
    destruct (nth_error (quickAmounts s) n); [apply Add | exact I].
  - unfold pressAddExpense.
    destruct (isNaN _ || Num.leb _ Num.zero); [exact I |].
    pose proof (Add rid nowMs
                  (parseFloat (replaceFirst "," "." (customAmount s)))
                  (Some (selectedCategory s)) (Some (expenseNote s))) as A.
    destruct (addAmount _ _ _ _ _ s). exact A.
  - exfalso. now apply (ND expenseId).
  - destruct pressed; [exact I | congruence].
  - unfold submitQuickAmount. now destruct (Num.gtb _ Num.zero).
Qed.

(** A check of the date on the next day keeps the entry of the day. *)
Lemma entries_kept_witness :
  In (mkEntry "k3x" (Num.ofZ 5) 1709204400000 "food" "")
     (bucket
        (book (react noParse 0 (DateChecked 1709283600000)
                 (fst (addAmount "k3x" 1709204400000 (Num.ofZ 5) None None
                         (firstRender "2024-02-29")))))
        "2024-02-29").
Proof.
  apply (entries_kept noParse 0 (DateChecked 1709283600000)).
  - discriminate.
  - discriminate.
  - left. reflexivity.
Defined.

(** X24: the bucket of a new entry is chosen by the current key, not
    by the entry's timestamp.  When the key is stale (an expense
    entered after midnight before the next check of the date), the
    entry goes under the old key: the bucket of the day of its
    timestamp is unchanged, and after the next check of the date
    today's entries are what that bucket held before, although the
    entries counted for this month, at that instant, are those counted
    before together with the new one; on a ledger of positive amounts
    this month's total is then not lower than before. *)
Theorem addAmount_stale_key
    (tz : Z) (s : AppState) (rid : string) (nowMs : Z)
    (amt : number) (category note : option string) :
  Num.gtb amt Num.zero = true ->
  dateKey tz nowMs <> todayKey s ->
  let s' := fst (addAmount rid nowMs amt category note s) in
  let month x := thisMonthTotal (spendingSummary tz nowMs (book x)) in
  let counted x :=
    filter (fun e => inMonthOf tz nowMs (timestamp e))
           (List.concat (Obj.values (book x))) in
  (exists e, In e (bucket (book s') (todayKey s))
             /\ id e = rid /\ timestamp e = nowMs)
  /\ bucket (book s') (dateKey tz nowMs) = bucket (book s) (dateKey tz nowMs)
  /\ todayEntries (dayCheck tz nowMs s') = bucket (book s) (dateKey tz nowMs)
  /\ (exists (pre post : list ExpenseEntry) (e : ExpenseEntry),
        counted s = (pre ++ post)%list
        /\ counted (dayCheck tz nowMs s') = (pre ++ e :: post)%list
        /\ id e = rid /\ amount e = amt /\ timestamp e = nowMs)
  /\ month (dayCheck tz nowMs s') = sumAmounts (counted (dayCheck tz nowMs s'))
  /\ (positiveLedger (book s) ->
      Num.leb (month s) (month (dayCheck tz nowMs s')) = true).
Proof.
  intros P N. cbv beta zeta.
  set (e := mkEntry rid amt nowMs
              (match category with
               | Some c => c
               | None => selectedCategory s
               end)
              (match note with Some n => n | None => "" end)).
  set (p := fun e : ExpenseEntry => inMonthOf tz nowMs (timestamp e)).
  assert (Bk : book (fst (addAmount rid nowMs amt category note s))
               = Obj.set (todayKey s) (bucket (book s) (todayKey s) ++ [e])%list
                         (book s))
    by now apply addAmount_book.
  assert (B : bucket (book (fst (addAmount rid nowMs amt category note s)))
                     (dateKey tz nowMs)
              = bucket (book s) (dateKey tz nowMs)).
  { rewrite Bk. now apply bucket_set_other. }
  split.
  { exists e. rewrite Bk, bucket_set_same.
    split; [apply in_or_app; right; left; reflexivity | now split]. }
  split; [exact B |].
  split.
  { unfold todayEntries. now rewrite dayCheck_bucket, dayCheck_key. }
  assert (Flat : List.concat (Obj.values
                    (book (dayCheck tz nowMs
                             (fst (addAmount rid nowMs amt category note s)))))
                 = List.concat (Obj.values
                     (book (fst (addAmount rid nowMs amt category note s))))).
  { unfold dayCheck. destruct (String.eqb _ _).
    - now rewrite updateDate_book.
    - now rewrite ensureToday_flat, updateDate_book. }
  assert (Pe : p e = true)
    by (unfold p; cbn [timestamp e]; now apply inMonthOf_same_day).
  destruct (filter_set_snoc p (book s) (todayKey s) e Pe)
    as (pre & post & C & C').
  rewrite !thisMonthTotal_filter, Flat, Bk. fold p.
  split.
  { exists pre, post, e. split; [exact C |]. split; [exact C' |].
    now repeat split. }
  split; [reflexivity |].
  intros L. rewrite C, C'.
  change (e :: post) with ([e] ++ post)%list. apply sumAmounts_grows.
  change ([e] ++ post)%list with (e :: post). rewrite <- C'.
  apply positive_filter. apply positive_set; [exact L |].
  apply Forall_app. split; [now apply positive_bucket |].
  constructor; [exact P | constructor].
Qed.

(** Five units entered one minute after midnight on a state left at
    2024-02-29. *)
Lemma addAmount_stale_key_witness :
  todayEntries
    (dayCheck 0 1709251260000
       (fst (addAmount "k3x" 1709251260000 (Num.ofZ 5) None None
               (firstRender "2024-02-29"))))
  = [].
Proof.
  assert (P : Num.gtb (Num.ofZ 5) Num.zero = true) by reflexivity.
  assert (N : dateKey 0 1709251260000 <> todayKey (firstRender "2024-02-29"))
    by (vm_compute; discriminate).
  exact (proj1 (proj2 (proj2
           (addAmount_stale_key 0 (firstRender "2024-02-29") "k3x"
              1709251260000 (Num.ofZ 5) None None P N)))).
Defined.
